(** * Apple Health export parser and sleep-session builder

    A shallow embedding of [apple_health_parser/sleep.py] and
    [apple_health_parser/parser.py], followed by the properties the
    specification states about them and by further properties of the code.

    Conventions of the embedding.
    - A Python exception is a value of [exn]; code that may raise lives in
      the [exc] monad, and [try ... except ValueError] is
      [try_except_ValueError].
    - Python lists are [list]s; a list built with [append] in a loop is
      threaded through the loop as an accumulator, as in the source.
    - A [str] is a [string], its characters being code points below 256.
    - In sleep.py every datetime is timezone-aware.  Aware datetimes are
      compared, hashed and subtracted through the UTC instant they denote, so
      there a datetime is that instant, an integer count of microseconds, and
      a [timedelta] is a difference of two such counts.
    - In parser.py datetimes come out of the standard library and may lack a
      zone; they are [pydatetime] values, and [datetime.fromisoformat] and
      [datetime.strptime] are the two fields of the class [DatetimeLibrary].
    - A parsed document is the tree of its elements; comments and processing
      instructions are left out.
    - Recursion is as deep as the data: the interpreter's recursion limit
      and the exhaustion of memory are not modelled, so that [exn] lists
      the exceptions the code raises by its own logic. *)

From Stdlib Require Import ZArith List Bool String Ascii Lia.
Import ListNotations.
Open Scope Z_scope.

(** ** Exceptions *)

Inductive exn : Type :=
| ValueError
| TypeError
| AttributeError
| IndexError.

Inductive exc (A : Type) : Type :=
| Ok (a : A)
| Raise (e : exn).

Arguments Ok {A} a.
Arguments Raise {A} e.

Definition bind {A B : Type} (m : exc A) (k : A -> exc B) : exc B :=
  match m with
  | Ok a => k a
  | Raise e => Raise e
  end.

Notation "x <- m ;; k" := (bind m (fun x => k))
  (at level 61, m at next level, right associativity).

(** [mapM f l]: run [f] on every element from left to right, stopping at the
    first exception. *)
Fixpoint mapM {A B : Type} (f : A -> exc B) (l : list A) : exc (list B) :=
  match l with
  | [] => Ok []
  | x :: r => y <- f x ;; ys <- mapM f r ;; Ok (y :: ys)
  end.

(** [l[-1]] *)
Definition last_item {A : Type} (l : list A) : exc A :=
  match l with
  | [] => Raise IndexError
  | x :: r => Ok (last r x)
  end.

(** ** sleep.py *)

Definition datetime := Z.
Definition timedelta := Z.

Definition microseconds (n : Z) : timedelta := n.
Definition seconds (n : Z) : timedelta := n * 1000000.
Definition minutes (n : Z) : timedelta := n * 60000000.
Definition hours (n : Z) : timedelta := n * 3600000000.

(** [SLEEP_STAGES.values()], in the order of the dictionary literal. *)
Definition SLEEP_STAGES_values : list string :=
  ["Awake"; "Core"; "Deep"; "REM"; "InBed"; "Asleep"; "Unspecified";
   "Unspecified"]%string.

Definition _STAGE_PRIORITY : list (string * Z) :=
  [("Awake", 5); ("REM", 4); ("Deep", 3); ("Core", 2); ("Asleep", 1);
   ("Unspecified", 0)]%string.

(** [d.get(k, default)] on a dictionary with string keys. *)
Fixpoint dict_get {V : Type} (d : list (string * V)) (k : string) (default : V) : V :=
  match d with
  | [] => default
  | (k', v) :: r => if String.eqb k' k then v else dict_get r k default
  end.

(** [x in values] *)
Definition str_in (x : string) (values : list string) : bool :=
  existsb (String.eqb x) values.

Module SleepSegment.

Record t : Type := Build { start_dt : datetime; end_dt : datetime; stage : string }.

Definition __post_init__ (self : t) : exc unit :=
  if end_dt self <? start_dt self then Raise ValueError
  else if negb (str_in (stage self) SLEEP_STAGES_values) then Raise ValueError
  else Ok tt.

(** The constructor call [SleepSegment(start_dt=a, end_dt=b, stage=st)]. *)
Definition new (a b : datetime) (st : string) : exc t :=
  let self := Build a b st in
  _ <- __post_init__ self ;; Ok self.

Definition duration (self : t) : timedelta := end_dt self - start_dt self.

End SleepSegment.

Definition segment : Type := SleepSegment.t.

(** [sorted(segs, key=lambda s: (s.start_dt, s.end_dt))]: Python's sort is
    stable, and a stable sort is determined by its key order; insertion from
    the right, placing an element before the first one whose key is not
    smaller, is such a sort. *)
Definition key_le (x y : segment) : bool :=
  (SleepSegment.start_dt x <? SleepSegment.start_dt y)
  || ((SleepSegment.start_dt x =? SleepSegment.start_dt y)
      && (SleepSegment.end_dt x <=? SleepSegment.end_dt y)).

Fixpoint insert_by_key (x : segment) (l : list segment) : list segment :=
  match l with
  | [] => [x]
  | y :: r => if key_le x y then x :: y :: r else y :: insert_by_key x r
  end.

Definition sorted_by_key (l : list segment) : list segment :=
  fold_right insert_by_key [] l.

(** [sorted(set(ts))]: the distinct values in ascending order. *)
Fixpoint insert_uniq (x : datetime) (l : list datetime) : list datetime :=
  match l with
  | [] => [x]
  | y :: r =>
      if x <? y then x :: y :: r
      else if x =? y then y :: r
      else y :: insert_uniq x r
  end.

Definition sorted_set (ts : list datetime) : list datetime :=
  fold_right insert_uniq [] ts.

(** [max(l, key=key)] on a non-empty list [first :: rest]: the first element
    whose key is maximal. *)
Fixpoint max_by {A : Type} (key : A -> Z) (best : A) (rest : list A) : A :=
  match rest with
  | [] => best
  | x :: r => if key best <? key x then max_by key x r else max_by key best r
  end.

Module SleepSession.

Record t : Type :=
  Build { start_dt : datetime; end_dt : datetime; segments : list segment }.

Definition duration (self : t) : timedelta := end_dt self - start_dt self.

(** [sum(gen, timedelta())] *)
Definition sum_durations (l : list segment) : timedelta :=
  fold_left (fun acc s => acc + SleepSegment.duration s) l 0.

Definition asleep_duration (self : t) : timedelta :=
  sum_durations
    (filter (fun s => negb (String.eqb (SleepSegment.stage s) "Awake"))
            (segments self)).

Definition awake_duration (self : t) : timedelta :=
  sum_durations
    (filter (fun s => String.eqb (SleepSegment.stage s) "Awake")
            (segments self)).

Definition awakenings (self : t) : Z :=
  fold_left (fun acc (_ : segment) => acc + 1)
    (filter (fun s => String.eqb (SleepSegment.stage s) "Awake"
                      && (minutes 2 <=? SleepSegment.duration s))
            (segments self)) 0.

(** The filter shared by [_normalize] and [build_sleep_sessions]:
    [s.stage != "InBed" and s.duration > timedelta(0)]. *)
Definition kept (s : segment) : bool :=
  negb (String.eqb (SleepSegment.stage s) "InBed")
  && (0 <? SleepSegment.duration s).

Definition covers (a b : datetime) (s : segment) : bool :=
  (SleepSegment.start_dt s <? b) && (a <? SleepSegment.end_dt s).

Definition priority (s : segment) : Z :=
  dict_get _STAGE_PRIORITY (SleepSegment.stage s) 0.

(** The loop over [zip(boundaries, boundaries[1:])]; [result] is the list
    the loop appends to. *)
Fixpoint resolve_loop (segs : list segment) (result : list segment)
         (intervals : list (datetime * datetime)) : exc (list segment) :=
  match intervals with
  | [] => Ok result
  | (a, b) :: rest =>
      match filter (covers a b) segs with
      | [] => resolve_loop segs result rest
      | c :: cs =>
          let winner_stage := SleepSegment.stage (max_by priority c cs) in
          seg <- SleepSegment.new a b winner_stage ;;
          resolve_loop segs (result ++ [seg]) rest
      end
  end.

(** The loop over [result[1:]]; [merged] is the list under construction. *)
Fixpoint merge_loop (merged : list segment) (rest : list segment)
  : exc (list segment) :=
  match rest with
  | [] => Ok merged
  | seg :: rest' =>
      prev <- last_item merged ;;
      if String.eqb (SleepSegment.stage seg) (SleepSegment.stage prev)
         && (SleepSegment.start_dt seg =? SleepSegment.end_dt prev)
      then
        m <- SleepSegment.new (SleepSegment.start_dt prev)
               (SleepSegment.end_dt seg) (SleepSegment.stage seg) ;;
        merge_loop (removelast merged ++ [m]) rest'
      else merge_loop (merged ++ [seg]) rest'
  end.

Definition boundaries_of (segs : list segment) : list datetime :=
  sorted_set
    (flat_map (fun s => [SleepSegment.start_dt s; SleepSegment.end_dt s]) segs).

Definition _normalize (segs : list segment) : exc (list segment) :=
  let segs := filter kept segs in
  match segs with
  | [] => Ok []
  | _ :: _ =>
      let segs := sorted_by_key segs in
      let boundaries := boundaries_of segs in
      result <- resolve_loop segs [] (combine boundaries (tl boundaries)) ;;
      match result with
      | [] => Ok []
      | r0 :: rest => merge_loop [r0] rest
      end
  end.

Definition from_segments (segs : list segment) : exc t :=
  norm <- _normalize segs ;;
  match norm with
  | [] => Raise ValueError
  | n0 :: rest =>
      Ok (Build (SleepSegment.start_dt n0) (SleepSegment.end_dt (last rest n0)) norm)
  end.

End SleepSession.

Definition session : Type := SleepSession.t.

(** The [for seg in segs] loop of [build_sleep_sessions]. *)
Fixpoint group_loop (gap : timedelta) (sessions : list session)
         (current : list segment) (segs : list segment) : exc (list session) :=
  match segs with
  | [] =>
      match current with
      | [] => Ok sessions
      | _ :: _ =>
          s <- SleepSession.from_segments current ;; Ok (sessions ++ [s])
      end
  | seg :: rest =>
      match current with
      | [] => group_loop gap sessions [seg] rest
      | c0 :: cs =>
          if gap <? SleepSegment.start_dt seg - SleepSegment.end_dt (last cs c0)
          then
            s <- SleepSession.from_segments current ;;
            group_loop gap (sessions ++ [s]) [seg] rest
          else group_loop gap sessions (current ++ [seg]) rest
      end
  end.

Definition build_sleep_sessions (segments : list segment) (gap : timedelta)
  : exc (list session) :=
  let segs := filter SleepSession.kept segments in
  match segs with
  | [] => Ok []
  | _ :: _ => group_loop gap [] [] segs
  end.

(** ** parser.py *)

(** [try: body except ValueError: handler] *)
Definition try_except_ValueError {A : Type} (body handler : exc A) : exc A :=
  match body with
  | Raise ValueError => handler
  | _ => body
  end.

(** *** Dictionaries

    A [dict] with string keys is the list of its items in insertion order,
    each key once. *)
Fixpoint dict_find {V : Type} (d : list (string * V)) (k : string) : option V :=
  match d with
  | [] => None
  | (k', v) :: r => if String.eqb k' k then Some v else dict_find r k
  end.

(** [d[k] = v]: an existing key keeps its place. *)
Fixpoint dict_set {V : Type} (d : list (string * V)) (k : string) (v : V)
  : list (string * V) :=
  match d with
  | [] => [(k, v)]
  | (k', v') :: r =>
      if String.eqb k' k then (k', v) :: r else (k', v') :: dict_set r k v
  end.

(** [d.setdefault(k, v)], the dictionary afterwards. *)
Definition dict_setdefault {V : Type} (d : list (string * V)) (k : string) (v : V)
  : list (string * V) :=
  match dict_find d k with
  | Some _ => d
  | None => dict_set d k v
  end.

(** [dict(items)] *)
Definition dict_of_items {V : Type} (items : list (string * V))
  : list (string * V) :=
  fold_left (fun d kv => dict_set d (fst kv) (snd kv)) items [].

(** *** Datetimes of the standard library

    A [datetime] object carries its wall-clock reading, in microseconds on
    the proleptic Gregorian calendar, and the UTC offset of its [tzinfo] when
    it has one. *)
Inductive pydatetime : Type :=
| Naive (wall : Z)
| Aware (wall : Z) (utcoffset : Z).

Definition wall_clock (d : pydatetime) : Z :=
  match d with
  | Naive w => w
  | Aware w _ => w
  end.

Definition is_aware (d : pydatetime) : bool :=
  match d with
  | Naive _ => false
  | Aware _ _ => true
  end.

(** The UTC instant of an aware datetime. *)
Definition instant (d : pydatetime) : Z :=
  match d with
  | Naive w => w
  | Aware w off => w - off
  end.

(** [d.replace(tzinfo=timezone.utc)] *)
Definition replace_utc (d : pydatetime) : pydatetime := Aware (wall_clock d) 0.

(** [a < b]: aware datetimes compare by instant, naive ones by wall clock,
    and comparing one of each raises [TypeError]. *)
Definition dt_lt (a b : pydatetime) : exc bool :=
  match a, b with
  | Aware _ _, Aware _ _ => Ok (instant a <? instant b)
  | Naive w1, Naive w2 => Ok (w1 <? w2)
  | _, _ => Raise TypeError
  end.

(** [a == b] *)
Definition dt_eqb (a b : pydatetime) : bool :=
  match a, b with
  | Aware _ _, Aware _ _ => instant a =? instant b
  | Naive w1, Naive w2 => w1 =? w2
  | _, _ => false
  end.

(** The two parsers of [datetime] that [to_datetime] calls.  What they accept
    is the library's business; the code relies on them through this
    interface only. *)
Class DatetimeLibrary : Type := {
  fromisoformat : string -> exc pydatetime;
  strptime : string -> string -> exc pydatetime
}.

(** *** Strings *)

(** [c.isspace()] for a code point below 256. *)
Definition isspace (c : ascii) : bool :=
  let n := N_of_ascii c in
  (((9 <=? n) && (n <=? 13)) || ((28 <=? n) && (n <=? 32))
   || (n =? 133) || (n =? 160))%N.

Fixpoint lstrip_chars (l : list ascii) : list ascii :=
  match l with
  | [] => []
  | c :: r => if isspace c then lstrip_chars r else l
  end.

(** [s.strip()] *)
Definition strip (s : string) : string :=
  string_of_list_ascii
    (rev (lstrip_chars (rev (lstrip_chars (list_ascii_of_string s))))).

(** [s[-1:] in {"Z", "z"}] *)
Definition ends_with_zulu (s : string) : bool :=
  match rev (list_ascii_of_string s) with
  | [] => false
  | c :: _ => Ascii.eqb c "Z" || Ascii.eqb c "z"
  end.

(** [s[:-1]] *)
Definition drop_last (s : string) : string :=
  string_of_list_ascii (removelast (list_ascii_of_string s)).

(** *** [to_datetime] *)

(** What a caller may pass to [to_datetime]. *)
Inductive pyarg : Type :=
| ArgNone
| ArgStr (s : string)
| ArgDatetime (d : pydatetime)
| ArgOther.

Section ToDatetime.
Context {lib : DatetimeLibrary}.

Definition to_datetime (value : pyarg) : exc (option pydatetime) :=
  match value with
  | ArgDatetime d => Ok (Some (if is_aware d then d else replace_utc d))
  | ArgStr v =>
      let s := strip v in
      if String.eqb s "" then Ok None
      else if ends_with_zulu s then
        try_except_ValueError
          (d <- fromisoformat (drop_last s ++ "+00:00") ;; Ok (Some d))
          (Ok None)
      else
        try_except_ValueError
          (d <- strptime s "%Y-%m-%d %H:%M:%S %z" ;; Ok (Some d))
          (try_except_ValueError
             (dt <- fromisoformat s ;;
              Ok (Some (if is_aware dt then dt else replace_utc dt)))
             (try_except_ValueError
                (d <- strptime s "%Y-%m-%d %H:%M:%S" ;; Ok (Some (replace_utc d)))
                (try_except_ValueError
                   (d <- strptime s "%Y-%m-%d" ;; Ok (Some (replace_utc d)))
                   (Ok None))))
  | ArgNone | ArgOther => Ok None
  end.

End ToDatetime.

(** *** Elements and attribute values *)

(** A parsed element: its tag, its attributes in document order, its child
    elements. *)
Inductive element : Type :=
| Element (tag : string) (attrib : list (string * string))
          (children : list element).

Module Elem.
Definition tag (e : element) : string :=
  match e with Element t _ _ => t end.
Definition attrib (e : element) : list (string * string) :=
  match e with Element _ a _ => a end.
Definition children (e : element) : list element :=
  match e with Element _ _ c => c end.
(** [elem.get(name)] *)
Definition get (e : element) (name : string) : option string :=
  dict_find (attrib e) name.
End Elem.

(** A value of an attribute dictionary: a string, or the list of the
    dictionaries of the nested children of one tag. *)
Inductive value : Type :=
| VStr (s : string)
| VList (items : list (list (string * value))).

Definition pydict : Type := list (string * value).

(** Truth value of [v] in [v or ...]. *)
Definition truthy (v : value) : bool :=
  match v with
  | VStr s => negb (String.eqb s "")
  | VList [] => false
  | VList (_ :: _) => true
  end.

(** [x or y], for [x] the result of [attrs.get(...)]. *)
Definition get_or (x : option value) (y : value) : value :=
  match x with
  | Some v => if truthy v then v else y
  | None => y
  end.

(** [v == s] for a string literal [s]. *)
Definition is_str (v : value) (s : string) : bool :=
  match v with
  | VStr s' => String.eqb s' s
  | VList _ => false
  end.

(** The argument [attrs.get(name)] hands to [to_datetime]. *)
Definition arg_of (x : option value) : pyarg :=
  match x with
  | None => ArgNone
  | Some (VStr s) => ArgStr s
  | Some (VList _) => ArgOther
  end.

(** [v in allowed] for a set of strings: a list is unhashable. *)
Definition in_set (v : value) (allowed : list string) : exc bool :=
  match v with
  | VStr s => Ok (existsb (String.eqb s) allowed)
  | VList _ => Raise TypeError
  end.

Module HealthRecord.

Record t : Type := Build {
  tag : value;
  record_type : value;
  start_dt : option pydatetime;
  end_dt : option pydatetime;
  attributes : pydict
}.

Definition _determine_record_type (tag : value) (attrs : pydict) : value :=
  let typ := dict_find attrs "type" in
  if is_str tag "Workout" then get_or (dict_find attrs "workoutActivityType") tag
  else if is_str tag "Correlation" || is_str tag "Audiogram"
          || is_str tag "ClinicalRecord" then get_or typ tag
  else if is_str tag "ActivitySummary" || is_str tag "Me"
          || is_str tag "ExportDate" then tag
  else get_or typ tag.

(** [a or b or c] on optional datetimes. *)
Definition first_of (a b c : option pydatetime) : option pydatetime :=
  match a with
  | Some _ => a
  | None => match b with Some _ => b | None => c end
  end.

Fixpoint _parse_attributes (elem : element) : exc pydict :=
  match elem with
  | Element _ attrib children =>
      (fix loop (attrs : pydict) (cs : list element) {struct cs} : exc pydict :=
         match cs with
         | [] => Ok attrs
         | child :: rest =>
             if String.eqb (Elem.tag child) "MetadataEntry" then
               match Elem.get child "key", Elem.get child "value" with
               | Some key, Some value =>
                   if negb (String.eqb key "")
                   then loop (dict_set attrs key (VStr value)) rest
                   else loop attrs rest
               | _, _ => loop attrs rest
               end
             else
               nested <- _parse_attributes child ;;
               let nested :=
                 dict_setdefault nested "_tag" (VStr (Elem.tag child)) in
               match dict_find attrs (Elem.tag child) with
               | None =>
                   loop (dict_set attrs (Elem.tag child) (VList [nested])) rest
               | Some (VList items) =>
                   loop (dict_set attrs (Elem.tag child)
                           (VList (items ++ [nested]))) rest
               | Some (VStr _) => Raise AttributeError
               end
         end)
        (dict_of_items (map (fun kv => (fst kv, VStr (snd kv))) attrib))
        children
  end.

Section WithLibrary.
Context {lib : DatetimeLibrary}.

Definition _derive_time_window (attrs : pydict)
  : exc (option pydatetime * option pydatetime) :=
  s <- to_datetime (arg_of (dict_find attrs "startDate")) ;;
  c <- to_datetime (arg_of (dict_find attrs "creationDate")) ;;
  e <- to_datetime (arg_of (dict_find attrs "endDate")) ;;
  let start_dt := first_of s c e in
  let end_dt := first_of e s c in
  match start_dt, end_dt with
  | Some sd, Some ed =>
      lt <- dt_lt ed sd ;;
      if lt then Ok (start_dt, start_dt) else Ok (start_dt, end_dt)
  | _, _ => Ok (start_dt, end_dt)
  end.

Definition from_element (elem : element) : exc t :=
  attrs <- _parse_attributes elem ;;
  let tag := VStr (Elem.tag elem) in
  let attrs := dict_set attrs "_tag" tag in
  let record_type := _determine_record_type tag attrs in
  let attrs := dict_set attrs "_type" record_type in
  w <- _derive_time_window attrs ;;
  Ok (Build tag record_type (fst w) (snd w) attrs).

Definition from_dict (attrs : pydict) : exc t :=
  let tag :=
    get_or (dict_find attrs "_tag")
      (get_or (dict_find attrs "tag") (VStr "Record")) in
  let attrs := dict_set attrs "_tag" tag in
  let record_type :=
    get_or (dict_find attrs "_type") (_determine_record_type tag attrs) in
  let attrs := dict_set attrs "_type" record_type in
  w <- _derive_time_window attrs ;;
  Ok (Build tag record_type (fst w) (snd w) attrs).

End WithLibrary.

Definition intersects_time_window (self : t)
           (window_start window_end : option pydatetime) : exc bool :=
  match window_start, window_end with
  | None, None => Ok true
  | _, _ =>
      match start_dt self, end_dt self with
      | Some sd, Some ed =>
          before <- match window_start with
                    | Some ws => dt_lt ed ws
                    | None => Ok false
                    end ;;
          if before then Ok false
          else
            after <- match window_end with
                     | Some we => dt_lt we sd
                     | None => Ok false
                     end ;;
            if after then Ok false else Ok true
      | _, _ => Ok false
      end
  end.

(** [allowed] is [None] or a set of strings. *)
Definition is_any_of_types (self : t) (allowed : option (list string))
  : exc bool :=
  match allowed with
  | None => Ok true
  | Some allowed =>
      a <- in_set (record_type self) allowed ;;
      if a then Ok true else in_set (tag self) allowed
  end.

Definition to_dict (self : t) : pydict := attributes self.

End HealthRecord.

(** *** The streaming reader *)

(** What a generator did before it stopped: the values it yielded, and the
    exception that ended it when it did not run to completion. *)
Record generated (A : Type) : Type :=
  Generated { yielded : list A; raised : option exn }.

Arguments Generated {A} yielded raised.
Arguments yielded {A} g.
Arguments raised {A} g.

(** A [for] loop whose body yields a value, skips the element ([continue]) or
    raises. *)
Fixpoint generate {A B : Type} (body : A -> exc (option B)) (l : list A)
  : generated B :=
  match l with
  | [] => Generated [] None
  | x :: rest =>
      match body x with
      | Raise e => Generated [] (Some e)
      | Ok None => generate body rest
      | Ok (Some y) =>
          let g := generate body rest in
          Generated (y :: yielded g) (raised g)
      end
  end.

(** [etree.iterparse(..., events=("end",))] delivers every element when its
    end tag is read, children before parents, and the loop keeps the
    elements whose parent carries the root's tag.  Whatever it does with a
    kept element, the loop then calls [_cleanup] on it, which clears the
    element (tag kept, attributes and children gone) and removes its earlier
    siblings from the parent.  [events_in root_tag e] is the list of kept
    elements below [e], each as it is when its event is delivered, paired
    with [e] as it is when its own event is delivered;
    [events_of_children] does the same for the children of an element whose
    tag is the root's ([kept_here]) or is not. *)
Definition events_of_children (kept_here : bool)
           (events_in : element -> list element * element)
  : list element -> list element * list element :=
  fix go (cs : list element) : list element * list element :=
    match cs with
    | [] => ([], [])
    | c :: rest =>
        let (inside, c') := events_in c in
        let (later, rest') := go rest in
        if kept_here
        then (inside ++ c' :: later,
              match rest with
              | [] => [Element (Elem.tag c) [] []]
              | _ :: _ => rest'
              end)
        else (inside ++ later, c' :: rest')
    end.

Fixpoint events_in (root_tag : string) (e : element) : list element * element :=
  match e with
  | Element tag attrib children =>
      let r :=
        events_of_children (String.eqb tag root_tag) (events_in root_tag)
          children in
      (fst r, Element tag attrib (snd r))
  end.

(** The elements the loop body of [iter_health_records] gets past its guard
    [parent is None or parent.tag != root_tag]. *)
Definition top_level_events (root : element) : list element :=
  fst (events_in (Elem.tag root) root).

(** [a or b] on the results of [elem.get]. *)
Definition str_or (a b : option string) : option string :=
  match a with
  | Some s => if String.eqb s "" then b else a
  | None => b
  end.

(** The argument [elem.get(name)] hands to [to_datetime]. *)
Definition arg_of_str (x : option string) : pyarg :=
  match x with
  | None => ArgNone
  | Some s => ArgStr s
  end.

Section Reader.
Context {lib : DatetimeLibrary}.

(** The early type pre-filter: [true] when the element is discarded. *)
Definition type_prefilter (types_set : option (list string)) (elem : element)
  : bool :=
  match types_set with
  | Some ((_ :: _) as ts) =>
      match str_or (Elem.get elem "type") (Elem.get elem "workoutActivityType") with
      | Some elem_type =>
          negb (String.eqb elem_type "")
          && negb (existsb (String.eqb elem_type) ts)
          && negb (existsb (String.eqb (Elem.tag elem)) ts)
      | None => false
      end
  | _ => false
  end.

(** The early time pre-filter: [true] when the element is discarded. *)
Definition time_prefilter (start_dt end_dt : option pydatetime) (elem : element)
  : exc bool :=
  match start_dt, end_dt with
  | None, None => Ok false
  | _, _ =>
      elem_start <- to_datetime (arg_of_str (Elem.get elem "startDate")) ;;
      elem_end <- to_datetime (arg_of_str (Elem.get elem "endDate")) ;;
      before <- match start_dt, elem_end with
                | Some sd, Some ee => dt_lt ee sd
                | _, _ => Ok false
                end ;;
      if before then Ok true
      else
        match end_dt, elem_start with
        | Some ed, Some es => dt_lt ed es
        | _, _ => Ok false
        end
  end.

(** Full parsing and final validation. *)
Definition full_filter (types_set : option (list string))
           (start_dt end_dt : option pydatetime) (elem : element)
  : exc (option HealthRecord.t) :=
  record <- HealthRecord.from_element elem ;;
  a <- HealthRecord.is_any_of_types record types_set ;;
  if a then
    b <- HealthRecord.intersects_time_window record start_dt end_dt ;;
    Ok (if b then Some record else None)
  else Ok None.

(** The body of the loop, past the guard. *)
Definition process (types_set : option (list string))
           (start_dt end_dt : option pydatetime) (elem : element)
  : exc (option HealthRecord.t) :=
  if type_prefilter types_set elem then Ok None
  else
    discard <- time_prefilter start_dt end_dt elem ;;
    if discard then Ok None
    else full_filter types_set start_dt end_dt elem.

(** The statements before the loop: the window, validated, and
    [set(types) if types else None]. *)
Definition window (start end_ : pyarg)
  : exc (option pydatetime * option pydatetime) :=
  start_dt <- to_datetime start ;;
  end_dt <- to_datetime end_ ;;
  reversed <- match start_dt, end_dt with
              | Some sd, Some ed => dt_lt ed sd
              | _, _ => Ok false
              end ;;
  if reversed then Raise ValueError else Ok (start_dt, end_dt).

Definition types_set_of (types : option (list string)) : option (list string) :=
  match types with
  | Some (_ :: _) => types
  | _ => None
  end.

(** [iter_health_records] on the document whose root element is [root]. *)
Definition iter_health_records (root : element) (types : option (list string))
           (start end_ : pyarg) : generated HealthRecord.t :=
  match window start end_ with
  | Raise e => Generated [] (Some e)
  | Ok (start_dt, end_dt) =>
      generate (process (types_set_of types) start_dt end_dt)
               (top_level_events root)
  end.

(** [parse_health_data]: the list comprehension over the generator. *)
Definition parse_health_data (root : element) (types : option (list string))
           (start end_ : pyarg) : exc (list pydict) :=
  let g := iter_health_records root types start end_ in
  match raised g with
  | Some e => Raise e
  | None => Ok (map HealthRecord.to_dict (yielded g))
  end.

End Reader.

(** *** A reference library

    An instance of [DatetimeLibrary] for the fixed-width forms
    [YYYY-MM-DD[*HH[:MM[:SS]][+HH:MM]]] of [fromisoformat] (the separator [*]
    is any one character) and for the three formats [to_datetime] passes to
    [strptime], with zero-padded fields.  It serves to run the definitions on
    concrete text. *)

Definition digit (c : ascii) : option Z :=
  let n := Z.of_N (N_of_ascii c) in
  if (48 <=? n) && (n <=? 57) then Some (n - 48) else None.

Fixpoint number (acc : Z) (l : list ascii) : option Z :=
  match l with
  | [] => Some acc
  | c :: r =>
      match digit c with
      | Some d => number (acc * 10 + d) r
      | None => None
      end
  end.

Definition is_leap (y : Z) : bool :=
  ((y mod 4 =? 0) && negb (y mod 100 =? 0)) || (y mod 400 =? 0).

Definition days_in_month (y m : Z) : Z :=
  if m =? 2 then (if is_leap y then 29 else 28)
  else if (m =? 4) || (m =? 6) || (m =? 9) || (m =? 11) then 30
  else 31.

(** Days from 1970-01-01 to the given date of the proleptic Gregorian
    calendar. *)
Definition days_from_civil (y m d : Z) : Z :=
  let y' := if m <=? 2 then y - 1 else y in
  let era := y' / 400 in
  let yoe := y' - era * 400 in
  let doy := (153 * (if 2 <? m then m - 3 else m + 9) + 2) / 5 + d - 1 in
  let doe := yoe * 365 + yoe / 4 - yoe / 100 + doy in
  era * 146097 + doe - 719468.

Definition microseconds_per_day : Z := 86400000000.

(** The wall-clock reading of a calendar date and a time of day. *)
Definition wall_of (y m d hh mm ss : Z) : Z :=
  days_from_civil y m d * microseconds_per_day
  + ((hh * 60 + mm) * 60 + ss) * 1000000.

Definition ref_date (l : list ascii) : option (Z * Z * Z) :=
  match l with
  | [y1; y2; y3; y4; d1; m1; m2; d2; a1; a2] =>
      if Ascii.eqb d1 "-" && Ascii.eqb d2 "-" then
        match number 0 [y1; y2; y3; y4], number 0 [m1; m2], number 0 [a1; a2] with
        | Some y, Some m, Some d =>
            if (1 <=? y) && (1 <=? m) && (m <=? 12) && (1 <=? d)
               && (d <=? days_in_month y m)
            then Some (y, m, d) else None
        | _, _, _ => None
        end
      else None
  | _ => None
  end.

Definition ref_hh_mm (l : list ascii) : option (Z * Z) :=
  match l with
  | [h1; h2; c; m1; m2] =>
      if Ascii.eqb c ":" then
        match number 0 [h1; h2], number 0 [m1; m2] with
        | Some h, Some m =>
            if (h <=? 23) && (m <=? 59) then Some (h, m) else None
        | _, _ => None
        end
      else None
  | _ => None
  end.

Definition ref_time (l : list ascii) : option (Z * Z * Z) :=
  match l with
  | [h1; h2] =>
      match number 0 [h1; h2] with
      | Some h => if h <=? 23 then Some (h, 0, 0) else None
      | None => None
      end
  | [h1; h2; c; m1; m2] =>
      match ref_hh_mm l with
      | Some (h, m) => Some (h, m, 0)
      | None => None
      end
  | [h1; h2; c1; m1; m2; c2; s1; s2] =>
      if Ascii.eqb c2 ":" then
        match ref_hh_mm [h1; h2; c1; m1; m2], number 0 [s1; s2] with
        | Some (h, m), Some s => if s <=? 59 then Some (h, m, s) else None
        | _, _ => None
        end
      else None
  | _ => None
  end.

(** Splits a time string at its first sign character. *)
Fixpoint split_sign (l : list ascii) : list ascii * option (ascii * list ascii) :=
  match l with
  | [] => ([], None)
  | c :: r =>
      if Ascii.eqb c "+" || Ascii.eqb c "-" then ([], Some (c, r))
      else let (t, z) := split_sign r in (c :: t, z)
  end.

Definition ref_offset (sign : ascii) (hm : Z * Z) : Z :=
  let off := (fst hm * 60 + snd hm) * 60000000 in
  if Ascii.eqb sign "-" then - off else off.

Definition ref_fromisoformat (s : string) : exc pydatetime :=
  let l := list_ascii_of_string s in
  match ref_date (firstn 10 l) with
  | None => Raise ValueError
  | Some (y, m, d) =>
      match skipn 10 l with
      | [] => Ok (Naive (wall_of y m d 0 0 0))
      | _ :: t =>
          let (tm, tz) := split_sign t in
          match ref_time tm, tz with
          | Some (hh, mm, ss), None => Ok (Naive (wall_of y m d hh mm ss))
          | Some (hh, mm, ss), Some (sign, z) =>
              match ref_hh_mm z with
              | Some hm => Ok (Aware (wall_of y m d hh mm ss) (ref_offset sign hm))
              | None => Raise ValueError
              end
          | None, _ => Raise ValueError
          end
      end
  end.

(** ["YYYY-MM-DD HH:MM:SS"] *)
Definition ref_naive (l : list ascii) : option Z :=
  match ref_date (firstn 10 l), skipn 10 l with
  | Some (y, m, d), sp :: t =>
      if Ascii.eqb sp " " then
        match t with
        | [_; _; _; _; _; _; _; _] =>
            match ref_time t with
            | Some (hh, mm, ss) => Some (wall_of y m d hh mm ss)
            | None => None
            end
        | _ => None
        end
      else None
  | _, _ => None
  end.

Definition ref_strptime (s fmt : string) : exc pydatetime :=
  let l := list_ascii_of_string s in
  if String.eqb fmt "%Y-%m-%d %H:%M:%S %z" then
    match ref_naive (firstn 19 l), skipn 19 l with
    | Some w, [sp; sign; h1; h2; m1; m2] =>
        if Ascii.eqb sp " " && (Ascii.eqb sign "+" || Ascii.eqb sign "-") then
          match ref_hh_mm [h1; h2; ":"%char; m1; m2] with
          | Some hm => Ok (Aware w (ref_offset sign hm))
          | None => Raise ValueError
          end
        else Raise ValueError
    | _, _ => Raise ValueError
    end
  else if String.eqb fmt "%Y-%m-%d %H:%M:%S" then
    match ref_naive l with
    | Some w => Ok (Naive w)
    | None => Raise ValueError
    end
  else if String.eqb fmt "%Y-%m-%d" then
    match ref_date l with
    | Some (y, m, d) => Ok (Naive (wall_of y m d 0 0 0))
    | None => Raise ValueError
    end
  else Raise ValueError.

Definition reference_library : DatetimeLibrary :=
  {| fromisoformat := ref_fromisoformat; strptime := ref_strptime |}.

(** *** The reader without its pre-filters

    The reference of the pre-filter law: a [Record] is fully constructed from
    every top-level child of the root and only the full type filter and the
    full time-window filter are applied. *)
Definition full_filter_records {lib : DatetimeLibrary} (root : element)
           (types : option (list string)) (start end_ : pyarg)
  : generated HealthRecord.t :=
  match window start end_ with
  | Raise e => Generated [] (Some e)
  | Ok (start_dt, end_dt) =>
      generate (full_filter (types_set_of types) start_dt end_dt)
               (Elem.children root)
  end.

(** *** Sample documents *)

Section Samples.
Local Open Scope string_scope.

(** A record whose [type] attribute is overridden by a metadata entry. *)
Definition overridden_type_document : element :=
Element "HealthData" []
  [Element "Record" [("type", "X")]
     [Element "MetadataEntry" [("key", "type"); ("value", "Y")] []]].

Definition overridden_type_record : HealthRecord.t :=
HealthRecord.Build (VStr "Record") (VStr "Y") None None
  [("type", VStr "Y"); ("_tag", VStr "Record"); ("_type", VStr "Y")].

(** A record whose end date precedes its start date. *)
Definition reversed_dates_document : element :=
Element "HealthData" []
  [Element "Record"
     [("type", "X"); ("startDate", "2024-01-02 00:00:00 +0000");
      ("endDate", "2024-01-01 00:00:00 +0000")] []].

(** A step-count record with a metadata entry, and a workout with two
  events. *)
Definition sample_document : element :=
Element "HealthData" [("locale", "en_US")]
  [Element "Record"
     [("type", "HKQuantityTypeIdentifierStepCount");
      ("startDate", "2024-01-20 08:00:00 -0700");
      ("endDate", "2024-01-20 08:05:00 -0700"); ("value", "100")]
     [Element "MetadataEntry"
        [("key", "HKTimeZone"); ("value", "America/Los_Angeles")] []];
   Element "Workout" [("workoutActivityType", "HKWorkoutActivityTypeRunning")]
     [Element "WorkoutEvent" [("type", "Pause")] [];
      Element "WorkoutEvent" [("type", "Resume")] []]].

Definition sample_workout_record : HealthRecord.t :=
HealthRecord.Build (VStr "Workout") (VStr "HKWorkoutActivityTypeRunning")
  None None
  [("workoutActivityType", VStr "HKWorkoutActivityTypeRunning");
   ("WorkoutEvent",
    VList [[("type", VStr "Pause"); ("_tag", VStr "WorkoutEvent")];
           [("type", VStr "Resume"); ("_tag", VStr "WorkoutEvent")]]);
   ("_tag", VStr "Workout");
   ("_type", VStr "HKWorkoutActivityTypeRunning")].

End Samples.

(** ** sleep.py: the segments of a document *)

Definition SLEEP_TYPE : string := "HKCategoryTypeIdentifierSleepAnalysis".

(** [SLEEP_STAGES]: its keys are strings and, for the last item, [None]. *)
Definition SLEEP_STAGES : list (option string * string) :=
  [(Some "HKCategoryValueSleepAnalysisAwake", "Awake");
   (Some "HKCategoryValueSleepAnalysisAsleepCore", "Core");
   (Some "HKCategoryValueSleepAnalysisAsleepDeep", "Deep");
   (Some "HKCategoryValueSleepAnalysisAsleepREM", "REM");
   (Some "HKCategoryValueSleepAnalysisInBed", "InBed");
   (Some "HKCategoryValueSleepAnalysisAsleep", "Asleep");
   (Some "HKCategoryValueSleepAnalysisAsleepUnspecified", "Unspecified");
   (None, "Unspecified")]%string.

(** [k == k'] on keys that are strings or [None]. *)
Definition key_eqb (k k' : option string) : bool :=
  match k, k' with
  | Some s, Some s' => String.eqb s s'
  | None, None => true
  | _, _ => false
  end.

(** [SLEEP_STAGES.get(key, default)] for a hashable key. *)
Fixpoint stages_get (d : list (option string * string)) (key : option string)
         (default : string) : string :=
  match d with
  | [] => default
  | (k, v) :: r => if key_eqb k key then v else stages_get r key default
  end.

(** [SLEEP_STAGES.get(rec.attributes.get("value"), "Unspecified")]: the
    attribute is absent, a string, or the list of the nested children named
    [value], which is unhashable. *)
Definition stage_of (v : option value) : exc string :=
  match v with
  | None => Ok (stages_get SLEEP_STAGES None "Unspecified")
  | Some (VStr s) => Ok (stages_get SLEEP_STAGES (Some s) "Unspecified")
  | Some (VList _) => Raise TypeError
  end.

(** The body of the loop of [iter_sleep_segments].  The segment holds the
    instants of the two datetimes of the record, which the guard has
    compared with one another; for a datetime without a zone this is its
    wall-clock reading.  Such datetimes come out of [to_datetime] for a
    date that ends in [Z] only, and Python refuses to compare or subtract
    one of them and an aware one, which shows where segments of both kinds
    meet, after this function. *)
Definition segment_of_record (rec : HealthRecord.t) : exc (option segment) :=
  match HealthRecord.start_dt rec, HealthRecord.end_dt rec with
  | Some sd, Some ed =>
      later <- dt_lt sd ed ;;
      if later then
        stage <- stage_of (dict_find (HealthRecord.attributes rec) "value") ;;
        s <- SleepSegment.new (instant sd) (instant ed) stage ;;
        Ok (Some s)
      else Ok None
  | _, _ => Ok None
  end.

(** [iter_sleep_segments]: the loop draws the records one at a time, so an
    exception of its body ends it before the reader is asked for more, and
    an exception of the reader ends it after the records yielded before. *)
Definition iter_sleep_segments {lib : DatetimeLibrary} (root : element)
           (start end_ : pyarg) : generated segment :=
  let records := iter_health_records root (Some [SLEEP_TYPE]) start end_ in
  let g := generate segment_of_record (yielded records) in
  Generated (yielded g)
            (match raised g with
             | Some e => Some e
             | None => raised records
             end).

(** A document with three sleep-analysis records: core sleep, a record
    that ends when it starts, and a record with an unknown value. *)
Definition sleep_document : element :=
Element "HealthData" []
  [Element "Record"
     [("type", "HKCategoryTypeIdentifierSleepAnalysis");
      ("startDate", "2024-01-20 23:00:00 +0000");
      ("endDate", "2024-01-21 01:00:00 +0000");
      ("value", "HKCategoryValueSleepAnalysisAsleepCore")]%string [];
   Element "Record"
     [("type", "HKCategoryTypeIdentifierSleepAnalysis");
      ("startDate", "2024-01-21 01:00:00 +0000");
      ("endDate", "2024-01-21 01:00:00 +0000");
      ("value", "HKCategoryValueSleepAnalysisAwake")]%string [];
   Element "Record"
     [("type", "HKCategoryTypeIdentifierSleepAnalysis");
      ("startDate", "2024-01-21 01:00:00 +0000");
      ("endDate", "2024-01-21 02:00:00 +0000");
      ("value", "SomethingNew")]%string [];
   Element "Record"
     [("type", "HKQuantityTypeIdentifierStepCount");
      ("startDate", "2024-01-21 08:00:00 +0000");
      ("endDate", "2024-01-21 08:05:00 +0000"); ("value", "100")]%string []].

(** * Vocabulary of the statements *)

(** ** sleep.py *)

(** A [SleepSegment] object exists only if [__post_init__] returned. *)
Definition valid (s : segment) : Prop := SleepSegment.__post_init__ s = Ok tt.

(** [chain R l]: every element is [R]-related to every later one. *)
Fixpoint chain {A : Type} (R : A -> A -> Prop) (l : list A) : Prop :=
  match l with
  | [] => True
  | x :: r => Forall (R x) r /\ chain R r
  end.

(** Strictly ascending instants. *)
Definition increasing : list Z -> Prop := chain Z.lt.

(** [follows p q]: the interval [q] starts no earlier than [p] ends. *)
Definition follows (p q : datetime * datetime) : Prop := snd p <= fst q.

(** What one iteration of the boundary loop appends. *)
Definition resolve_one (segs : list segment) (p : datetime * datetime)
  : list segment :=
  match filter (SleepSession.covers (fst p) (snd p)) segs with
  | [] => []
  | c :: cs =>
      [SleepSegment.Build (fst p) (snd p)
         (SleepSegment.stage (max_by SleepSession.priority c cs))]
  end.

(** What the boundary loop appends over the intervals [ps]. *)
Definition resolved (segs : list segment) (ps : list (datetime * datetime))
  : list segment :=
  flat_map (resolve_one segs) ps.

(** The stage is one of [SLEEP_STAGES.values()]. *)
Definition stage_ok (s : segment) : Prop :=
  str_in (SleepSegment.stage s) SLEEP_STAGES_values = true.

(** [seg_follows x y]: [y] starts no earlier than [x] ends.  A list in which
    every segment is so related to every later one is ordered in time and
    pairwise disjoint. *)
Definition seg_follows (x y : segment) : Prop :=
  SleepSegment.end_dt x <= SleepSegment.start_dt y.

Definition positive_length (s : segment) : Prop :=
  SleepSegment.start_dt s < SleepSegment.end_dt s.

(** What the merge loop produces once [prev] is the last merged segment. *)
Fixpoint merged_from (prev : segment) (rest : list segment) : list segment :=
  match rest with
  | [] => [prev]
  | seg :: r =>
      if String.eqb (SleepSegment.stage seg) (SleepSegment.stage prev)
         && (SleepSegment.start_dt seg =? SleepSegment.end_dt prev)
      then merged_from
             (SleepSegment.Build (SleepSegment.start_dt prev)
                (SleepSegment.end_dt seg) (SleepSegment.stage seg)) r
      else prev :: merged_from seg r
  end.

(** [covered_by l o]: every instant of [o] lies in a segment of [l] that has
    the stage of [o]. *)
Definition covered_by (l : list segment) (o : segment) : Prop :=
  forall t,
    SleepSegment.start_dt o <= t < SleepSegment.end_dt o ->
    exists e,
      In e l /\ SleepSegment.stage e = SleepSegment.stage o
      /\ SleepSegment.start_dt e <= t < SleepSegment.end_dt e.

(** What [_normalize] returns on constructed segments (lemma
    [normalize_eq]). *)
Definition normal_form (segs : list segment) : list segment :=
  let ks := sorted_by_key (filter SleepSession.kept segs) in
  let bs := SleepSession.boundaries_of ks in
  match resolved ks (combine bs (tl bs)) with
  | [] => []
  | r0 :: rest => merged_from r0 rest
  end.

(** [contains s t]: the instant [t] lies in the half-open span of [s]. *)
Definition contains (s : segment) (t : datetime) : Prop :=
  SleepSegment.start_dt s <= t < SleepSegment.end_dt s.

(** The groups the loop of [build_sleep_sessions] hands to [from_segments],
    in order, when it starts with the group [current]. *)
Fixpoint gap_groups (gap : timedelta) (current : list segment)
         (segs : list segment) : list (list segment) :=
  match segs with
  | [] =>
      match current with
      | [] => []
      | _ :: _ => [current]
      end
  | seg :: rest =>
      match current with
      | [] => gap_groups gap [seg] rest
      | c0 :: cs =>
          if gap <? SleepSegment.start_dt seg - SleepSegment.end_dt (last cs c0)
          then current :: gap_groups gap [seg] rest
          else gap_groups gap (current ++ [seg]) rest
      end
  end.

(** [linked R l]: consecutive elements of [l] are [R]-related. *)
Fixpoint linked {A : Type} (R : A -> A -> Prop) (l : list A) : Prop :=
  match l with
  | [] => True
  | x :: r =>
      match r with
      | [] => True
      | y :: _ => R x y
      end /\ linked R r
  end.

(** [within gap x y]: [y] starts no more than [gap] after [x] ends. *)
Definition within (gap : timedelta) (x y : segment) : Prop :=
  SleepSegment.start_dt y - SleepSegment.end_dt x <= gap.

(** [split_after gap g h]: group [h] starts more than [gap] after the last
    segment of group [g] ends. *)
Definition split_after (gap : timedelta) (g h : list segment) : Prop :=
  exists g' x y h',
    g = g' ++ [x] /\ h = y :: h'
    /\ gap < SleepSegment.start_dt y - SleepSegment.end_dt x.

(** The partition of [segs] into maximal runs whose consecutive segments are
    within [gap] of one another. *)
Definition grouping (gap : timedelta) (segs : list segment)
           (groups : list (list segment)) : Prop :=
  List.concat groups = segs
  /\ Forall (fun g => g <> []) groups
  /\ Forall (linked (within gap)) groups
  /\ linked (split_after gap) groups.

(** [drop_head x bs]: [bs] without its head when the head is [x]. *)
Definition drop_head (x : Z) (bs : list Z) : list Z :=
  match bs with
  | [] => []
  | y :: r => if x =? y then r else bs
  end.

(** The elementary intervals of a chain: one per segment, and one per gap
    between a segment and the next. *)
Fixpoint chain_intervals (l : list segment) : list (datetime * datetime) :=
  match l with
  | [] => []
  | s :: l' =>
      (SleepSegment.start_dt s, SleepSegment.end_dt s)
      :: match l' with
         | [] => []
         | t :: _ =>
             if SleepSegment.end_dt s =? SleepSegment.start_dt t
             then chain_intervals l'
             else (SleepSegment.end_dt s, SleepSegment.start_dt t)
                  :: chain_intervals l'
         end
  end.

(** [mergeable prev seg]: the test of the merge loop. *)
Definition mergeable (prev seg : segment) : Prop :=
  SleepSegment.stage seg = SleepSegment.stage prev
  /\ SleepSegment.start_dt seg = SleepSegment.end_dt prev.

(** What holds of every session object: its segments are non-empty, ordered
    and pairwise disjoint, each of positive length and of an enumerated stage
    other than [InBed], all within the bounds of the session, which are the
    start of the first and the end of the last segment. *)
Definition session_invariant (sess : session) : Prop :=
  let l := SleepSession.segments sess in
  chain seg_follows l
  /\ Forall positive_length l
  /\ Forall (fun s => SleepSegment.stage s <> "InBed"%string /\ stage_ok s) l
  /\ Forall (fun s => SleepSession.start_dt sess <= SleepSegment.start_dt s
                      /\ SleepSegment.end_dt s <= SleepSession.end_dt sess) l
  /\ exists n0 rest,
      l = n0 :: rest
      /\ SleepSession.start_dt sess = SleepSegment.start_dt n0
      /\ SleepSession.end_dt sess = SleepSegment.end_dt (last rest n0).

(** The hypotheses of the idempotence law: ordered by start, and pairwise
    disjoint. *)
Definition time_ordered (l : list segment) : Prop :=
  chain (fun x y => SleepSegment.start_dt x <= SleepSegment.start_dt y) l.

(** [disjoint x y]: no instant lies in both segments. *)
Definition disjoint (x y : segment) : Prop :=
  forall t, ~ (contains x t /\ contains y t).

Definition pairwise_disjoint (l : list segment) : Prop := chain disjoint l.

(** No segment ends before an earlier one of the list. *)
Definition ends_ascending (l : list segment) : Prop :=
  chain (fun a b => SleepSegment.end_dt a <= SleepSegment.end_dt b) l.

(** Raw segments of one night: an awakening inside a Core segment, a period
    in bed, and a REM segment three hours later. *)
Definition night_example : list segment :=
  [SleepSegment.Build (hours 0) (hours 2) "Core";
   SleepSegment.Build (minutes 30) (minutes 90) "Awake";
   SleepSegment.Build (hours 2) (hours 3) "InBed";
   SleepSegment.Build (hours 6) (hours 7) "REM"].

(** A normalized sequence: touching segments of different stages, and a gap
    before the last one. *)
Definition normalized_example : list segment :=
  [SleepSegment.Build (minutes 0) (minutes 30) "Core";
   SleepSegment.Build (minutes 30) (minutes 90) "Awake";
   SleepSegment.Build (minutes 90) (minutes 120) "Core";
   SleepSegment.Build (minutes 150) (minutes 180) "Core"].

(** ** parser.py *)

(** Element names are not empty. *)
Fixpoint tags_nonempty (e : element) : Prop :=
  match e with
  | Element tag _ children =>
      tag <> ""%string
      /\ (fix all (cs : list element) : Prop :=
            match cs with
            | [] => True
            | c :: r => tags_nonempty c /\ all r
            end) children
  end.

(** [tag_unused root_tag e]: neither [e] nor an element below it carries
    [root_tag]. *)
Fixpoint tag_unused (root_tag : string) (e : element) : Prop :=
  match e with
  | Element tag _ children =>
      tag <> root_tag
      /\ (fix all (cs : list element) : Prop :=
            match cs with
            | [] => True
            | c :: r => tag_unused root_tag c /\ all r
            end) children
  end.

(** The library signals unparseable text with [ValueError] and nothing
    else. *)
Definition raises_only_ValueError (lib : DatetimeLibrary) : Prop :=
  (forall s e, fromisoformat s = Raise e -> e = ValueError)
  /\ (forall s fmt e, strptime s fmt = Raise e -> e = ValueError).

(** The outcome of [try: return f() except ValueError: return None] for a
    library call that raises nothing else. *)
Definition parsed_or_none (r : exc pydatetime) : option pydatetime :=
  match r with
  | Ok d => Some d
  | Raise _ => None
  end.

(** [dt if dt.tzinfo else dt.replace(tzinfo=timezone.utc)] *)
Definition assume_utc (d : pydatetime) : pydatetime :=
  if is_aware d then d else replace_utc d.

(** [a or b] on what the attempts return. *)
Definition or_else (a b : option pydatetime) : option pydatetime :=
  match a with
  | Some _ => a
  | None => b
  end.

(** ** Further vocabulary: sleep.py *)

(** [canonical l]: ordered and disjoint, of positive lengths, and with no two
    consecutive segments that the merge loop would join. *)
Definition canonical (l : list segment) : Prop :=
  chain seg_follows l
  /\ Forall positive_length l
  /\ linked (fun x y => ~ mergeable x y) l.

(** [stage_at l t st]: a segment of [l] contains the instant [t] and has
    stage [st]. *)
Definition stage_at (l : list segment) (t : datetime) (st : string) : Prop :=
  exists o, In o l /\ contains o t /\ SleepSegment.stage o = st.

(** Two lists of segments that assign the same stages to the same
    instants. *)
Definition same_timeline (l l' : list segment) : Prop :=
  forall t st, stage_at l t st <-> stage_at l' t st.

(** [touches x y]: [y] starts at the instant [x] ends. *)
Definition touches (x y : segment) : Prop :=
  SleepSegment.end_dt x = SleepSegment.start_dt y.

(** The number of places in [l] where a segment starts more than [gap]
    after the end of the segment before it. *)
Fixpoint count_splits (gap : timedelta) (l : list segment) : nat :=
  match l with
  | [] => O
  | x :: r =>
      match r with
      | [] => O
      | y :: _ =>
          if gap <? SleepSegment.start_dt y - SleepSegment.end_dt x
          then S (count_splits gap r)
          else count_splits gap r
      end
  end.

(** Sessions that follow one another at more than [gap]. *)
Definition separated (gap : timedelta) (a b : session) : Prop :=
  gap < SleepSession.start_dt b - SleepSession.end_dt a.

(** [boundary_of segs b]: [b] is the start or the end of a segment of [segs]
    that passes the filter. *)
Definition boundary_of (segs : list segment) (b : datetime) : Prop :=
  exists s,
    In s segs /\ SleepSession.kept s = true
    /\ (b = SleepSegment.start_dt s \/ b = SleepSegment.end_dt s).

(** The latest end among the segments of the group [c0 :: cs]. *)
Definition latest_end (c0 : segment) (cs : list segment) : datetime :=
  fold_left (fun m s => Z.max m (SleepSegment.end_dt s)) cs
            (SleepSegment.end_dt c0).

(** The partition the specification describes, in its words: segments are
    accumulated into a current group, and a new group starts whenever the
    next segment's start minus the current group's latest end exceeds the
    gap threshold; the final group is flushed. *)
Fixpoint latest_end_groups (gap : timedelta) (current : list segment)
         (segs : list segment) : list (list segment) :=
  match segs with
  | [] =>
      match current with
      | [] => []
      | _ :: _ => [current]
      end
  | seg :: rest =>
      match current with
      | [] => latest_end_groups gap [seg] rest
      | c0 :: cs =>
          if gap <? SleepSegment.start_dt seg - latest_end c0 cs
          then current :: latest_end_groups gap [seg] rest
          else latest_end_groups gap (current ++ [seg]) rest
      end
  end.

(** Raw segments in which a long one holds two shorter ones that lie two and
    a half hours apart: Core[00:00,10:00), REM[01:00,02:00),
    Deep[04:30,05:00). *)
Definition nested_example : list segment :=
  [SleepSegment.Build (hours 0) (hours 10) "Core";
   SleepSegment.Build (hours 1) (hours 2) "REM";
   SleepSegment.Build (minutes 270) (hours 5) "Deep"].

(** ** Further vocabulary: parser.py *)

(** The time window of a record: absent altogether, or present with an end
    that is not before the start. *)
Definition window_ordered (r : HealthRecord.t) : Prop :=
  match HealthRecord.start_dt r, HealthRecord.end_dt r with
  | None, None => True
  | Some sd, Some ed => dt_lt ed sd = Ok false
  | _, _ => False
  end.

(** [matches_types r ts]: the type or the tag of [r] is one of [ts]. *)
Definition matches_types (r : HealthRecord.t) (ts : list string) : Prop :=
  exists s,
    In s ts
    /\ (HealthRecord.record_type r = VStr s \/ HealthRecord.tag r = VStr s).

(** [inside_window r ws we]: [r] has a start and an end, it does not end
    before [ws] and does not start after [we], where these are given. *)
Definition inside_window (r : HealthRecord.t) (ws we : option pydatetime)
  : Prop :=
  exists sd ed,
    HealthRecord.start_dt r = Some sd /\ HealthRecord.end_dt r = Some ed
    /\ (forall w, ws = Some w -> dt_lt ed w = Ok false)
    /\ (forall w, we = Some w -> dt_lt w sd = Ok false).

(** The [(key, value)] pairs of the metadata entries among [children] that
    [_parse_attributes] stores: those with a non-empty key and a value. *)
Definition metadata_items (children : list element) : list (string * string) :=
  flat_map
    (fun c =>
       if String.eqb (Elem.tag c) "MetadataEntry" then
         match Elem.get c "key", Elem.get c "value" with
         | Some key, Some value =>
             if negb (String.eqb key "") then [(key, value)] else []
         | _, _ => []
         end
       else [])
    children.

(** The first record of [sample_document], as the reader yields it. *)
Definition sample_step_record : HealthRecord.t :=
HealthRecord.Build (VStr "Record") (VStr "HKQuantityTypeIdentifierStepCount")
  (Some (Aware (wall_of 2024 1 20 8 0 0) (hours (-7))))
  (Some (Aware (wall_of 2024 1 20 8 5 0) (hours (-7))))
  [("type", VStr "HKQuantityTypeIdentifierStepCount");
   ("startDate", VStr "2024-01-20 08:00:00 -0700");
   ("endDate", VStr "2024-01-20 08:05:00 -0700");
   ("value", VStr "100");
   ("HKTimeZone", VStr "America/Los_Angeles");
   ("_tag", VStr "Record");
   ("_type", VStr "HKQuantityTypeIdentifierStepCount")]%string.

(** An XML attribute as an item of the attribute dictionary. *)
Definition str_item (kv : string * string) : string * value :=
  (fst kv, VStr (snd kv)).

(** [blank s]: every character of [s] is white space. *)
Definition blank (s : string) : Prop :=
  Forall (fun c => isspace c = true) (list_ascii_of_string s).

(** [s.strip()] on the list of the characters. *)
Definition strip_chars (l : list ascii) : list ascii :=
  rev (lstrip_chars (rev (lstrip_chars l))).

(** The loop over the children in [_parse_attributes], under a name:
    [attrs] is the dictionary so far (lemma [parse_attributes_loop]). *)
Fixpoint parse_children (attrs : pydict) (cs : list element) : exc pydict :=
  match cs with
  | [] => Ok attrs
  | child :: rest =>
      if String.eqb (Elem.tag child) "MetadataEntry" then
        match Elem.get child "key", Elem.get child "value" with
        | Some key, Some value =>
            if negb (String.eqb key "")
            then parse_children (dict_set attrs key (VStr value)) rest
            else parse_children attrs rest
        | _, _ => parse_children attrs rest
        end
      else
        nested <- HealthRecord._parse_attributes child ;;
        let nested :=
          dict_setdefault nested "_tag" (VStr (Elem.tag child)) in
        match dict_find attrs (Elem.tag child) with
        | None =>
            parse_children (dict_set attrs (Elem.tag child) (VList [nested])) rest
        | Some (VList items) =>
            parse_children (dict_set attrs (Elem.tag child)
                              (VList (items ++ [nested]))) rest
        | Some (VStr _) => Raise AttributeError
        end
  end.

(** The dictionary [_parse_attributes] stores for a nested child: the
    child's own, with its tag under [_tag] unless it has that key. *)
Definition nested_dict (c : element) : exc pydict :=
  nested <- HealthRecord._parse_attributes c ;;
  Ok (dict_setdefault nested "_tag" (VStr (Elem.tag c))).

(** The children named [t] that are not metadata entries. *)
Definition children_named (t : string) (cs : list element) : list element :=
  filter (fun c => negb (String.eqb (Elem.tag c) "MetadataEntry")
                   && String.eqb (Elem.tag c) t) cs.

(** [subsequence l1 l2]: [l1] is [l2] with some elements left out. *)
Fixpoint subsequence {A : Type} (l1 l2 : list A) : Prop :=
  match l2 with
  | [] => l1 = []
  | y :: r2 =>
      subsequence l1 r2
      \/ match l1 with
         | [] => False
         | x :: r1 => x = y /\ subsequence r1 r2
         end
  end.

(** * Properties of sleep.py *)

(** ** Segments as the constructor leaves them *)

Lemma valid_iff (s : segment) :
  valid s <->
  SleepSegment.start_dt s <= SleepSegment.end_dt s
  /\ str_in (SleepSegment.stage s) SLEEP_STAGES_values = true.
Proof.
  unfold valid, SleepSegment.__post_init__.
  destruct (Z.ltb_spec (SleepSegment.end_dt s) (SleepSegment.start_dt s)).
  - split; [discriminate | intros [? _]; lia].
  - destruct (str_in (SleepSegment.stage s) SLEEP_STAGES_values); simpl.
    + split; [intros _; split; [lia | reflexivity] | reflexivity].
    + split; [discriminate | intros [_ ?]; discriminate].
Qed.

Lemma new_ok (a b : datetime) (st : string) :
  a <= b -> str_in st SLEEP_STAGES_values = true ->
  SleepSegment.new a b st = Ok (SleepSegment.Build a b st).
Proof.
  intros Hab Hst. unfold SleepSegment.new.
  assert (Hv : valid (SleepSegment.Build a b st)) by (apply valid_iff; simpl; auto).
  unfold valid in Hv. rewrite Hv. reflexivity.
Qed.

Lemma new_valid (a b : datetime) (st : string) (s : segment) :
  SleepSegment.new a b st = Ok s -> s = SleepSegment.Build a b st /\ valid s.
Proof.
  unfold SleepSegment.new. intros H.
  destruct (SleepSegment.__post_init__ (SleepSegment.Build a b st)) as [[]|e] eqn:E;
    simpl in H; inversion H; subst; auto.
Qed.

Lemma kept_iff (s : segment) :
  SleepSession.kept s = true <->
  SleepSegment.stage s <> "InBed"%string
  /\ SleepSegment.start_dt s < SleepSegment.end_dt s.
Proof.
  unfold SleepSession.kept, SleepSegment.duration.
  rewrite andb_true_iff, negb_true_iff, Z.ltb_lt.
  destruct (String.eqb_spec (SleepSegment.stage s) "InBed"); split;
    intros [H1 H2]; split; try lia; congruence.
Qed.

(** ** Chains *)

Lemma chain_app {A : Type} (R : A -> A -> Prop) (l1 l2 : list A) :
  chain R (l1 ++ l2) <->
  chain R l1 /\ chain R l2 /\ Forall (fun x => Forall (R x) l2) l1.
Proof.
  induction l1 as [|x l1 IH]; simpl.
  - intuition.
  - rewrite Forall_app, IH, Forall_cons_iff. intuition.
Qed.

Lemma chain_filter {A : Type} (R : A -> A -> Prop) (f : A -> bool) (l : list A) :
  chain R l -> chain R (filter f l).
Proof.
  induction l as [|x l IH]; simpl; auto.
  intros [H1 H2]. destruct (f x); simpl; auto.
  split; auto. apply Forall_forall. intros y Hy.
  apply filter_In in Hy. rewrite Forall_forall in H1. apply H1, Hy.
Qed.

Lemma insert_uniq_In (x y : Z) (l : list Z) :
  In y (insert_uniq x l) <-> y = x \/ In y l.
Proof.
  induction l as [|z l IH]; simpl.
  - intuition.
  - destruct (Z.ltb_spec x z); [simpl; intuition|].
    destruct (Z.eqb_spec x z); simpl; [subst; intuition|].
    rewrite IH. intuition.
Qed.

Lemma insert_uniq_increasing (x : Z) (l : list Z) :
  increasing l -> increasing (insert_uniq x l).
Proof.
  unfold increasing. induction l as [|z l IH]; simpl; auto.
  intros [Hz Hl].
  destruct (Z.ltb_spec x z).
  - simpl. repeat split; auto. constructor; auto.
    eapply Forall_impl; [|exact Hz]. simpl. intros; lia.
  - destruct (Z.eqb_spec x z); simpl; auto.
    split; auto. apply Forall_forall. intros y Hy.
    apply insert_uniq_In in Hy. destruct Hy as [->|Hy]; [lia|].
    rewrite Forall_forall in Hz. auto.
Qed.

Lemma sorted_set_In (x : Z) (l : list Z) : In x (sorted_set l) <-> In x l.
Proof.
  induction l as [|y l IH]; simpl; [tauto|].
  rewrite insert_uniq_In, IH. intuition.
Qed.

Lemma sorted_set_increasing (l : list Z) : increasing (sorted_set l).
Proof.
  induction l as [|y l IH]; simpl; [exact I|].
  apply insert_uniq_increasing, IH.
Qed.

Lemma combine_tl_In (bs : list Z) (a b : Z) :
  In (a, b) (combine bs (tl bs)) -> In a bs /\ In b (tl bs).
Proof.
  intros H. split; [eapply in_combine_l | eapply in_combine_r]; eauto.
Qed.

(** The elementary intervals [zip(bs, bs[1:])] of an increasing list are
    non-empty and follow one another. *)
Lemma intervals_chain (bs : list Z) :
  increasing bs ->
  chain follows (combine bs (tl bs))
  /\ Forall (fun p => fst p < snd p) (combine bs (tl bs)).
Proof.
  unfold increasing. induction bs as [|x bs IH]; simpl; [auto|].
  intros [Hx Hbs]. destruct bs as [|y bs]; simpl; [auto|].
  specialize (IH Hbs). simpl in IH. destruct IH as [IH1 IH2].
  split; [split; [|exact IH1]|].
  - apply Forall_forall. intros [a b] Hin. unfold follows; simpl.
    apply (combine_tl_In (y :: bs)) in Hin. destruct Hin as [Ha _].
    destruct Hbs as [Hy _]. rewrite Forall_forall in Hy.
    destruct Ha as [->|Ha]; [lia|]. specialize (Hy _ Ha). lia.
  - constructor; [|exact IH2]. simpl. inversion Hx; auto.
Qed.

(** ** The two loops of [_normalize] as list functions *)

Lemma max_by_In {A : Type} (key : A -> Z) (rest : list A) (best : A) :
  In (max_by key best rest) (best :: rest).
Proof.
  revert best. induction rest as [|x r IH]; intros best; simpl; auto.
  destruct (key best <? key x).
  - destruct (IH x) as [H|H]; [right; left; exact H | right; right; exact H].
  - destruct (IH best) as [H|H]; [left; exact H | right; right; exact H].
Qed.

Lemma max_by_ge_best {A : Type} (key : A -> Z) (rest : list A) (best : A) :
  key best <= key (max_by key best rest).
Proof.
  revert best. induction rest as [|y r IH]; intros best; simpl; [lia|].
  destruct (Z.ltb_spec (key best) (key y)).
  - specialize (IH y). lia.
  - apply IH.
Qed.

Lemma max_by_ge {A : Type} (key : A -> Z) (rest : list A) (best x : A) :
  In x (best :: rest) -> key x <= key (max_by key best rest).
Proof.
  revert best. induction rest as [|y r IH]; intros best Hin; simpl.
  - destruct Hin as [->|[]]. lia.
  - destruct (Z.ltb_spec (key best) (key y)).
    + destruct Hin as [->|Hin].
      * pose proof (max_by_ge_best key r y). lia.
      * apply IH. exact Hin.
    + destruct Hin as [->|[->|Hin]].
      * apply max_by_ge_best.
      * pose proof (max_by_ge_best key r best). lia.
      * apply IH. right; exact Hin.
Qed.

Lemma valid_stage_ok (s : segment) : valid s -> stage_ok s.
Proof. intros H. apply valid_iff in H. apply H. Qed.

Lemma resolve_loop_eq (segs : list segment) (ps : list (datetime * datetime)) :
  Forall stage_ok segs ->
  Forall (fun p => fst p < snd p) ps ->
  forall acc,
    SleepSession.resolve_loop segs acc ps = Ok (acc ++ resolved segs ps).
Proof.
  intros Hsegs. induction ps as [|[a b] ps IH]; intros Hps acc; simpl.
  - rewrite app_nil_r. reflexivity.
  - inversion Hps as [|? ? Hab Hps']; subst. simpl in Hab.
    unfold resolve_one; simpl.
    destruct (filter (SleepSession.covers a b) segs) as [|c cs] eqn:E.
    + simpl. apply IH; assumption.
    + assert (Hw : In (max_by SleepSession.priority c cs) segs).
      { pose proof (max_by_In SleepSession.priority cs c) as Hin.
        rewrite <- E in Hin. apply filter_In in Hin. apply Hin. }
      rewrite Forall_forall in Hsegs.
      rewrite new_ok by (try lia; apply Hsegs, Hw).
      simpl. rewrite IH by assumption. rewrite <- app_assoc. reflexivity.
Qed.

Lemma resolved_In (segs : list segment) (ps : list (datetime * datetime))
      (o : segment) :
  In o (resolved segs ps) ->
  exists c cs,
    In (SleepSegment.start_dt o, SleepSegment.end_dt o) ps
    /\ filter (SleepSession.covers (SleepSegment.start_dt o)
                 (SleepSegment.end_dt o)) segs = c :: cs
    /\ SleepSegment.stage o
       = SleepSegment.stage (max_by SleepSession.priority c cs).
Proof.
  unfold resolved. rewrite in_flat_map. intros [[a b] [Hp Ho]].
  unfold resolve_one in Ho; simpl in Ho.
  destruct (filter (SleepSession.covers a b) segs) as [|c cs] eqn:E;
    [contradiction|].
  destruct Ho as [<-|[]]. simpl. exists c, cs. auto.
Qed.

Lemma resolved_chain (segs : list segment) (ps : list (datetime * datetime)) :
  chain follows ps ->
  Forall (fun p => fst p < snd p) ps ->
  chain seg_follows (resolved segs ps) /\ Forall positive_length (resolved segs ps).
Proof.
  induction ps as [|p ps IH]; simpl; [auto|].
  intros [Hp Hch] Hpos. inversion Hpos as [|? ? Hp1 Hpos']; subst.
  destruct (IH Hch Hpos') as [IH1 IH2].
  unfold resolve_one.
  destruct (filter (SleepSession.covers (fst p) (snd p)) segs) as [|c cs];
    simpl; [auto|].
  split; [split; [|exact IH1] | constructor; [exact Hp1 | exact IH2]].
  apply Forall_forall. intros o Ho.
  apply resolved_In in Ho. destruct Ho as (c' & cs' & Hin & _ & _).
  rewrite Forall_forall in Hp. specialize (Hp _ Hin).
  unfold seg_follows, follows in *. simpl in *. exact Hp.
Qed.

Lemma last_item_snoc {A : Type} (l : list A) (x : A) :
  last_item (l ++ [x]) = Ok x.
Proof.
  destruct l as [|y l]; simpl; [reflexivity|].
  f_equal. apply last_last.
Qed.

Lemma merge_loop_eq (rest : list segment) :
  forall (acc : list segment) (prev : segment),
    Forall stage_ok rest ->
    chain seg_follows (prev :: rest) ->
    Forall positive_length (prev :: rest) ->
    SleepSession.merge_loop (acc ++ [prev]) rest
    = Ok (acc ++ merged_from prev rest).
Proof.
  induction rest as [|seg r IH]; intros acc prev Hst Hch Hpos; simpl.
  - reflexivity.
  - rewrite last_item_snoc. simpl.
    inversion Hst as [|? ? Hst1 Hst2]; subst.
    destruct Hch as [Hprev [Hseg Hch]].
    inversion Hprev as [|? ? Hps Hpr]; subst.
    inversion Hpos as [|? ? Hp1 Hpos']; subst.
    inversion Hpos' as [|? ? Hp2 Hpos'']; subst.
    unfold seg_follows, positive_length in *.
    destruct (String.eqb (SleepSegment.stage seg) (SleepSegment.stage prev)
              && (SleepSegment.start_dt seg =? SleepSegment.end_dt prev)).
    + rewrite new_ok by (try lia; exact Hst1). simpl.
      rewrite removelast_last. apply IH; auto.
      * simpl. split; auto.
      * constructor; auto. simpl. lia.
    + rewrite <- app_assoc. simpl.
      replace (acc ++ prev :: seg :: nil) with ((acc ++ [prev]) ++ [seg])
        by (rewrite <- app_assoc; reflexivity).
      rewrite IH; auto.
      * rewrite <- app_assoc. reflexivity.
      * simpl. auto.
Qed.

Lemma covered_by_incl (l l' : list segment) (o : segment) :
  incl l l' -> covered_by l o -> covered_by l' o.
Proof.
  intros Hincl H t Ht. destruct (H t Ht) as (e & He & Hrest).
  exists e. split; [apply Hincl, He | exact Hrest].
Qed.

Lemma merged_from_spec (rest : list segment) :
  forall prev,
    chain seg_follows (prev :: rest) ->
    Forall positive_length (prev :: rest) ->
    Forall (fun o => positive_length o
                     /\ SleepSegment.start_dt prev <= SleepSegment.start_dt o
                     /\ covered_by (prev :: rest) o)
           (merged_from prev rest)
    /\ chain seg_follows (merged_from prev rest).
Proof.
  induction rest as [|seg r IH]; intros prev Hch Hpos.
  - simpl. inversion Hpos; subst. split; [|auto].
    constructor; [|constructor]. repeat split; auto; try lia.
    intros t Ht. exists prev. simpl; auto.
  - destruct Hch as [Hprev [Hseg Hch]].
    inversion Hprev as [|? ? Hps Hpr]; subst.
    inversion Hpos as [|? ? Hp1 Hpos']; subst.
    inversion Hpos' as [|? ? Hp2 Hpos'']; subst.
    unfold seg_follows, positive_length in Hps, Hp1, Hp2.
    simpl merged_from.
    destruct (String.eqb_spec (SleepSegment.stage seg) (SleepSegment.stage prev))
      as [Hst|Hst];
      [destruct (Z.eqb_spec (SleepSegment.start_dt seg) (SleepSegment.end_dt prev))
        as [Hadj|Hadj]|]; simpl andb.
    + set (m := SleepSegment.Build (SleepSegment.start_dt prev)
                  (SleepSegment.end_dt seg) (SleepSegment.stage seg)).
      destruct (IH m) as [IH1 IH2].
      * simpl. split; auto.
      * constructor; auto. unfold positive_length, m; simpl. lia.
      * split; [|exact IH2].
        eapply Forall_impl; [|exact IH1]. simpl.
        intros o (Ho1 & Ho2 & Ho3). repeat split; auto.
        intros t Ht. destruct (Ho3 t Ht) as (e & [He|He] & Hes & Het).
        -- subst e. simpl in Hes, Het.
           destruct (Z.lt_ge_cases t (SleepSegment.end_dt prev)).
           ++ exists prev. simpl. repeat split; auto; try lia. congruence.
           ++ exists seg. simpl. repeat split; auto; lia.
        -- exists e. simpl. auto.
    + destruct (IH seg) as [IH1 IH2]; [simpl; auto | auto |].
      split.
      * constructor.
        -- repeat split; auto; try lia. intros t Ht. exists prev. simpl; auto.
        -- eapply Forall_impl; [|exact IH1]. simpl.
           intros o (Ho1 & Ho2 & Ho3). repeat split; auto; try lia.
           eapply covered_by_incl; [|exact Ho3]. intros x Hx. right; exact Hx.
      * simpl. split; [|exact IH2].
        eapply Forall_impl; [|exact IH1]. simpl.
        intros o (Ho1 & Ho2 & Ho3). unfold seg_follows. lia.
    + destruct (IH seg) as [IH1 IH2]; [simpl; auto | auto |].
      split.
      * constructor.
        -- repeat split; auto; try lia. intros t Ht. exists prev. simpl; auto.
        -- eapply Forall_impl; [|exact IH1]. simpl.
           intros o (Ho1 & Ho2 & Ho3). repeat split; auto; try lia.
           eapply covered_by_incl; [|exact Ho3]. intros x Hx. right; exact Hx.
      * simpl. split; [|exact IH2].
        eapply Forall_impl; [|exact IH1]. simpl.
        intros o (Ho1 & Ho2 & Ho3). unfold seg_follows. lia.
Qed.

Lemma merged_from_nonempty (prev : segment) (rest : list segment) :
  merged_from prev rest <> [].
Proof.
  revert prev. induction rest as [|seg r IH]; intros prev; simpl.
  - discriminate.
  - destruct (_ && _); [apply IH | discriminate].
Qed.

(** ** The stable sort *)

Lemma insert_by_key_In (x y : segment) (l : list segment) :
  In y (insert_by_key x l) <-> y = x \/ In y l.
Proof.
  induction l as [|z l IH]; simpl.
  - intuition.
  - destruct (key_le x z); simpl; [intuition|]. rewrite IH. intuition.
Qed.

Lemma sorted_by_key_In (x : segment) (l : list segment) :
  In x (sorted_by_key l) <-> In x l.
Proof.
  induction l as [|y l IH]; simpl; [tauto|].
  rewrite insert_by_key_In, IH. intuition.
Qed.

Lemma sorted_by_key_nonempty (l : list segment) :
  l <> [] -> sorted_by_key l <> [].
Proof.
  destruct l as [|x l]; [congruence|]. intros _ H.
  assert (Hin : In x (sorted_by_key (x :: l)))
    by (apply sorted_by_key_In; left; reflexivity).
  rewrite H in Hin. exact Hin.
Qed.

(** ** [_normalize] as a list function *)

Lemma kept_sorted_In (segs : list segment) (s : segment) :
  In s (sorted_by_key (filter SleepSession.kept segs)) <->
  In s segs /\ SleepSession.kept s = true.
Proof. rewrite sorted_by_key_In, filter_In. tauto. Qed.

Lemma resolved_stage (segs : list segment) (ps : list (datetime * datetime))
      (o : segment) :
  In o (resolved segs ps) ->
  exists s,
    In s segs
    /\ SleepSession.covers (SleepSegment.start_dt o) (SleepSegment.end_dt o) s = true
    /\ SleepSegment.stage o = SleepSegment.stage s
    /\ forall s',
        In s' segs ->
        SleepSession.covers (SleepSegment.start_dt o) (SleepSegment.end_dt o) s' = true ->
        SleepSession.priority s' <= SleepSession.priority s.
Proof.
  intros Ho. apply resolved_In in Ho. destruct Ho as (c & cs & _ & E & Hst).
  exists (max_by SleepSession.priority c cs).
  pose proof (max_by_In SleepSession.priority cs c) as Hin.
  rewrite <- E in Hin. apply filter_In in Hin. destruct Hin as [Hin Hcov].
  repeat split; auto.
  intros s' Hs' Hc'. apply max_by_ge. rewrite <- E. apply filter_In. auto.
Qed.

Lemma normalize_eq (segs : list segment) :
  Forall valid segs -> SleepSession._normalize segs = Ok (normal_form segs).
Proof.
  intros Hv. unfold SleepSession._normalize, normal_form.
  destruct (filter SleepSession.kept segs) as [|k ks] eqn:E; [reflexivity|].
  assert (Hst : Forall stage_ok (sorted_by_key (k :: ks))).
  { apply Forall_forall. intros s Hs. rewrite <- E in Hs.
    apply kept_sorted_In in Hs. rewrite Forall_forall in Hv.
    apply valid_stage_ok, Hv, Hs. }
  set (srt := sorted_by_key (k :: ks)) in *.
  pose proof (sorted_set_increasing
                (flat_map (fun s => [SleepSegment.start_dt s; SleepSegment.end_dt s]) srt))
    as Hinc.
  fold (SleepSession.boundaries_of srt) in Hinc.
  destruct (intervals_chain _ Hinc) as [Hch Hpos].
  rewrite resolve_loop_eq by assumption. simpl.
  destruct (resolved_chain srt _ Hch Hpos) as [Hrc Hrp].
  assert (Hrs : Forall stage_ok
                  (resolved srt (combine (SleepSession.boundaries_of srt)
                                   (tl (SleepSession.boundaries_of srt))))).
  { apply Forall_forall. intros o Ho. apply resolved_stage in Ho.
    destruct Ho as (s & Hs & _ & Hso & _). unfold stage_ok. rewrite Hso.
    rewrite Forall_forall in Hst. apply Hst, Hs. }
  destruct (resolved srt _) as [|r0 rest]; [reflexivity|].
  change [r0] with ([] ++ [r0]). rewrite merge_loop_eq; auto.
  inversion Hrs; auto.
Qed.

(** ** Elementary intervals *)

(** No boundary lies strictly inside an elementary interval. *)
Lemma interval_elementary (bs : list Z) (a b x : Z) :
  increasing bs -> In (a, b) (combine bs (tl bs)) -> In x bs ->
  x <= a \/ b <= x.
Proof.
  unfold increasing. induction bs as [|x0 bs IH]; simpl; [tauto|].
  intros [Hx0 Hbs] Hab Hx. destruct bs as [|y bs]; [contradiction|].
  simpl in Hab. rewrite Forall_forall in Hx0.
  destruct Hab as [Hab|Hab].
  - inversion Hab; subst.
    destruct Hx as [->|Hx]; [left; lia|].
    destruct Hx as [->|Hx]; [right; lia|].
    destruct Hbs as [Hy _]. rewrite Forall_forall in Hy.
    specialize (Hy _ Hx). right; lia.
  - destruct Hx as [->|Hx].
    + left. apply (combine_tl_In (y :: bs)) in Hab. destruct Hab as [Ha _].
      specialize (Hx0 _ Ha). lia.
    + apply IH; auto.
Qed.

(** Every instant between two boundaries lies in an elementary interval. *)
Lemma interval_exists (bs : list Z) (x y t : Z) :
  increasing bs -> In x bs -> In y bs -> x <= t < y ->
  exists a b, In (a, b) (combine bs (tl bs)) /\ a <= t < b.
Proof.
  unfold increasing. revert x. induction bs as [|x0 bs IH]; simpl; [tauto|].
  intros x [Hx0 Hbs] Hx Hy Ht. rewrite Forall_forall in Hx0.
  destruct bs as [|y0 bs].
  - destruct Hx as [->|[]], Hy as [->|[]]. lia.
  - destruct (Z.lt_ge_cases t y0) as [Hlt|Hge].
    + exists x0, y0. split; [left; reflexivity|].
      destruct Hx as [->|Hx]; [lia|].
      assert (y0 <= x).
      { destruct Hx as [->|Hx]; [lia|]. destruct Hbs as [Hy0 _].
        rewrite Forall_forall in Hy0. specialize (Hy0 _ Hx). lia. }
      lia.
    + destruct (IH y0 Hbs (or_introl eq_refl)) as (a & b & Hab & Hab').
      * destruct Hy as [->|Hy]; [|exact Hy].
        specialize (Hx0 y0 (or_introl eq_refl)). lia.
      * lia.
      * exists a, b. split; [right; exact Hab | exact Hab'].
Qed.

Lemma boundaries_of_In (segs : list segment) (s : segment) :
  In s segs ->
  In (SleepSegment.start_dt s) (SleepSession.boundaries_of segs)
  /\ In (SleepSegment.end_dt s) (SleepSession.boundaries_of segs).
Proof.
  intros Hs. unfold SleepSession.boundaries_of.
  split; apply sorted_set_In, in_flat_map; exists s; simpl; auto.
Qed.

Lemma covers_iff (a b : datetime) (s : segment) :
  SleepSession.covers a b s = true <->
  SleepSegment.start_dt s < b /\ a < SleepSegment.end_dt s.
Proof.
  unfold SleepSession.covers. rewrite andb_true_iff, !Z.ltb_lt. tauto.
Qed.

(** A segment that overlaps an elementary interval includes it. *)
Lemma covers_includes (segs : list segment) (a b : datetime) (s : segment) :
  In s segs ->
  In (a, b) (combine (SleepSession.boundaries_of segs)
               (tl (SleepSession.boundaries_of segs))) ->
  SleepSession.covers a b s = true ->
  SleepSegment.start_dt s <= a /\ b <= SleepSegment.end_dt s.
Proof.
  intros Hs Hab Hc. apply covers_iff in Hc.
  destruct (boundaries_of_In segs s Hs) as [H1 H2].
  pose proof (sorted_set_increasing
    (flat_map (fun s => [SleepSegment.start_dt s; SleepSegment.end_dt s]) segs)) as Hinc.
  destruct (interval_elementary _ a b _ Hinc Hab H1);
    destruct (interval_elementary _ a b _ Hinc Hab H2); lia.
Qed.

Lemma resolved_complete (segs : list segment) (s : segment) (t : datetime) :
  In s segs -> contains s t ->
  exists e,
    In e (resolved segs (combine (SleepSession.boundaries_of segs)
                           (tl (SleepSession.boundaries_of segs))))
    /\ contains e t.
Proof.
  intros Hs Ht. unfold contains in Ht.
  destruct (boundaries_of_In segs s Hs) as [H1 H2].
  pose proof (sorted_set_increasing
    (flat_map (fun s => [SleepSegment.start_dt s; SleepSegment.end_dt s]) segs)) as Hinc.
  destruct (interval_exists _ _ _ t Hinc H1 H2 Ht) as (a & b & Hab & Hab').
  assert (Hc : In s (filter (SleepSession.covers a b) segs)).
  { apply filter_In. split; [exact Hs|]. apply covers_iff. lia. }
  destruct (filter (SleepSession.covers a b) segs) as [|c cs] eqn:E;
    [contradiction|].
  exists (SleepSegment.Build a b
            (SleepSegment.stage (max_by SleepSession.priority c cs))).
  split; [|unfold contains; simpl; lia].
  unfold resolved. apply in_flat_map. exists (a, b). split; [exact Hab|].
  unfold resolve_one. simpl. rewrite E. left; reflexivity.
Qed.

Lemma merged_from_complete (rest : list segment) :
  forall prev e t,
    chain seg_follows (prev :: rest) ->
    Forall positive_length (prev :: rest) ->
    In e (prev :: rest) -> contains e t ->
    exists o, In o (merged_from prev rest) /\ contains o t.
Proof.
  induction rest as [|seg r IH]; intros prev e t Hch Hpos He Ht.
  - destruct He as [<-|[]]. exists prev. simpl; auto.
  - destruct Hch as [Hprev [Hseg Hch]].
    inversion Hprev as [|? ? Hps Hpr]; subst.
    inversion Hpos as [|? ? Hp1 Hpos']; subst.
    inversion Hpos' as [|? ? Hp2 Hpos'']; subst.
    unfold seg_follows, positive_length in Hps, Hp1, Hp2.
    simpl merged_from.
    destruct (String.eqb (SleepSegment.stage seg) (SleepSegment.stage prev)
              && (SleepSegment.start_dt seg =? SleepSegment.end_dt prev)) eqn:C.
    + apply andb_true_iff in C. destruct C as [_ C]. apply Z.eqb_eq in C.
      set (m := SleepSegment.Build (SleepSegment.start_dt prev)
                  (SleepSegment.end_dt seg) (SleepSegment.stage seg)).
      assert (Hm : exists e', In e' (m :: r) /\ contains e' t).
      { destruct He as [<-|[<-|He]].
        - exists m. split; [left; reflexivity|].
          unfold contains in *; simpl. lia.
        - exists m. split; [left; reflexivity|].
          unfold contains in *; simpl. lia.
        - exists e. split; [right; exact He | exact Ht]. }
      destruct Hm as (e' & He' & Ht').
      apply (IH m e' t); auto.
      * simpl. split; auto.
      * constructor; auto. unfold positive_length, m; simpl. lia.
    + destruct He as [<-|He].
      * exists prev. split; [left; reflexivity | exact Ht].
      * destruct (IH seg e t) as (o & Ho & Hot); auto.
        -- simpl; auto.
        -- exists o. split; [right; exact Ho | exact Hot].
Qed.

(** ** What [_normalize] returns *)

Lemma resolved_boundaries_chain (segs : list segment) :
  let bs := SleepSession.boundaries_of segs in
  chain seg_follows (resolved segs (combine bs (tl bs)))
  /\ Forall positive_length (resolved segs (combine bs (tl bs))).
Proof.
  intros bs.
  pose proof (sorted_set_increasing
    (flat_map (fun s => [SleepSegment.start_dt s; SleepSegment.end_dt s]) segs)) as Hinc.
  destruct (intervals_chain _ Hinc) as [Hch Hpos].
  apply resolved_chain; assumption.
Qed.

Lemma normal_form_chain (segs : list segment) :
  chain seg_follows (normal_form segs) /\ Forall positive_length (normal_form segs).
Proof.
  unfold normal_form.
  set (srt := sorted_by_key (filter SleepSession.kept segs)).
  destruct (resolved_boundaries_chain srt) as [Hch Hpos].
  destruct (resolved srt _) as [|r0 rest]; [simpl; auto|].
  destruct (merged_from_spec rest r0 Hch Hpos) as [H1 H2].
  split; [exact H2|].
  eapply Forall_impl; [|exact H1]. simpl. tauto.
Qed.

Lemma priority_stage (s s' : segment) :
  SleepSegment.stage s = SleepSegment.stage s' ->
  SleepSession.priority s = SleepSession.priority s'.
Proof. unfold SleepSession.priority. intros ->. reflexivity. Qed.

Lemma normal_form_sound (segs : list segment) (o : segment) (t : datetime) :
  In o (normal_form segs) -> contains o t ->
  (exists s,
      In s segs /\ SleepSession.kept s = true /\ contains s t
      /\ SleepSegment.stage s = SleepSegment.stage o)
  /\ (forall s',
         In s' segs -> SleepSession.kept s' = true -> contains s' t ->
         SleepSession.priority s' <= SleepSession.priority o).
Proof.
  unfold normal_form.
  set (srt := sorted_by_key (filter SleepSession.kept segs)).
  destruct (resolved_boundaries_chain srt) as [Hch Hpos].
  destruct (resolved srt _) as [|r0 rest] eqn:E; [contradiction|].
  intros Ho Ht.
  destruct (merged_from_spec rest r0 Hch Hpos) as [H1 _].
  rewrite Forall_forall in H1. destruct (H1 o Ho) as (_ & _ & Hcov).
  destruct (Hcov t Ht) as (e & He & Hes & Het).
  rewrite <- E in He.
  pose proof (resolved_In _ _ _ He) as (c & cs & Hpair & _ & _).
  destruct (resolved_stage _ _ _ He) as (s & Hs & Hc & Hst & Hmax).
  destruct (covers_includes srt _ _ s Hs Hpair Hc) as [Hi1 Hi2].
  split.
  - exists s. apply kept_sorted_In in Hs. destruct Hs as [Hs Hk].
    repeat split; auto; unfold contains; try lia. congruence.
  - intros s' Hs' Hk' Ht'.
    rewrite (priority_stage o s) by congruence.
    apply Hmax; [apply kept_sorted_In; auto|].
    apply covers_iff. unfold contains in Ht'. lia.
Qed.

Lemma normal_form_complete (segs : list segment) (s : segment) (t : datetime) :
  In s segs -> SleepSession.kept s = true -> contains s t ->
  exists o, In o (normal_form segs) /\ contains o t.
Proof.
  intros Hs Hk Ht. unfold normal_form.
  set (srt := sorted_by_key (filter SleepSession.kept segs)).
  assert (Hs' : In s srt) by (apply kept_sorted_In; auto).
  destruct (resolved_complete srt s t Hs' Ht) as (e & He & Het).
  destruct (resolved_boundaries_chain srt) as [Hch Hpos].
  destruct (resolved srt _) as [|r0 rest]; [contradiction|].
  apply (merged_from_complete rest r0 e t); auto.
Qed.

Lemma normal_form_nonempty (segs : list segment) :
  filter SleepSession.kept segs <> [] -> normal_form segs <> [].
Proof.
  intros Hne.
  destruct (filter SleepSession.kept segs) as [|s ks] eqn:E; [congruence|].
  assert (Hs : In s (filter SleepSession.kept segs)) by (rewrite E; left; auto).
  apply filter_In in Hs. destruct Hs as [Hs Hk].
  pose proof (proj1 (kept_iff s) Hk) as [_ Hpos].
  destruct (normal_form_complete segs s (SleepSegment.start_dt s) Hs Hk)
    as (o & Ho & _); [unfold contains; lia|].
  intros Hnil. rewrite Hnil in Ho. exact Ho.
Qed.

Lemma normal_form_empty (segs : list segment) :
  filter SleepSession.kept segs = [] -> normal_form segs = [].
Proof. intros E. unfold normal_form. rewrite E. reflexivity. Qed.

(** Output stages come from kept input segments. *)
Lemma normal_form_stage (segs : list segment) (o : segment) :
  In o (normal_form segs) ->
  exists s,
    In s segs /\ SleepSession.kept s = true
    /\ SleepSegment.stage s = SleepSegment.stage o.
Proof.
  intros Ho.
  destruct (normal_form_chain segs) as [_ Hpos].
  rewrite Forall_forall in Hpos. specialize (Hpos o Ho). unfold positive_length in Hpos.
  destruct (normal_form_sound segs o (SleepSegment.start_dt o) Ho)
    as [(s & Hs & Hk & _ & Hst) _]; [unfold contains; lia|].
  exists s. auto.
Qed.

Lemma from_segments_eq (segs : list segment) :
  Forall valid segs ->
  SleepSession.from_segments segs =
  match normal_form segs with
  | [] => Raise ValueError
  | n0 :: rest =>
      Ok (SleepSession.Build (SleepSegment.start_dt n0)
            (SleepSegment.end_dt (last rest n0)) (normal_form segs))
  end.
Proof.
  intros Hv. unfold SleepSession.from_segments.
  rewrite normalize_eq by exact Hv. simpl.
  destruct (normal_form segs); reflexivity.
Qed.

(** ** Durations *)

Lemma last_cons_default {A : Type} (l : list A) (y d : A) :
  last (y :: l) d = last l y.
Proof.
  revert y d. induction l as [|z l IH]; intros y d; [reflexivity|].
  change (last (y :: z :: l) d) with (last (z :: l) d).
  rewrite IH. symmetry. apply IH.
Qed.

Lemma sum_durations_acc (l : list segment) (acc : Z) :
  fold_left (fun a s => a + SleepSegment.duration s) l acc
  = acc + SleepSession.sum_durations l.
Proof.
  unfold SleepSession.sum_durations. revert acc.
  induction l as [|x l IH]; intros acc; cbn [fold_left]; [lia|].
  rewrite (IH (acc + _)), (IH (0 + _)). lia.
Qed.

Lemma sum_durations_cons (x : segment) (l : list segment) :
  SleepSession.sum_durations (x :: l)
  = SleepSegment.duration x + SleepSession.sum_durations l.
Proof.
  unfold SleepSession.sum_durations at 1. simpl.
  rewrite sum_durations_acc. lia.
Qed.

Lemma sum_durations_split (f : segment -> bool) (l : list segment) :
  SleepSession.sum_durations (filter (fun s => negb (f s)) l)
  + SleepSession.sum_durations (filter f l)
  = SleepSession.sum_durations l.
Proof.
  induction l as [|x l IH]; simpl; [reflexivity|].
  destruct (f x); simpl; rewrite !sum_durations_cons; lia.
Qed.

Lemma sum_durations_chain (l : list segment) (n0 : segment) :
  chain seg_follows (n0 :: l) -> Forall positive_length (n0 :: l) ->
  SleepSession.sum_durations (n0 :: l)
  <= SleepSegment.end_dt (last l n0) - SleepSegment.start_dt n0.
Proof.
  revert n0. induction l as [|y l IH]; intros n0 Hch Hpos.
  - rewrite sum_durations_cons. unfold SleepSession.sum_durations,
      SleepSegment.duration. simpl. lia.
  - rewrite sum_durations_cons.
    destruct Hch as [Hn0 Hch]. inversion Hn0 as [|? ? Hny _]; subst.
    inversion Hpos as [|? ? _ Hpos']; subst.
    specialize (IH y Hch Hpos'). unfold seg_follows in Hny.
    unfold SleepSegment.duration. rewrite last_cons_default. lia.
Qed.

(** ** The grouping loop *)

Lemma group_loop_eq (gap : timedelta) (segs : list segment) :
  forall sessions current,
    group_loop gap sessions current segs
    = (ss <- mapM SleepSession.from_segments (gap_groups gap current segs) ;;
       Ok (sessions ++ ss)).
Proof.
  induction segs as [|seg rest IH]; intros sessions current; simpl.
  - destruct current as [|c0 cs]; simpl.
    + rewrite app_nil_r. reflexivity.
    + destruct (SleepSession.from_segments (c0 :: cs)); reflexivity.
  - destruct current as [|c0 cs]; [apply IH|].
    destruct (gap <? SleepSegment.start_dt seg - SleepSegment.end_dt (last cs c0)).
    + simpl. destruct (SleepSession.from_segments (c0 :: cs)) as [s|e]; simpl;
        [|reflexivity].
      rewrite IH.
      destruct (mapM SleepSession.from_segments (gap_groups gap [seg] rest));
        simpl; [|reflexivity].
      rewrite <- app_assoc. reflexivity.
    + apply IH.
Qed.

Lemma build_sleep_sessions_eq (segments : list segment) (gap : timedelta) :
  build_sleep_sessions segments gap
  = mapM SleepSession.from_segments
      (gap_groups gap [] (filter SleepSession.kept segments)).
Proof.
  unfold build_sleep_sessions.
  destruct (filter SleepSession.kept segments) as [|k ks] eqn:E; [reflexivity|].
  rewrite group_loop_eq.
  destruct (mapM _ _); reflexivity.
Qed.

Lemma linked_snoc {A : Type} (R : A -> A -> Prop) (l : list A) (x y : A) :
  linked R (l ++ [x]) -> R x y -> linked R ((l ++ [x]) ++ [y]).
Proof.
  induction l as [|z l IH]; simpl.
  - intros _ H. auto.
  - intros [H1 H2] Hxy. split.
    + destruct l; simpl in *; exact H1.
    + apply IH; assumption.
Qed.

Lemma nonempty_snoc {A : Type} (l : list A) :
  l <> [] -> exists l' x, l = l' ++ [x] /\ forall d, last l d = x.
Proof.
  intros H. destruct (exists_last H) as (l' & x & ->).
  exists l', x. split; [reflexivity|]. intros d. apply last_last.
Qed.

Lemma gap_groups_spec (gap : timedelta) (segs : list segment) :
  forall current,
    current <> [] ->
    linked (within gap) current ->
    exists g gs,
      gap_groups gap current segs = (current ++ g) :: gs
      /\ List.concat ((current ++ g) :: gs) = current ++ segs
      /\ Forall (fun g => g <> []) gs
      /\ Forall (linked (within gap)) ((current ++ g) :: gs)
      /\ linked (split_after gap) ((current ++ g) :: gs).
Proof.
  induction segs as [|seg rest IH]; intros current Hne Hl.
  - destruct current as [|c0 cs]; [congruence|]. simpl.
    exists [], []. rewrite !app_nil_r. simpl. rewrite ?app_nil_r.
    repeat split; auto.
  - destruct current as [|c0 cs]; [congruence|].
    destruct (nonempty_snoc (c0 :: cs) Hne) as (l' & x & Hsn & Hlast).
    cbn [gap_groups].
    replace (last cs c0) with x
      by (rewrite <- (Hlast c0); apply last_cons_default).
    destruct (Z.ltb_spec gap (SleepSegment.start_dt seg - SleepSegment.end_dt x))
      as [Hfar|Hnear].
    + destruct (IH [seg]) as (g & gs & Hg & Hcat & Hn & Hw & Hs);
        [discriminate | simpl; auto |].
      exists [], (([seg] ++ g) :: gs). rewrite app_nil_r, Hg.
      split; [reflexivity|]. split; [|split; [|split]].
      * change (List.concat ((c0 :: cs) :: ([seg] ++ g) :: gs))
          with ((c0 :: cs) ++ List.concat (([seg] ++ g) :: gs)).
        rewrite Hcat. reflexivity.
      * constructor; [discriminate | exact Hn].
      * constructor; assumption.
      * split; [|exact Hs].
        exists l', x, seg, g. auto.
    + destruct (IH ((c0 :: cs) ++ [seg])) as (g & gs & Hg & Hcat & Hn & Hw & Hs).
      * destruct cs; discriminate.
      * rewrite Hsn in *. apply linked_snoc; [exact Hl|]. unfold within. lia.
      * exists (seg :: g), gs.
        replace ((c0 :: cs) ++ seg :: g) with (((c0 :: cs) ++ [seg]) ++ g)
          by (rewrite <- app_assoc; reflexivity).
        replace ((c0 :: cs) ++ seg :: rest) with (((c0 :: cs) ++ [seg]) ++ rest)
          by (rewrite <- app_assoc; reflexivity).
        auto.
Qed.

Lemma gap_groups_grouping (gap : timedelta) (segs : list segment) :
  grouping gap segs (gap_groups gap [] segs).
Proof.
  destruct segs as [|seg rest].
  - simpl. repeat split; auto.
  - cbn [gap_groups].
    destruct (gap_groups_spec gap rest [seg]) as (g & gs & Hg & Hcat & Hn & Hw & Hs);
      [discriminate | simpl; auto |].
    rewrite Hg. split; [exact Hcat|]. split; [|split; [exact Hw | exact Hs]].
    constructor; [discriminate | exact Hn].
Qed.

(** The grouping of a list is unique: the split points are decided by the
    gaps between consecutive segments alone. *)
Lemma linked_mid {A : Type} (R : A -> A -> Prop) (l1 l2 : list A) (x y : A) :
  linked R (l1 ++ x :: y :: l2) -> R x y.
Proof.
  induction l1 as [|z l1 IH]; simpl.
  - intros [H _]. exact H.
  - intros [_ H]. apply IH, H.
Qed.

Lemma grouping_no_longer_head (gap : timedelta) (g1 c : list segment)
      (y : segment) (G1 : list (list segment)) (tail : list segment) :
  Forall (fun g => g <> []) (g1 :: G1) ->
  linked (split_after gap) (g1 :: G1) ->
  linked (within gap) (g1 ++ y :: c) ->
  List.concat G1 = (y :: c) ++ tail ->
  False.
Proof.
  intros Hne Hsplit Hw Hcat.
  destruct G1 as [|h G1]; [discriminate|].
  simpl in Hsplit. destruct Hsplit as [(g' & x & y0 & h0 & -> & -> & Hfar) _].
  simpl in Hcat. inversion Hcat; subst.
  rewrite <- app_assoc in Hw. simpl in Hw.
  apply linked_mid in Hw. unfold within in Hw. lia.
Qed.

Lemma grouping_unique (gap : timedelta) (G1 : list (list segment)) :
  forall (segs : list segment) (G2 : list (list segment)),
    grouping gap segs G1 -> grouping gap segs G2 -> G1 = G2.
Proof.
  induction G1 as [|g1 G1 IH]; intros segs G2 H1 H2.
  - destruct H1 as (Hc1 & _). destruct H2 as (Hc2 & Hn2 & _).
    simpl in Hc1. rewrite <- Hc1 in Hc2.
    destruct G2 as [|g2 G2]; [reflexivity|].
    inversion Hn2; subst. simpl in Hc2.
    destruct g2; [congruence | discriminate].
  - destruct H1 as (Hc1 & Hn1 & Hw1 & Hs1).
    destruct H2 as (Hc2 & Hn2 & Hw2 & Hs2).
    destruct G2 as [|g2 G2].
    + simpl in Hc2. rewrite <- Hc2 in Hc1. inversion Hn1; subst. simpl in Hc1.
      destruct g1; [congruence | discriminate].
    + simpl in Hc1, Hc2.
      assert (Heq : g1 ++ List.concat G1 = g2 ++ List.concat G2) by congruence.
      apply app_eq_app in Heq. destruct Heq as [c [[Hg Hcat]|[Hg Hcat]]].
      * destruct c as [|y c].
        -- rewrite app_nil_r in Hg. simpl in Hcat. subst g2.
           f_equal. apply (IH (List.concat G1)).
           ++ inversion Hn1; inversion Hw1; subst.
              repeat split; auto. simpl in Hs1. destruct Hs1; auto.
           ++ inversion Hn2; inversion Hw2; subst.
              repeat split; auto. simpl in Hs2. destruct Hs2; auto.
        -- exfalso. subst g1.
           inversion Hw1; subst.
           eapply (grouping_no_longer_head gap g2 c y G2); eauto.
      * destruct c as [|y c].
        -- rewrite app_nil_r in Hg. simpl in Hcat. subst g2.
           f_equal. apply (IH (List.concat G1)).
           ++ inversion Hn1; inversion Hw1; subst.
              repeat split; auto. simpl in Hs1. destruct Hs1; auto.
           ++ inversion Hn2; inversion Hw2; subst.
              repeat split; auto. simpl in Hs2. destruct Hs2; auto.
        -- exfalso. subst g2.
           inversion Hw2; subst.
           eapply (grouping_no_longer_head gap g1 c y G1); eauto.
Qed.

(** ** Already normalized input *)

Lemma filter_all {A : Type} (f : A -> bool) (l : list A) :
  Forall (fun x => f x = true) l -> filter f l = l.
Proof.
  induction 1 as [|x l Hx _ IH]; simpl; [reflexivity|].
  rewrite Hx, IH. reflexivity.
Qed.

Lemma filter_none {A : Type} (f : A -> bool) (l : list A) :
  Forall (fun x => f x = false) l -> filter f l = [].
Proof.
  induction 1 as [|x l Hx _ IH]; simpl; [reflexivity|].
  rewrite Hx, IH. reflexivity.
Qed.

Lemma sorted_by_key_sorted (l : list segment) :
  chain seg_follows l -> Forall positive_length l -> sorted_by_key l = l.
Proof.
  induction l as [|x l IH]; simpl; [reflexivity|].
  intros [Hx Hch] Hpos. inversion Hpos as [|? ? Hpx Hpos']; subst.
  rewrite IH by assumption.
  destruct l as [|y l]; simpl; [reflexivity|].
  inversion Hx as [|? ? Hxy _]; subst. unfold seg_follows, positive_length in *.
  unfold key_le.
  replace (SleepSegment.start_dt x <? SleepSegment.start_dt y) with true
    by (symmetry; apply Z.ltb_lt; inversion Hpos'; subst; lia).
  reflexivity.
Qed.

Lemma insert_uniq_min (x : Z) (bs : list Z) :
  Forall (fun y => x <= y) bs -> insert_uniq x bs = x :: drop_head x bs.
Proof.
  destruct bs as [|y r]; simpl; [reflexivity|].
  intros H. inversion H as [|? ? Hxy _]; subst.
  destruct (Z.ltb_spec x y).
  - replace (x =? y) with false by (symmetry; apply Z.eqb_neq; lia). reflexivity.
  - replace (x =? y) with true by (symmetry; apply Z.eqb_eq; lia).
    f_equal. lia.
Qed.

Lemma boundaries_of_ge (l : list segment) (x : Z) :
  Forall (fun s => x <= SleepSegment.start_dt s) l -> Forall positive_length l ->
  Forall (fun y => x <= y) (SleepSession.boundaries_of l).
Proof.
  intros H1 H2. apply Forall_forall. intros y Hy.
  unfold SleepSession.boundaries_of in Hy.
  apply sorted_set_In, in_flat_map in Hy. destruct Hy as (s & Hs & Hy).
  rewrite Forall_forall in H1, H2. specialize (H1 s Hs). specialize (H2 s Hs).
  unfold positive_length in H2. simpl in Hy. destruct Hy as [<-|[<-|[]]]; lia.
Qed.

(** [sorted(set(...))] of the boundaries of a chain, segment by segment. *)
Lemma boundaries_of_cons (s : segment) (l : list segment) :
  chain seg_follows (s :: l) -> Forall positive_length (s :: l) ->
  SleepSession.boundaries_of (s :: l)
  = SleepSegment.start_dt s :: SleepSegment.end_dt s
      :: drop_head (SleepSegment.end_dt s) (SleepSession.boundaries_of l).
Proof.
  intros [Hs Hch] Hpos. inversion Hpos as [|? ? Hps Hpos']; subst.
  unfold positive_length in Hps.
  change (SleepSession.boundaries_of (s :: l))
    with (insert_uniq (SleepSegment.start_dt s)
            (insert_uniq (SleepSegment.end_dt s) (SleepSession.boundaries_of l))).
  rewrite (insert_uniq_min (SleepSegment.end_dt s))
    by (apply boundaries_of_ge; auto).
  simpl.
  replace (SleepSegment.start_dt s <? SleepSegment.end_dt s) with true
    by (symmetry; apply Z.ltb_lt; lia).
  reflexivity.
Qed.

Lemma boundaries_chain_intervals (l : list segment) :
  chain seg_follows l -> Forall positive_length l ->
  combine (SleepSession.boundaries_of l) (tl (SleepSession.boundaries_of l))
  = chain_intervals l.
Proof.
  induction l as [|s l IH]; intros Hch Hpos; [reflexivity|].
  rewrite boundaries_of_cons by assumption.
  destruct Hch as [Hs Hch]. inversion Hpos as [|? ? Hps Hpos']; subst.
  specialize (IH Hch Hpos').
  cbn [tl combine chain_intervals]. f_equal.
  destruct l as [|t l]; [reflexivity|].
  rewrite boundaries_of_cons in * by assumption.
  cbn [drop_head].
  destruct (SleepSegment.end_dt s =? SleepSegment.start_dt t) eqn:E.
  - apply Z.eqb_eq in E. rewrite E. cbn [tl combine] in IH. exact IH.
  - cbn [combine]. f_equal. exact IH.
Qed.

Lemma resolved_chain_intervals (l : list segment) :
  forall pre,
    chain seg_follows (pre ++ l) -> Forall positive_length (pre ++ l) ->
    resolved (pre ++ l) (chain_intervals l) = l.
Proof.
  induction l as [|s l IH]; intros pre Hch Hpos; [reflexivity|].
  apply chain_app in Hch. destruct Hch as (Hpre & [Hs Hl] & Hcross).
  apply Forall_app in Hpos. destruct Hpos as [Hppre Hpl].
  inversion Hpl as [|? ? Hps Hpl']; subst. unfold positive_length in Hps.
  assert (Hpre_s : Forall (fun x => SleepSegment.end_dt x <= SleepSegment.start_dt s) pre).
  { eapply Forall_impl; [|exact Hcross]. simpl. intros x Hx.
    inversion Hx; subst. assumption. }
  assert (IH' : resolved (pre ++ s :: l) (chain_intervals l) = l).
  { replace (pre ++ s :: l) with ((pre ++ [s]) ++ l)
      by (rewrite <- app_assoc; reflexivity).
    apply IH.
    - rewrite <- app_assoc. simpl. apply chain_app. repeat split; auto.
    - rewrite <- app_assoc. simpl. apply Forall_app. auto. }
  assert (Hone : resolve_one (pre ++ s :: l)
                   (SleepSegment.start_dt s, SleepSegment.end_dt s) = [s]).
  { unfold resolve_one. cbn [fst snd]. rewrite filter_app. cbn [filter].
    rewrite (filter_none _ pre), (filter_none _ l).
    - replace (SleepSession.covers (SleepSegment.start_dt s) (SleepSegment.end_dt s) s)
        with true by (symmetry; apply covers_iff; lia).
      simpl. destruct s; reflexivity.
    - eapply Forall_impl; [|exact Hs]. unfold seg_follows. intros y Hy.
      apply not_true_is_false. rewrite covers_iff. lia.
    - eapply Forall_impl; [|exact Hpre_s]. simpl. intros x Hx.
      apply not_true_is_false. rewrite covers_iff. lia. }
  cbn [chain_intervals]. unfold resolved. cbn [flat_map].
  fold (resolved (pre ++ s :: l)). rewrite Hone. cbn [app]. f_equal.
  destruct l as [|t l]; [reflexivity|].
  destruct (SleepSegment.end_dt s =? SleepSegment.start_dt t) eqn:E;
    [exact IH'|].
  apply Z.eqb_neq in E.
  assert (Hgap : resolve_one (pre ++ s :: t :: l)
                   (SleepSegment.end_dt s, SleepSegment.start_dt t) = []).
  { unfold resolve_one. cbn [fst snd]. rewrite filter_none; [reflexivity|].
    apply Forall_app. split; [|constructor].
    - eapply Forall_impl; [|exact Hpre_s]. simpl. intros x Hx.
      apply not_true_is_false. rewrite covers_iff. lia.
    - apply not_true_is_false. rewrite covers_iff. lia.
    - destruct Hl as [Ht _]. inversion Hpl' as [|? ? Hpt Hpl'']; subst.
      unfold positive_length in Hpt. inversion Hs as [|? ? Hst _]; subst.
      unfold seg_follows in Hst.
      constructor.
      + apply not_true_is_false. rewrite covers_iff. lia.
      + eapply Forall_impl; [|exact Ht]. unfold seg_follows. intros y Hy.
        apply not_true_is_false. rewrite covers_iff. lia. }
  cbn [flat_map]. rewrite Hgap. cbn [app]. exact IH'.
Qed.

Lemma merged_from_unmergeable (rest : list segment) :
  forall prev,
    linked (fun x y => ~ mergeable x y) (prev :: rest) ->
    merged_from prev rest = prev :: rest.
Proof.
  induction rest as [|seg r IH]; intros prev H; [reflexivity|].
  destruct H as [Hm H]. cbn [merged_from].
  replace (String.eqb (SleepSegment.stage seg) (SleepSegment.stage prev)
           && (SleepSegment.start_dt seg =? SleepSegment.end_dt prev))
    with false.
  - f_equal. apply IH, H.
  - symmetry. apply not_true_is_false. intros C.
    apply andb_true_iff in C. destruct C as [C1 C2].
    apply Hm. split; [apply String.eqb_eq, C1 | apply Z.eqb_eq, C2].
Qed.

Lemma normal_form_fixpoint (l : list segment) :
  chain seg_follows l ->
  Forall (fun s => SleepSession.kept s = true) l ->
  linked (fun x y => ~ mergeable x y) l ->
  normal_form l = l.
Proof.
  intros Hch Hk Hm.
  assert (Hpos : Forall positive_length l).
  { eapply Forall_impl; [|exact Hk]. intros s Hs. apply kept_iff in Hs. apply Hs. }
  unfold normal_form.
  rewrite filter_all by exact Hk.
  rewrite sorted_by_key_sorted by assumption.
  rewrite boundaries_chain_intervals by assumption.
  pose proof (resolved_chain_intervals l [] Hch Hpos) as Hres.
  cbn [app] in Hres. rewrite Hres.
  destruct l as [|s l]; [reflexivity|].
  apply merged_from_unmergeable, Hm.
Qed.

(** ** Sessions *)

Lemma chain_bounds (rest : list segment) :
  forall n0,
    chain seg_follows (n0 :: rest) -> Forall positive_length (n0 :: rest) ->
    Forall (fun s => SleepSegment.start_dt n0 <= SleepSegment.start_dt s
                     /\ SleepSegment.end_dt s <= SleepSegment.end_dt (last rest n0))
           (n0 :: rest).
Proof.
  induction rest as [|y r IH]; intros n0 Hch Hpos.
  - constructor; [simpl; lia | constructor].
  - destruct Hch as [Hn0 Hch]. inversion Hpos as [|? ? Hp0 Hpos']; subst.
    specialize (IH y Hch Hpos'). rewrite last_cons_default.
    inversion Hn0 as [|? ? Hny _]; subst.
    inversion Hpos' as [|? ? Hpy _]; subst.
    unfold seg_follows, positive_length in *.
    constructor.
    + inversion IH as [|? ? [_ Hy] _]; subst. lia.
    + eapply Forall_impl; [|exact IH]. simpl. intros s [Hs1 Hs2]. lia.
Qed.

Lemma from_segments_inv (segs : list segment) (sess : session) :
  Forall valid segs -> SleepSession.from_segments segs = Ok sess ->
  session_invariant sess.
Proof.
  intros Hv H. rewrite from_segments_eq in H by exact Hv.
  destruct (normal_form_chain segs) as [Hch Hpos].
  pose proof (normal_form_stage segs) as Hst.
  destruct (normal_form segs) as [|n0 rest] eqn:E; [discriminate|].
  inversion H; subst sess; clear H. unfold session_invariant. simpl.
  split; [exact Hch|]. split; [exact Hpos|]. split; [|split].
  - apply Forall_forall. intros o Ho. destruct (Hst o Ho) as (s & Hs & Hk & Hso).
    rewrite Forall_forall in Hv. specialize (Hv s Hs).
    apply kept_iff in Hk. apply valid_stage_ok in Hv.
    unfold stage_ok in *. rewrite <- Hso. tauto.
  - apply chain_bounds; assumption.
  - exists n0, rest. auto.
Qed.

Lemma from_segments_ok (segs : list segment) :
  Forall valid segs -> filter SleepSession.kept segs <> [] ->
  exists sess, SleepSession.from_segments segs = Ok sess.
Proof.
  intros Hv Hne. rewrite from_segments_eq by exact Hv.
  pose proof (normal_form_nonempty segs Hne) as Hnf.
  destruct (normal_form segs); [congruence|]. eexists; reflexivity.
Qed.

Lemma mapM_ok {A B : Type} (f : A -> exc B) (P : B -> Prop) (l : list A) :
  Forall (fun x => exists y, f x = Ok y /\ P y) l ->
  exists ys, mapM f l = Ok ys /\ Forall P ys /\ List.length ys = List.length l.
Proof.
  induction 1 as [|x l (y & Hy & HP) _ (ys & IH1 & IH2 & IH3)]; simpl.
  - exists []. auto.
  - exists (y :: ys). rewrite Hy, IH1. simpl. auto.
Qed.

(** The groups of the grouper consist of kept input segments. *)
Lemma grouping_members (gap : timedelta) (segs : list segment)
      (groups : list (list segment)) :
  grouping gap (filter SleepSession.kept segs) groups ->
  Forall (fun g => g <> []
                   /\ Forall (fun s => In s segs /\ SleepSession.kept s = true) g)
         groups.
Proof.
  intros (Hcat & Hne & _ & _). rewrite Forall_forall in *.
  intros g Hg. split; [apply Hne, Hg|].
  apply Forall_forall. intros s Hs. apply filter_In. rewrite <- Hcat.
  apply in_concat. exists g. auto.
Qed.

Lemma group_session_ok (segs g : list segment) :
  Forall valid segs ->
  g <> [] /\ Forall (fun s => In s segs /\ SleepSession.kept s = true) g ->
  exists sess, SleepSession.from_segments g = Ok sess /\ session_invariant sess.
Proof.
  intros Hv [Hne Hg].
  assert (Hvg : Forall valid g).
  { eapply Forall_impl; [|exact Hg]. simpl. intros s [Hs _].
    rewrite Forall_forall in Hv. apply Hv, Hs. }
  assert (Hkg : filter SleepSession.kept g = g).
  { apply filter_all. eapply Forall_impl; [|exact Hg]. simpl. tauto. }
  destruct (from_segments_ok g Hvg) as [sess Hsess]; [congruence|].
  exists sess. split; [exact Hsess|]. eapply from_segments_inv; eauto.
Qed.

Lemma build_sleep_sessions_ok (segs : list segment) (gap : timedelta) :
  Forall valid segs ->
  exists l,
    build_sleep_sessions segs gap = Ok l /\ Forall session_invariant l
    /\ List.length l = List.length (gap_groups gap [] (filter SleepSession.kept segs)).
Proof.
  intros Hv. rewrite build_sleep_sessions_eq.
  apply mapM_ok.
  pose proof (grouping_members gap segs _ (gap_groups_grouping gap _)) as Hm.
  eapply Forall_impl; [|exact Hm]. intros g Hg.
  apply (group_session_ok segs); assumption.
Qed.

Lemma session_invariant_durations (sess : session) :
  session_invariant sess ->
  SleepSession.asleep_duration sess + SleepSession.awake_duration sess
  <= SleepSession.duration sess.
Proof.
  intros (Hch & Hpos & _ & _ & n0 & rest & Hl & Hs & He).
  unfold SleepSession.asleep_duration, SleepSession.awake_duration,
    SleepSession.duration.
  rewrite sum_durations_split, Hs, He, Hl.
  rewrite Hl in Hch, Hpos. apply sum_durations_chain; assumption.
Qed.

Lemma ordered_disjoint_chain (l : list segment) :
  time_ordered l -> pairwise_disjoint l -> Forall positive_length l ->
  chain seg_follows l.
Proof.
  unfold time_ordered, pairwise_disjoint.
  induction l as [|x l IH]; simpl; [auto|].
  intros [Ho Hto] [Hd Hpd] Hpos. inversion Hpos as [|? ? Hpx Hpos']; subst.
  split; [|apply IH; assumption].
  rewrite Forall_forall in *. intros y Hy.
  specialize (Ho y Hy). specialize (Hd y Hy). specialize (Hpos' y Hy).
  unfold seg_follows, positive_length, disjoint, contains in *.
  destruct (Z.le_gt_cases (SleepSegment.end_dt x) (SleepSegment.start_dt y))
    as [Hle|Hgt]; [exact Hle|].
  exfalso. apply (Hd (SleepSegment.start_dt y)). lia.
Qed.

(** ** The end of the last segment of a group *)

Lemma last_end_is_latest (g : list segment) :
  forall x d,
    ends_ascending g -> In x g ->
    SleepSegment.end_dt x <= SleepSegment.end_dt (last g d).
Proof.
  unfold ends_ascending.
  induction g as [|y r IH]; intros x d Hch Hx; [contradiction|].
  destruct Hch as [Hy Hch]. rewrite last_cons_default.
  destruct Hx as [<-|Hx]; [|apply IH; assumption].
  destruct r as [|z r]; [simpl; lia|].
  inversion Hy as [|? ? Hyz _]; subst.
  specialize (IH z y Hch (or_introl eq_refl)). lia.
Qed.

Lemma chain_concat_member {A : Type} (R : A -> A -> Prop)
      (groups : list (list A)) (g : list A) :
  chain R (List.concat groups) -> In g groups -> chain R g.
Proof.
  induction groups as [|h groups IH]; simpl; [contradiction|].
  intros Hch Hg. apply chain_app in Hch. destruct Hch as (Hh & Hrest & _).
  destruct Hg as [<-|Hg]; [exact Hh | apply IH; assumption].
Qed.

(** * The claims about sleep.py *)

(** C3 (counterexample).  A zero-length segment is constructed without an
    error: [__post_init__] rejects only [end_dt < start_dt], so "construction
    fails whenever end equals start" does not hold. *)
Lemma segment_zero_length_is_accepted :
  SleepSegment.new 0 0 "Core" = Ok (SleepSegment.Build 0 0 "Core")
  /\ ~ (forall a b st, b = a -> exists e, SleepSegment.new a b st = Raise e).
Proof.
  split; [reflexivity|].
  intros H. destruct (H 0 0 "Core"%string eq_refl) as [e He]. discriminate.
Qed.

(** C3 (as amended).  Constructing a segment raises [ValueError] exactly when
    the end instant precedes the start instant or the stage is not one of
    Awake, REM, Deep, Core, Asleep, Unspecified, InBed; in every other case,
    equal instants included, it returns the segment with the three fields as
    given, never a coerced one. *)
Theorem segment_construction_validates (a b : datetime) (st : string) :
  SleepSegment.new a b st =
    (if (b <? a)
        || negb (existsb (String.eqb st)
                   ["Awake"; "REM"; "Deep"; "Core"; "Asleep"; "Unspecified";
                    "InBed"]%string)
     then Raise ValueError
     else Ok (SleepSegment.Build a b st))
  /\ ((exists s, SleepSegment.new a b st = Ok s) <->
      a <= b /\ In st ["Awake"; "REM"; "Deep"; "Core"; "Asleep"; "Unspecified";
                       "InBed"]%string).
Proof.
  assert (Hset : str_in st SLEEP_STAGES_values
                 = existsb (String.eqb st)
                     ["Awake"; "REM"; "Deep"; "Core"; "Asleep"; "Unspecified";
                      "InBed"]%string).
  { unfold str_in, SLEEP_STAGES_values. simpl.
    repeat match goal with |- context [String.eqb st ?x] =>
      destruct (String.eqb st x); simpl; try reflexivity end. }
  assert (Heq : SleepSegment.new a b st =
    (if (b <? a)
        || negb (existsb (String.eqb st)
                   ["Awake"; "REM"; "Deep"; "Core"; "Asleep"; "Unspecified";
                    "InBed"]%string)
     then Raise ValueError
     else Ok (SleepSegment.Build a b st))).
  { unfold SleepSegment.new, SleepSegment.__post_init__. cbn [SleepSegment.start_dt
      SleepSegment.end_dt SleepSegment.stage]. rewrite Hset.
    destruct (b <? a); [reflexivity|]. cbn [orb].
    destruct (existsb _ _); reflexivity. }
  split; [exact Heq|]. rewrite Heq.
  destruct (Z.ltb_spec b a) as [Hlt|Hge]; cbn [orb].
  - split; [intros [s Hs]; discriminate | intros [? _]; lia].
  - destruct (existsb (String.eqb st) _) eqn:E; cbn [negb].
    + split; [|intros _; eexists; reflexivity]. intros _. split; [lia|].
      apply existsb_exists in E. destruct E as (x & Hx & Hst).
      apply String.eqb_eq in Hst. subst x. exact Hx.
    + split; [intros [s Hs]; discriminate|]. intros [_ Hin].
      assert (existsb (String.eqb st)
                ["Awake"; "REM"; "Deep"; "Core"; "Asleep"; "Unspecified"; "InBed"]%string
              = true)
        by (apply existsb_exists; exists st; split; [exact Hin | apply String.eqb_refl]).
      congruence.
Qed.

(** C2 (counterexample).  Two segments an hour apart normalize to themselves:
    the session built from them, by [from_segments] and by the grouper alike,
    has consecutive segments with a gap between them. *)
Lemma session_segments_may_leave_gaps :
  SleepSession.from_segments
    [SleepSegment.Build (hours 0) (hours 1) "Core";
     SleepSegment.Build (hours 2) (hours 3) "REM"]
  = Ok (SleepSession.Build (hours 0) (hours 3)
          [SleepSegment.Build (hours 0) (hours 1) "Core";
           SleepSegment.Build (hours 2) (hours 3) "REM"])
  /\ build_sleep_sessions
       [SleepSegment.Build (hours 0) (hours 1) "Core";
        SleepSegment.Build (hours 2) (hours 3) "REM"] (hours 2)
     = Ok [SleepSession.Build (hours 0) (hours 3)
             [SleepSegment.Build (hours 0) (hours 1) "Core";
              SleepSegment.Build (hours 2) (hours 3) "REM"]]
  /\ SleepSegment.end_dt (SleepSegment.Build (hours 0) (hours 1) "Core")
     <> SleepSegment.start_dt (SleepSegment.Build (hours 2) (hours 3) "REM").
Proof. vm_compute. repeat split; try reflexivity. discriminate. Qed.

(** C2 (as amended).  Every session produced by [from_segments] or by the
    grouper has a non-empty, time-ordered sequence of pairwise-disjoint
    segments of positive length, none of them [InBed] and each of an
    enumerated stage, all lying within the session's bounds; the session
    starts where its first segment starts and ends where its last segment
    ends.  (Consecutive segments need not touch.)  [from_segments] produces a
    session whenever a segment survives the filter, the grouper always
    returns. *)
Theorem session_invariant_holds (segs : list segment) (gap : timedelta) :
  Forall valid segs ->
  (forall sess, SleepSession.from_segments segs = Ok sess -> session_invariant sess)
  /\ (filter SleepSession.kept segs <> [] ->
      exists sess, SleepSession.from_segments segs = Ok sess)
  /\ (exists l, build_sleep_sessions segs gap = Ok l /\ Forall session_invariant l).
Proof.
  intros Hv. split; [|split].
  - intros sess H. eapply from_segments_inv; eauto.
  - apply from_segments_ok, Hv.
  - destruct (build_sleep_sessions_ok segs gap Hv) as (l & H1 & H2 & _).
    exists l. auto.
Qed.

Lemma night_example_valid : Forall valid night_example.
Proof. repeat constructor. Defined.

Lemma session_invariant_holds_witness :
  (forall sess,
      SleepSession.from_segments night_example = Ok sess -> session_invariant sess)
  /\ (filter SleepSession.kept night_example <> [] ->
      exists sess, SleepSession.from_segments night_example = Ok sess)
  /\ (exists l,
         build_sleep_sessions night_example (hours 2) = Ok l
         /\ Forall session_invariant l).
Proof.
  exact (session_invariant_holds night_example (hours 2) night_example_valid).
Defined.

(** C9.  For every session produced by [from_segments] or by the grouper,
    the asleep duration plus the awake duration is at most the duration of
    the session. *)
Theorem session_durations_bounded (segs : list segment) (gap : timedelta) :
  Forall valid segs ->
  (forall sess,
      SleepSession.from_segments segs = Ok sess ->
      SleepSession.asleep_duration sess + SleepSession.awake_duration sess
      <= SleepSession.duration sess)
  /\ (exists l,
         build_sleep_sessions segs gap = Ok l
         /\ Forall (fun sess =>
                      SleepSession.asleep_duration sess
                      + SleepSession.awake_duration sess
                      <= SleepSession.duration sess) l).
Proof.
  intros Hv. split.
  - intros sess H. apply session_invariant_durations.
    eapply from_segments_inv; eauto.
  - destruct (build_sleep_sessions_ok segs gap Hv) as (l & H1 & H2 & _).
    exists l. split; [exact H1|].
    eapply Forall_impl; [|exact H2]. apply session_invariant_durations.
Qed.

Lemma session_durations_bounded_witness :
  (forall sess,
      SleepSession.from_segments night_example = Ok sess ->
      SleepSession.asleep_duration sess + SleepSession.awake_duration sess
      <= SleepSession.duration sess)
  /\ (exists l,
         build_sleep_sessions night_example (hours 2) = Ok l
         /\ Forall (fun sess =>
                      SleepSession.asleep_duration sess
                      + SleepSession.awake_duration sess
                      <= SleepSession.duration sess) l).
Proof.
  exact (session_durations_bounded night_example (hours 2) night_example_valid).
Defined.

(** C10.  On segments that were constructed, [build_sleep_sessions] returns a
    list and raises nothing, the empty-session error of [from_segments]
    included: when every segment is [InBed] or of zero duration the result is
    the empty list, and otherwise every group handed to [from_segments] is
    non-empty and made of kept input segments, on which [from_segments]
    succeeds. *)
Theorem grouper_never_raises_empty_session (segs : list segment) (gap : timedelta) :
  Forall valid segs ->
  (exists l, build_sleep_sessions segs gap = Ok l)
  /\ (Forall (fun s => SleepSession.kept s = false) segs ->
      build_sleep_sessions segs gap = Ok [])
  /\ (exists groups,
         build_sleep_sessions segs gap = mapM SleepSession.from_segments groups
         /\ Forall (fun g =>
                      g <> []
                      /\ Forall (fun s => In s segs /\ SleepSession.kept s = true) g
                      /\ exists sess, SleepSession.from_segments g = Ok sess)
                   groups).
Proof.
  intros Hv. split; [|split].
  - destruct (build_sleep_sessions_ok segs gap Hv) as (l & H1 & _). eauto.
  - intros Hk. unfold build_sleep_sessions. rewrite filter_none by exact Hk.
    reflexivity.
  - exists (gap_groups gap [] (filter SleepSession.kept segs)).
    split; [apply build_sleep_sessions_eq|].
    pose proof (grouping_members gap segs _ (gap_groups_grouping gap _)) as Hm.
    eapply Forall_impl; [|exact Hm]. intros g Hg.
    destruct (group_session_ok segs g Hv Hg) as (sess & Hs & _).
    destruct Hg as [Hne Hg]. repeat split; eauto.
Qed.

Lemma grouper_never_raises_empty_session_witness :
  (exists l, build_sleep_sessions night_example (hours 2) = Ok l)
  /\ (Forall (fun s => SleepSession.kept s = false) night_example ->
      build_sleep_sessions night_example (hours 2) = Ok [])
  /\ (exists groups,
         build_sleep_sessions night_example (hours 2)
         = mapM SleepSession.from_segments groups
         /\ Forall (fun g =>
                      g <> []
                      /\ Forall (fun s => In s night_example
                                          /\ SleepSession.kept s = true) g
                      /\ exists sess, SleepSession.from_segments g = Ok sess)
                   groups).
Proof.
  exact (grouper_never_raises_empty_session night_example (hours 2)
           night_example_valid).
Defined.

(** What the grouper computes.  It drops [InBed] and zero-duration segments
    and cuts the rest, in the order given, into groups: a segment opens a
    new group exactly when it starts more than [gap] after the end of the
    segment before it, which is the last one of the current group
    ([current[-1].end_dt]); where the ends of the segments ascend with their
    order this is the latest end of the group.  The groups, the final one
    included, are each handed to [from_segments], and there is one such
    partition only.  Two kept segments three hours apart (one ending at
    23:00, the next starting at 02:00) give two sessions under a two-hour
    gap and one session under a four-hour gap. *)
Lemma grouper_splits_on_gap :
  (forall segments gap,
      exists groups,
        grouping gap (filter SleepSession.kept segments) groups
        /\ (forall groups',
               grouping gap (filter SleepSession.kept segments) groups' ->
               groups' = groups)
        /\ build_sleep_sessions segments gap
           = mapM SleepSession.from_segments groups)
  /\ (forall gap segs groups g x d,
         grouping gap segs groups -> ends_ascending segs ->
         In g groups -> In x g ->
         SleepSegment.end_dt x <= SleepSegment.end_dt (last g d))
  /\ (forall x y,
         valid x -> valid y ->
         SleepSession.kept x = true -> SleepSession.kept y = true ->
         SleepSegment.start_dt y - SleepSegment.end_dt x = hours 3 ->
         build_sleep_sessions [x; y] (hours 2)
         = Ok [SleepSession.Build (SleepSegment.start_dt x) (SleepSegment.end_dt x) [x];
               SleepSession.Build (SleepSegment.start_dt y) (SleepSegment.end_dt y) [y]]
         /\ build_sleep_sessions [x; y] (hours 4)
            = Ok [SleepSession.Build (SleepSegment.start_dt x)
                    (SleepSegment.end_dt y) [x; y]]).
Proof.
  split; [|split].
  - intros segments gap.
    exists (gap_groups gap [] (filter SleepSession.kept segments)).
    split; [apply gap_groups_grouping|]. split.
    + intros groups' H. eapply grouping_unique; [exact H|].
      apply gap_groups_grouping.
    + apply build_sleep_sessions_eq.
  - intros gap segs groups g x d (Hcat & _) Hasc Hg Hx.
    apply last_end_is_latest; [|exact Hx].
    unfold ends_ascending in *. rewrite <- Hcat in Hasc.
    eapply chain_concat_member; eauto.
  - intros x y Hvx Hvy Hkx Hky Hgap.
    assert (Hx : normal_form [x] = [x]).
    { apply normal_form_fixpoint; simpl; auto. }
    assert (Hy : normal_form [y] = [y]).
    { apply normal_form_fixpoint; simpl; auto. }
    assert (Hxy : normal_form [x; y] = [x; y]).
    { apply normal_form_fixpoint; simpl; auto.
      - repeat split; auto. constructor; [|constructor].
        unfold seg_follows, hours in *. lia.
      - repeat split; auto. unfold mergeable, hours in *. intros [_ H]. lia. }
    rewrite !build_sleep_sessions_eq.
    cbn [filter]. rewrite Hkx, Hky. cbn [gap_groups last app].
    rewrite Hgap.
    replace (hours 2 <? hours 3) with true by reflexivity.
    replace (hours 4 <? hours 3) with false by reflexivity.
    cbn [mapM].
    rewrite !from_segments_eq by (repeat constructor; assumption).
    rewrite Hx, Hy, Hxy. split; reflexivity.
Qed.

Lemma grouper_gap_example :
  build_sleep_sessions
    [SleepSegment.Build (hours 22) (hours 23) "Core";
     SleepSegment.Build (hours 26) (hours 27) "REM"] (hours 2)
  = Ok [SleepSession.Build (hours 22) (hours 23)
          [SleepSegment.Build (hours 22) (hours 23) "Core"];
        SleepSession.Build (hours 26) (hours 27)
          [SleepSegment.Build (hours 26) (hours 27) "REM"]]
  /\ build_sleep_sessions
       [SleepSegment.Build (hours 22) (hours 23) "Core";
        SleepSegment.Build (hours 26) (hours 27) "REM"] (hours 4)
     = Ok [SleepSession.Build (hours 22) (hours 27)
             [SleepSegment.Build (hours 22) (hours 23) "Core";
              SleepSegment.Build (hours 26) (hours 27) "REM"]].
Proof.
  exact (proj2 (proj2 grouper_splits_on_gap)
           (SleepSegment.Build (hours 22) (hours 23) "Core")
           (SleepSegment.Build (hours 26) (hours 27) "REM")
           eq_refl eq_refl eq_refl eq_refl eq_refl).
Qed.

Lemma last_in_cons {A : Type} (l : list A) :
  forall d, In (last l d) (d :: l).
Proof.
  induction l as [|x r IH]; intros d; [left; reflexivity|].
  rewrite last_cons_default. right. apply IH.
Qed.

Lemma latest_end_snoc (c0 x : segment) (cs : list segment) :
  latest_end c0 (cs ++ [x])
  = Z.max (latest_end c0 cs) (SleepSegment.end_dt x).
Proof. unfold latest_end. rewrite fold_left_app. reflexivity. Qed.

Lemma latest_end_groups_from (gap : timedelta) (segs : list segment) :
  forall current,
    ends_ascending (current ++ segs) ->
    match current with
    | [] => True
    | c0 :: cs => latest_end c0 cs = SleepSegment.end_dt (last cs c0)
    end ->
    latest_end_groups gap current segs = gap_groups gap current segs.
Proof.
  induction segs as [|seg rest IH]; intros current Hasc Hlast.
  - destruct current; reflexivity.
  - assert (Hrest : ends_ascending ([seg] ++ rest)).
    { unfold ends_ascending in *. apply chain_app in Hasc. apply Hasc. }
    destruct current as [|c0 cs].
    + cbn [latest_end_groups gap_groups]. apply IH; [exact Hrest | reflexivity].
    + cbn [latest_end_groups gap_groups]. rewrite Hlast.
      destruct (gap <? SleepSegment.start_dt seg
                       - SleepSegment.end_dt (last cs c0)).
      * f_equal. apply IH; [exact Hrest | reflexivity].
      * apply IH.
        -- rewrite <- app_assoc. exact Hasc.
        -- cbn [app]. rewrite latest_end_snoc, Hlast.
           rewrite last_last.
           apply Z.max_r.
           unfold ends_ascending in Hasc. apply chain_app in Hasc.
           destruct Hasc as (_ & _ & Hall). rewrite Forall_forall in Hall.
           assert (Hin : In (last cs c0) (c0 :: cs)) by apply last_in_cons.
           specialize (Hall _ Hin). inversion Hall; assumption.
Qed.

(** The rule of the specification and the test of the code.  The code
    measures the gap from [current[-1].end_dt]; where the ends of the
    segments ascend with their order this is the latest end of the current
    group, and the two partitions are the same. *)
Lemma latest_end_groups_agree (gap : timedelta) (segs : list segment) :
  ends_ascending segs ->
  latest_end_groups gap [] segs = gap_groups gap [] segs.
Proof. intros H. apply latest_end_groups_from; [exact H | exact I]. Qed.

(** C4 (the code at the failing input).  The segments Core[00:00,10:00),
    REM[01:00,02:00), Deep[04:30,05:00) are constructed, all pass the filter
    and stand in ascending start order.  With a gap of two hours the rule of
    the claim keeps them in one group, since the latest end of the group,
    10:00, is after the start of every segment.  The code measures from the
    end of the segment added last, REM at 02:00, so that Deep, two and a
    half hours later, opens a second group: it returns two sessions, the
    second inside the first, and these are not separated by more than the
    gap. *)
Theorem grouper_splits_inside_long_segment :
  Forall valid nested_example
  /\ filter SleepSession.kept nested_example = nested_example
  /\ time_ordered nested_example
  /\ latest_end_groups (hours 2) [] (filter SleepSession.kept nested_example)
     = [nested_example]
  /\ gap_groups (hours 2) [] (filter SleepSession.kept nested_example)
     = [[SleepSegment.Build (hours 0) (hours 10) "Core";
         SleepSegment.Build (hours 1) (hours 2) "REM"];
        [SleepSegment.Build (minutes 270) (hours 5) "Deep"]]
  /\ build_sleep_sessions nested_example (hours 2)
     = Ok [SleepSession.Build (hours 0) (hours 10)
             [SleepSegment.Build (hours 0) (hours 1) "Core";
              SleepSegment.Build (hours 1) (hours 2) "REM";
              SleepSegment.Build (hours 2) (hours 10) "Core"];
           SleepSession.Build (minutes 270) (hours 5)
             [SleepSegment.Build (minutes 270) (hours 5) "Deep"]]
  /\ ~ separated (hours 2)
         (SleepSession.Build (hours 0) (hours 10)
            [SleepSegment.Build (hours 0) (hours 1) "Core";
             SleepSegment.Build (hours 1) (hours 2) "REM";
             SleepSegment.Build (hours 2) (hours 10) "Core"])
         (SleepSession.Build (minutes 270) (hours 5)
            [SleepSegment.Build (minutes 270) (hours 5) "Deep"]).
Proof.
  split; [repeat constructor|].
  split; [reflexivity|].
  split; [unfold time_ordered, nested_example; simpl; repeat constructor;
          vm_compute; discriminate|].
  split; [vm_compute; reflexivity|].
  split; [vm_compute; reflexivity|].
  split; [vm_compute; reflexivity|].
  unfold separated. vm_compute. discriminate.
Qed.

(** C6.  A sequence of constructed segments that is ordered in time, pairwise
    disjoint, free of [InBed] and of zero-duration segments, and in which no
    two consecutive segments have the same stage and touch, is returned by
    the normalizer exactly as it is. *)
Theorem normalize_idempotent (l : list segment) :
  Forall valid l ->
  time_ordered l ->
  pairwise_disjoint l ->
  Forall (fun s => SleepSegment.stage s <> "InBed"%string
                   /\ SleepSegment.duration s <> 0) l ->
  linked (fun x y => ~ mergeable x y) l ->
  SleepSession._normalize l = Ok l.
Proof.
  intros Hv Hto Hpd Hfree Hm.
  assert (Hk : Forall (fun s => SleepSession.kept s = true) l).
  { rewrite Forall_forall in *. intros s Hs. apply kept_iff.
    destruct (Hfree s Hs) as [H1 H2]. specialize (Hv s Hs).
    apply valid_iff in Hv. unfold SleepSegment.duration in H2.
    split; [exact H1 | lia]. }
  assert (Hpos : Forall positive_length l).
  { eapply Forall_impl; [|exact Hk]. intros s Hs. apply kept_iff in Hs. apply Hs. }
  rewrite normalize_eq by exact Hv. f_equal.
  apply normal_form_fixpoint; auto.
  apply ordered_disjoint_chain; assumption.
Qed.

Lemma normalize_idempotent_witness :
  SleepSession._normalize normalized_example = Ok normalized_example.
Proof.
  apply normalize_idempotent.
  - repeat constructor.
  - unfold time_ordered, normalized_example; simpl.
    repeat split; repeat constructor; simpl; discriminate.
  - unfold pairwise_disjoint, normalized_example; simpl.
    repeat split; repeat constructor;
      unfold disjoint, contains, minutes; simpl; intros t; lia.
  - repeat constructor; simpl; discriminate.
  - unfold normalized_example, mergeable; simpl.
    repeat split; intros [H1 H2]; discriminate.
Defined.

(** C7.  On constructed segments the normalizer returns a list in which, at
    every instant of every output segment, the stage is that of a kept input
    segment containing the instant and no kept input segment containing it
    has a higher priority; every instant of a kept input segment lies in an
    output segment.  Priorities are Awake 5, REM 4, Deep 3, Core 2, Asleep 1,
    Unspecified 0, so kept segments of equal priority have equal stages.
    Core[00:00,02:00) with Awake[00:30,01:30) normalizes to Core[00:00,00:30),
    Awake[00:30,01:30), Core[01:30,02:00). *)
Theorem normalize_picks_highest_priority :
  (forall segs,
      Forall valid segs ->
      exists out,
        SleepSession._normalize segs = Ok out
        /\ (forall o t,
               In o out -> contains o t ->
               (exists s,
                   In s segs /\ SleepSession.kept s = true /\ contains s t
                   /\ SleepSegment.stage s = SleepSegment.stage o)
               /\ (forall s',
                      In s' segs -> SleepSession.kept s' = true -> contains s' t ->
                      SleepSession.priority s' <= SleepSession.priority o))
        /\ (forall s t,
               In s segs -> SleepSession.kept s = true -> contains s t ->
               exists o, In o out /\ contains o t))
  /\ map (fun st => dict_get _STAGE_PRIORITY st 0)
         ["Awake"; "REM"; "Deep"; "Core"; "Asleep"; "Unspecified"]%string
     = [5; 4; 3; 2; 1; 0]
  /\ (forall s s',
         valid s -> valid s' ->
         SleepSession.kept s = true -> SleepSession.kept s' = true ->
         SleepSession.priority s = SleepSession.priority s' ->
         SleepSegment.stage s = SleepSegment.stage s')
  /\ SleepSession._normalize
       [SleepSegment.Build (hours 0) (hours 2) "Core";
        SleepSegment.Build (minutes 30) (minutes 90) "Awake"]
     = Ok [SleepSegment.Build (hours 0) (minutes 30) "Core";
           SleepSegment.Build (minutes 30) (minutes 90) "Awake";
           SleepSegment.Build (minutes 90) (hours 2) "Core"].
Proof.
  split; [|split; [reflexivity|split; [|reflexivity]]].
  - intros segs Hv. exists (normal_form segs).
    split; [apply normalize_eq, Hv|]. split.
    + intros o t. apply normal_form_sound.
    + intros s t. apply normal_form_complete.
  - intros s s' Hv Hv' Hk Hk'.
    apply valid_stage_ok in Hv, Hv'. apply kept_iff in Hk, Hk'.
    destruct Hk as [Hk _], Hk' as [Hk' _].
    unfold stage_ok, str_in, SLEEP_STAGES_values in Hv, Hv'.
    unfold SleepSession.priority.
    apply existsb_exists in Hv, Hv'.
    destruct Hv as (x & Hx & Ex), Hv' as (x' & Hx' & Ex').
    apply String.eqb_eq in Ex, Ex'. rewrite Ex, Ex' in *.
    simpl in Hx, Hx'.
    repeat match goal with H : _ \/ _ |- _ => destruct H as [H|H] end;
      subst; try contradiction; try reflexivity; try congruence;
      simpl; intros; discriminate.
Qed.

Lemma normalize_picks_highest_priority_witness :
  exists out,
    SleepSession._normalize night_example = Ok out
    /\ (forall o t,
           In o out -> contains o t ->
           (exists s,
               In s night_example /\ SleepSession.kept s = true /\ contains s t
               /\ SleepSegment.stage s = SleepSegment.stage o)
           /\ (forall s',
                  In s' night_example -> SleepSession.kept s' = true ->
                  contains s' t ->
                  SleepSession.priority s' <= SleepSession.priority o))
    /\ (forall s t,
           In s night_example -> SleepSession.kept s = true -> contains s t ->
           exists o, In o out /\ contains o t).
Proof.
  exact (proj1 normalize_picks_highest_priority night_example night_example_valid).
Defined.

(** * Properties of parser.py *)

(** ** Dictionaries *)

Lemma dict_find_set_same {V : Type} (d : list (string * V)) (k : string) (v : V) :
  dict_find (dict_set d k v) k = Some v.
Proof.
  induction d as [|[k' v'] d IH]; simpl.
  - rewrite String.eqb_refl. reflexivity.
  - destruct (String.eqb k' k) eqn:E; simpl; rewrite E; auto.
Qed.

Lemma dict_find_set_other {V : Type} (d : list (string * V)) (k k' : string) (v : V) :
  k <> k' -> dict_find (dict_set d k v) k' = dict_find d k'.
Proof.
  intros Hne. induction d as [|[k0 v0] d IH]; simpl.
  - destruct (String.eqb_spec k k'); [contradiction | reflexivity].
  - destruct (String.eqb_spec k0 k) as [->|Hk]; simpl.
    + destruct (String.eqb_spec k k'); [contradiction | reflexivity].
    + rewrite IH. reflexivity.
Qed.

Lemma dict_set_unchanged {V : Type} (d : list (string * V)) (k : string) (v : V) :
  dict_find d k = Some v -> dict_set d k v = d.
Proof.
  induction d as [|[k0 v0] d IH]; simpl; [discriminate|].
  destruct (String.eqb k0 k).
  - intros H. inversion H. reflexivity.
  - intros H. rewrite IH by exact H. reflexivity.
Qed.

(** ** Record types are never empty *)

Lemma truthy_get_or (x : option value) (y : value) :
  truthy y = true -> truthy (get_or x y) = true.
Proof.
  intros Hy. destruct x as [v|]; simpl; [|exact Hy].
  destruct (truthy v) eqn:E; assumption.
Qed.

Lemma get_or_truthy (v y : value) :
  truthy v = true -> get_or (Some v) y = v.
Proof. intros H. simpl. rewrite H. reflexivity. Qed.

Lemma truthy_determine_record_type (tag : value) (attrs : pydict) :
  truthy tag = true ->
  truthy (HealthRecord._determine_record_type tag attrs) = true.
Proof.
  intros H. unfold HealthRecord._determine_record_type.
  repeat match goal with
         | |- context [if ?b then _ else _] => destruct b
         end; auto using truthy_get_or.
Qed.

(** ** Reconstruction from the serialized mapping *)

Section RoundTrip.
Context {lib : DatetimeLibrary}.

Lemma from_element_round_trip (elem : element) (r : HealthRecord.t) :
  Elem.tag elem <> ""%string ->
  HealthRecord.from_element elem = Ok r ->
  HealthRecord.from_dict (HealthRecord.to_dict r) = Ok r.
Proof.
  intros Htag H. unfold HealthRecord.from_element in H.
  destruct (HealthRecord._parse_attributes elem) as [a0|e] eqn:Ea;
    simpl in H; [|discriminate].
  set (tag := VStr (Elem.tag elem)) in *.
  set (a1 := dict_set a0 "_tag" tag) in *.
  set (rt := HealthRecord._determine_record_type tag a1) in *.
  set (a2 := dict_set a1 "_type" rt) in *.
  destruct (HealthRecord._derive_time_window a2) as [w|e] eqn:Ew;
    simpl in H; [|discriminate].
  inversion H; subst r; clear H.
  assert (Htt : truthy tag = true).
  { unfold tag. simpl. destruct (String.eqb_spec (Elem.tag elem) ""%string);
      [contradiction | reflexivity]. }
  assert (Hrt : truthy rt = true)
    by (apply truthy_determine_record_type, Htt).
  assert (Hf1 : dict_find a2 "_tag" = Some tag).
  { unfold a2. rewrite dict_find_set_other by discriminate.
    apply dict_find_set_same. }
  assert (Hf2 : dict_find a2 "_type" = Some rt)
    by apply dict_find_set_same.
  unfold HealthRecord.from_dict, HealthRecord.to_dict. simpl.
  rewrite Hf1, (get_or_truthy tag _ Htt).
  rewrite (dict_set_unchanged a2 "_tag" tag Hf1).
  rewrite Hf2, (get_or_truthy rt _ Hrt).
  rewrite (dict_set_unchanged a2 "_type" rt Hf2).
  rewrite Ew. reflexivity.
Qed.

End RoundTrip.

(** ** The elements the reader processes *)

Lemma element_induction (P : element -> Prop) :
  (forall tag attrib children,
      Forall P children -> P (Element tag attrib children)) ->
  forall e, P e.
Proof.
  intros H. fix IH 1. intros [tag attrib children]. apply H.
  induction children as [|c cs IHcs]; constructor; [apply IH | exact IHcs].
Qed.

Lemma tags_nonempty_iff (tag : string) (attrib : list (string * string))
      (children : list element) :
  tags_nonempty (Element tag attrib children) <->
  tag <> ""%string /\ Forall tags_nonempty children.
Proof.
  simpl. split; intros [H1 H2]; (split; [exact H1|]).
  - induction children as [|c cs IH]; constructor; [apply H2 | apply IH, H2].
  - induction H2 as [|c cs Hc _ IH]; [exact I | split; assumption].
Qed.

Lemma events_of_children_tags (kept_here : bool)
      (rec : element -> list element * element) (cs : list element) :
  Forall (fun c =>
            Elem.tag c <> ""%string
            /\ Forall (fun x => Elem.tag x <> ""%string) (fst (rec c))
            /\ Elem.tag (snd (rec c)) = Elem.tag c) cs ->
  Forall (fun x => Elem.tag x <> ""%string)
         (fst (events_of_children kept_here rec cs)).
Proof.
  induction 1 as [|c cs (Hc & Hin & Hsnd) _ IH]; simpl; [constructor|].
  destruct (rec c) as [inside c'] eqn:Ec. simpl in Hin, Hsnd.
  destruct (events_of_children kept_here rec cs) as [later rest'] eqn:Er.
  simpl in IH. destruct kept_here; simpl.
  - apply Forall_app. split; [exact Hin|]. constructor; [congruence | exact IH].
  - apply Forall_app. split; assumption.
Qed.

Lemma events_in_tags (root_tag : string) (e : element) :
  tags_nonempty e ->
  Forall (fun x => Elem.tag x <> ""%string) (fst (events_in root_tag e))
  /\ Elem.tag (snd (events_in root_tag e)) = Elem.tag e.
Proof.
  induction e as [tag attrib children IH] using element_induction.
  intros H. apply tags_nonempty_iff in H. destruct H as [Htag Hcs].
  simpl. split; [|reflexivity].
  apply events_of_children_tags.
  rewrite Forall_forall in *. intros c Hc.
  specialize (IH c Hc (Hcs c Hc)). destruct IH as [IH1 IH2].
  specialize (Hcs c Hc). destruct c as [t a cs]. simpl in Hcs.
  repeat split; auto. apply Hcs.
Qed.

Lemma top_level_events_tags (root : element) :
  tags_nonempty root ->
  Forall (fun x => Elem.tag x <> ""%string) (top_level_events root).
Proof. intros H. apply events_in_tags, H. Qed.

Lemma tag_unused_iff (root_tag tag : string) (attrib : list (string * string))
      (children : list element) :
  tag_unused root_tag (Element tag attrib children) <->
  tag <> root_tag /\ Forall (tag_unused root_tag) children.
Proof.
  simpl. split; intros [H1 H2]; (split; [exact H1|]).
  - induction children as [|c cs IH]; constructor; [apply H2 | apply IH, H2].
  - induction H2 as [|c cs Hc _ IH]; [exact I | split; assumption].
Qed.

Lemma events_of_children_skipped (rec : element -> list element * element)
      (cs : list element) :
  Forall (fun c => rec c = ([], c)) cs ->
  events_of_children false rec cs = ([], cs).
Proof.
  induction 1 as [|c cs Hc _ IH]; simpl; [reflexivity|].
  rewrite Hc, IH. reflexivity.
Qed.

Lemma events_in_unused (root_tag : string) (e : element) :
  tag_unused root_tag e -> events_in root_tag e = ([], e).
Proof.
  induction e as [tag attrib children IH] using element_induction.
  intros H. apply tag_unused_iff in H. destruct H as [Htag Hcs].
  simpl. replace (String.eqb tag root_tag) with false
    by (symmetry; apply String.eqb_neq, Htag).
  rewrite events_of_children_skipped; [reflexivity|].
  rewrite Forall_forall in *. auto.
Qed.

Lemma events_of_children_kept (rec : element -> list element * element)
      (cs : list element) :
  Forall (fun c => rec c = ([], c)) cs ->
  fst (events_of_children true rec cs) = cs.
Proof.
  induction 1 as [|c cs Hc _ IH]; simpl; [reflexivity|].
  rewrite Hc. destruct (events_of_children true rec cs) as [later rest'].
  simpl in *. rewrite IH. reflexivity.
Qed.

(** A document in which the root's tag is not used below the root delivers
    its top-level children, untouched and in order. *)
Lemma top_level_events_flat (root : element) :
  Forall (tag_unused (Elem.tag root)) (Elem.children root) ->
  top_level_events root = Elem.children root.
Proof.
  destruct root as [tag attrib children]. unfold top_level_events. simpl.
  intros H. rewrite String.eqb_refl. apply events_of_children_kept.
  eapply Forall_impl; [|exact H]. intros c. apply events_in_unused.
Qed.

Lemma generate_yielded {A B : Type} (body : A -> exc (option B)) (l : list A)
      (y : B) :
  In y (yielded (generate body l)) -> exists x, In x l /\ body x = Ok (Some y).
Proof.
  induction l as [|x l IH]; simpl; [contradiction|].
  destruct (body x) as [[y'|]|e] eqn:E; simpl.
  - intros [<-|H]; [exists x; auto|].
    destruct (IH H) as (x' & Hx' & Hb). exists x'. auto.
  - intros H. destruct (IH H) as (x' & Hx' & Hb). exists x'. auto.
  - contradiction.
Qed.

Lemma process_yields {lib : DatetimeLibrary} (types_set : option (list string))
      (start_dt end_dt : option pydatetime) (elem : element) (r : HealthRecord.t) :
  process types_set start_dt end_dt elem = Ok (Some r) ->
  HealthRecord.from_element elem = Ok r.
Proof.
  unfold process, full_filter.
  destruct (type_prefilter types_set elem); [discriminate|].
  destruct (time_prefilter start_dt end_dt elem) as [[]|]; simpl;
    try discriminate.
  destruct (HealthRecord.from_element elem) as [record|]; simpl;
    [|discriminate].
  destruct (HealthRecord.is_any_of_types record types_set) as [[]|]; simpl;
    try discriminate.
  destruct (HealthRecord.intersects_time_window record start_dt end_dt)
    as [[]|]; simpl; try discriminate.
  intros H. inversion H. reflexivity.
Qed.

(** Without a type filter and without a window neither pre-filter is
    active: the loop body is the full construction and check. *)
Lemma process_without_filters {lib : DatetimeLibrary} (elem : element) :
  process None None None elem = full_filter None None None elem.
Proof. reflexivity. Qed.

(** ** [to_datetime] *)

Section ToDatetimeProperties.
Context {lib : DatetimeLibrary}.
Hypothesis library_errors : raises_only_ValueError lib.

Lemma try_library (r : exc pydatetime) (f : pydatetime -> pydatetime)
      (handler : exc (option pydatetime)) :
  (forall e, r = Raise e -> e = ValueError) ->
  try_except_ValueError (d <- r ;; Ok (Some (f d))) handler
  = match r with
    | Ok d => Ok (Some (f d))
    | Raise _ => handler
    end.
Proof.
  intros H. destruct r as [d|e]; simpl; [reflexivity|].
  rewrite (H e eq_refl). reflexivity.
Qed.

(** The order of the attempts: a text that ends in [Z] or [z] is settled by
    the Zulu form alone; any other text by the canonical form, then the
    general form, then the two naive forms, the first success winning. *)
Lemma to_datetime_precedence (v : string) :
  to_datetime (ArgStr v) =
  Ok (let s := strip v in
      if String.eqb s "" then None
      else if ends_with_zulu s
           then parsed_or_none (fromisoformat (drop_last s ++ "+00:00"))
           else
             or_else (parsed_or_none (strptime s "%Y-%m-%d %H:%M:%S %z"))
               (or_else (option_map assume_utc
                           (parsed_or_none (fromisoformat s)))
                  (or_else (option_map replace_utc
                              (parsed_or_none (strptime s "%Y-%m-%d %H:%M:%S")))
                     (option_map replace_utc
                        (parsed_or_none (strptime s "%Y-%m-%d")))))).
Proof.
  destruct library_errors as [Hiso Hstrp].
  unfold to_datetime. cbv zeta.
  destruct (String.eqb (strip v) ""); [reflexivity|].
  destruct (ends_with_zulu (strip v)).
  - rewrite (try_library _ (fun d => d)) by apply Hiso.
    destruct (fromisoformat _); reflexivity.
  - rewrite (try_library _ (fun d => d)) by apply Hstrp.
    destruct (strptime (strip v) "%Y-%m-%d %H:%M:%S %z"); [reflexivity|].
    rewrite (try_library _ assume_utc) by apply Hiso.
    destruct (fromisoformat (strip v)); [reflexivity|].
    rewrite (try_library _ replace_utc) by apply Hstrp.
    destruct (strptime (strip v) "%Y-%m-%d %H:%M:%S"); [reflexivity|].
    rewrite (try_library _ replace_utc) by apply Hstrp.
    destruct (strptime (strip v) "%Y-%m-%d"); reflexivity.
Qed.

(** [to_datetime] returns for every argument. *)
Lemma to_datetime_total (value : pyarg) :
  exists r, to_datetime value = Ok r.
Proof.
  destruct value as [|v|d|]; try (eexists; reflexivity).
  rewrite to_datetime_precedence. eexists; reflexivity.
Qed.

(** Outside the Zulu form the result is aware as soon as the canonical
    format, which ends in [%z], yields aware datetimes. *)
Lemma to_datetime_aware_unless_zulu (v : string) (d : pydatetime) :
  (forall s d', strptime s "%Y-%m-%d %H:%M:%S %z" = Ok d' -> is_aware d' = true) ->
  ends_with_zulu (strip v) = false ->
  to_datetime (ArgStr v) = Ok (Some d) ->
  is_aware d = true.
Proof.
  intros Hz Hnz. rewrite to_datetime_precedence. cbv zeta. rewrite Hnz.
  destruct (String.eqb (strip v) ""); [discriminate|].
  destruct (strptime (strip v) "%Y-%m-%d %H:%M:%S %z") as [d1|] eqn:E1; simpl.
  - intros H. inversion H; subst. eapply Hz; eauto.
  - destruct (fromisoformat (strip v)) as [d2|]; simpl.
    + intros H. inversion H; subst. unfold assume_utc.
      destruct (is_aware d2) eqn:E2; [exact E2 | reflexivity].
    + destruct (strptime (strip v) "%Y-%m-%d %H:%M:%S") as [d3|]; simpl.
      * intros H. inversion H. reflexivity.
      * destruct (strptime (strip v) "%Y-%m-%d") as [d4|]; simpl;
          intros H; inversion H. reflexivity.
Qed.

(** ["2024-01-20 15:30:00Z"] and ["2024-01-20T08:30:00-07:00"] denote the
    same instant, given how the library reads the two texts. *)
Lemma to_datetime_zulu_example :
  fromisoformat "2024-01-20 15:30:00+00:00"
  = Ok (Aware (wall_of 2024 1 20 15 30 0) 0) ->
  strptime "2024-01-20T08:30:00-07:00" "%Y-%m-%d %H:%M:%S %z"
  = Raise ValueError ->
  fromisoformat "2024-01-20T08:30:00-07:00"
  = Ok (Aware (wall_of 2024 1 20 8 30 0) (hours (-7))) ->
  exists a b,
    to_datetime (ArgStr "2024-01-20 15:30:00Z") = Ok (Some a)
    /\ to_datetime (ArgStr "2024-01-20T08:30:00-07:00") = Ok (Some b)
    /\ dt_eqb a b = true /\ instant a = instant b.
Proof.
  intros H1 H2 H3.
  exists (Aware (wall_of 2024 1 20 15 30 0) 0),
         (Aware (wall_of 2024 1 20 8 30 0) (hours (-7))).
  rewrite !to_datetime_precedence.
  change (strip "2024-01-20 15:30:00Z") with "2024-01-20 15:30:00Z"%string.
  change (strip "2024-01-20T08:30:00-07:00")
    with "2024-01-20T08:30:00-07:00"%string.
  cbv zeta.
  change (drop_last "2024-01-20 15:30:00Z" ++ "+00:00")%string
    with "2024-01-20 15:30:00+00:00"%string.
  change (ends_with_zulu "2024-01-20 15:30:00Z") with true.
  change (ends_with_zulu "2024-01-20T08:30:00-07:00") with false.
  cbn [String.eqb Ascii.eqb Bool.eqb].
  rewrite H1, H2, H3. repeat split; reflexivity.
Qed.

End ToDatetimeProperties.

(** The reference library meets the assumptions made of the library above. *)
Lemma reference_library_example :
  @fromisoformat reference_library "2024-01-20 15:30:00+00:00"
  = Ok (Aware (wall_of 2024 1 20 15 30 0) 0)
  /\ @strptime reference_library "2024-01-20T08:30:00-07:00" "%Y-%m-%d %H:%M:%S %z"
     = Raise ValueError
  /\ @fromisoformat reference_library "2024-01-20T08:30:00-07:00"
     = Ok (Aware (wall_of 2024 1 20 8 30 0) (hours (-7))).
Proof. repeat split; vm_compute; reflexivity. Qed.

Lemma reference_library_errors : raises_only_ValueError reference_library.
Proof.
  split.
  - intros s e. simpl. unfold ref_fromisoformat.
    destruct (ref_date _) as [[[y m] d]|]; [|congruence].
    destruct (skipn 10 _) as [|sep t]; [congruence|].
    destruct (split_sign t) as [tm tz].
    destruct (ref_time tm) as [[[hh mm] ss]|]; [|congruence].
    destruct tz as [[sign z]|]; [|congruence].
    destruct (ref_hh_mm z); congruence.
  - intros s fmt e. simpl. unfold ref_strptime.
    repeat match goal with
           | |- context [if ?b then _ else _] => destruct b
           | |- context [match ?x with _ => _ end] => destruct x
           end; congruence.
Qed.

(** With the reference library [to_datetime] returns for every argument. *)
Lemma reference_to_datetime_total (value : pyarg) :
  exists r, @to_datetime reference_library value = Ok r.
Proof. apply to_datetime_total, reference_library_errors. Qed.

(** * The claims about parser.py *)

(** C5.  For every record [r] the reader yields from a document whose
    element names are not empty, [from_dict (to_dict r)] returns a record,
    and this record is [r] itself: same tag, same record type, same start and
    end instants, same attribute mapping. *)
Theorem record_round_trip {lib : DatetimeLibrary} (root : element)
        (types : option (list string)) (start end_ : pyarg) (r : HealthRecord.t) :
  tags_nonempty root ->
  In r (yielded (iter_health_records root types start end_)) ->
  exists r',
    HealthRecord.from_dict (HealthRecord.to_dict r) = Ok r'
    /\ HealthRecord.tag r' = HealthRecord.tag r
    /\ HealthRecord.record_type r' = HealthRecord.record_type r
    /\ HealthRecord.start_dt r' = HealthRecord.start_dt r
    /\ HealthRecord.end_dt r' = HealthRecord.end_dt r
    /\ HealthRecord.to_dict r' = HealthRecord.to_dict r
    /\ r' = r.
Proof.
  intros Htags Hr. unfold iter_health_records in Hr.
  destruct (window start end_) as [[start_dt end_dt]|e]; [|contradiction].
  apply generate_yielded in Hr. destruct Hr as (elem & Helem & Hp).
  apply process_yields in Hp.
  pose proof (top_level_events_tags root Htags) as Hne.
  rewrite Forall_forall in Hne. specialize (Hne elem Helem).
  exists r. rewrite (from_element_round_trip elem r Hne Hp).
  repeat split; reflexivity.
Qed.

Lemma sample_document_tags : tags_nonempty sample_document.
Proof. simpl. repeat split; discriminate. Defined.

Lemma sample_workout_yielded :
  In sample_workout_record
     (yielded (@iter_health_records reference_library sample_document
                 (Some ["HKWorkoutActivityTypeRunning"%string]) ArgNone ArgNone)).
Proof. vm_compute. left. reflexivity. Defined.

Lemma record_round_trip_witness :
  exists r',
    @HealthRecord.from_dict reference_library
      (HealthRecord.to_dict sample_workout_record) = Ok r'
    /\ HealthRecord.tag r' = HealthRecord.tag sample_workout_record
    /\ HealthRecord.record_type r' = HealthRecord.record_type sample_workout_record
    /\ HealthRecord.start_dt r' = HealthRecord.start_dt sample_workout_record
    /\ HealthRecord.end_dt r' = HealthRecord.end_dt sample_workout_record
    /\ HealthRecord.to_dict r' = HealthRecord.to_dict sample_workout_record
    /\ r' = sample_workout_record.
Proof.
  exact (@record_round_trip reference_library sample_document
           (Some ["HKWorkoutActivityTypeRunning"%string]) ArgNone ArgNone
           sample_workout_record sample_document_tags sample_workout_yielded).
Defined.

(** C1 (the code at the failing input).  Whatever the datetime library does,
    on the document with one record whose [type] attribute [X] is overridden
    by the metadata entry [type = Y], and for the accepted types [{Y}], the
    reader runs to completion and yields nothing, because the type
    pre-filter reads the raw attribute [X]; constructing the record and
    applying the full filters keeps it, with record type [Y]. *)
Theorem prefilter_discards_kept_record {lib : DatetimeLibrary} :
  top_level_events overridden_type_document
  = Elem.children overridden_type_document
  /\ iter_health_records overridden_type_document (Some ["Y"%string]) ArgNone ArgNone
     = Generated [] None
  /\ full_filter_records overridden_type_document (Some ["Y"%string]) ArgNone ArgNone
     = Generated [overridden_type_record] None.
Proof. repeat split; reflexivity. Qed.

(** The time pre-filter has the same defect: it reads the raw [endDate],
    the full filter the clamped end instant.  With the reference library, a
    record that ends before it starts, read with a window that opens between
    the two dates, is dropped by the reader and kept by the full filters. *)
Lemma prefilter_discards_clamped_record :
  yielded (@iter_health_records reference_library reversed_dates_document None
             (ArgStr "2024-01-01 12:00:00 +0000") ArgNone) = []
  /\ List.length
       (yielded (@full_filter_records reference_library reversed_dates_document
                   None (ArgStr "2024-01-01 12:00:00 +0000") ArgNone)) = 1%nat.
Proof. split; vm_compute; reflexivity. Qed.

(** C8 (the code at the failing input).  A text that ends in [Z] is rewritten
    to end in [+00:00] and handed to [fromisoformat], and what comes back is
    returned as it is.  For ["2024-01-20Z"] the library reads
    ["2024-01-20+00:00"] as the date, a separator [+] and the time [00:00],
    a datetime without a zone: [to_datetime] returns this naive datetime,
    neither an aware one nor [None]. *)
Theorem to_datetime_zulu_date_is_naive {lib : DatetimeLibrary} (w : Z) :
  fromisoformat "2024-01-20+00:00" = Ok (Naive w) ->
  to_datetime (ArgStr "2024-01-20Z") = Ok (Some (Naive w))
  /\ is_aware (Naive w) = false.
Proof.
  intros H. split; [|reflexivity].
  unfold to_datetime.
  change (strip "2024-01-20Z") with "2024-01-20Z"%string. cbv zeta.
  change (drop_last "2024-01-20Z" ++ "+00:00")%string
    with "2024-01-20+00:00"%string.
  change (ends_with_zulu "2024-01-20Z") with true.
  cbn [String.eqb Ascii.eqb Bool.eqb].
  rewrite H. reflexivity.
Qed.

Lemma to_datetime_zulu_date_is_naive_witness :
  @to_datetime reference_library (ArgStr "2024-01-20Z")
  = Ok (Some (Naive (wall_of 2024 1 20 0 0 0)))
  /\ is_aware (Naive (wall_of 2024 1 20 0 0 0)) = false.
Proof.
  exact (@to_datetime_zulu_date_is_naive reference_library
           (wall_of 2024 1 20 0 0 0) eq_refl).
Defined.

(** * Further properties of sleep.py *)

(** ** The output of the merge loop cannot be merged further *)

Lemma merged_from_head (rest : list segment) :
  forall prev,
  exists h t,
    merged_from prev rest = h :: t
    /\ SleepSegment.start_dt h = SleepSegment.start_dt prev
    /\ SleepSegment.stage h = SleepSegment.stage prev.
Proof.
  induction rest as [|seg r IH]; intros prev; simpl.
  - exists prev, []. auto.
  - destruct (String.eqb_spec (SleepSegment.stage seg) (SleepSegment.stage prev))
      as [Hst|Hst]; simpl.
    + destruct (SleepSegment.start_dt seg =? SleepSegment.end_dt prev).
      * destruct (IH (SleepSegment.Build (SleepSegment.start_dt prev)
                        (SleepSegment.end_dt seg) (SleepSegment.stage seg)))
          as (h & t & E & H1 & H2).
        exists h, t. simpl in H1, H2. repeat split; auto. congruence.
      * exists prev, (merged_from seg r). auto.
    + exists prev, (merged_from seg r). auto.
Qed.

Lemma merged_from_linked (rest : list segment) :
  forall prev, linked (fun x y => ~ mergeable x y) (merged_from prev rest).
Proof.
  induction rest as [|seg r IH]; intros prev; simpl; [auto|].
  destruct (String.eqb (SleepSegment.stage seg) (SleepSegment.stage prev)
            && (SleepSegment.start_dt seg =? SleepSegment.end_dt prev)) eqn:C.
  - apply IH.
  - destruct (merged_from_head r seg) as (h & t & E & H1 & H2).
    specialize (IH seg). rewrite E in *. simpl. split; [|exact IH].
    unfold mergeable. rewrite H1, H2. intros [Hs Ha].
    apply andb_false_iff in C. destruct C as [C|C].
    + apply String.eqb_neq in C. contradiction.
    + apply Z.eqb_neq in C. contradiction.
Qed.

Lemma normal_form_canonical (segs : list segment) : canonical (normal_form segs).
Proof.
  destruct (normal_form_chain segs) as [Hch Hpos].
  split; [exact Hch|]. split; [exact Hpos|].
  unfold normal_form. destruct (resolved _ _) as [|r0 rest]; [exact I|].
  apply merged_from_linked.
Qed.

Lemma normal_form_kept (segs : list segment) :
  Forall (fun o => SleepSession.kept o = true) (normal_form segs).
Proof.
  destruct (normal_form_chain segs) as [_ Hpos].
  rewrite Forall_forall in *. intros o Ho. apply kept_iff.
  split; [|apply Hpos, Ho].
  destruct (normal_form_stage segs o Ho) as (s & _ & Hk & Hst).
  apply kept_iff in Hk. rewrite <- Hst. apply Hk.
Qed.

Lemma normal_form_valid (segs : list segment) :
  Forall valid segs -> Forall valid (normal_form segs).
Proof.
  intros Hv. destruct (normal_form_chain segs) as [_ Hpos].
  rewrite Forall_forall in *. intros o Ho. apply valid_iff.
  specialize (Hpos o Ho). unfold positive_length in Hpos. split; [lia|].
  destruct (normal_form_stage segs o Ho) as (s & Hs & _ & Hst).
  rewrite <- Hst. apply valid_stage_ok, Hv, Hs.
Qed.

(** ** A timeline has one canonical list *)

Lemma chain_head_start (b : segment) (l : list segment) (o : segment) (t : datetime) :
  chain seg_follows (b :: l) -> Forall positive_length (b :: l) ->
  In o (b :: l) -> contains o t -> SleepSegment.start_dt b <= t.
Proof.
  intros [Hb _] Hpos Ho Ht. unfold contains in Ht.
  destruct Ho as [<-|Ho]; [lia|].
  rewrite Forall_forall in Hb. specialize (Hb o Ho).
  inversion Hpos as [|? ? Hpb _]; subst.
  unfold seg_follows, positive_length in *. lia.
Qed.

Lemma chain_head_contains (b : segment) (l : list segment) (o : segment) (t : datetime) :
  chain seg_follows (b :: l) ->
  In o (b :: l) -> contains o t -> t < SleepSegment.end_dt b -> o = b.
Proof.
  intros [Hb _] Ho Ht Hlt. unfold contains in Ht.
  destruct Ho as [<-|Ho]; [reflexivity|].
  rewrite Forall_forall in Hb. specialize (Hb o Ho).
  unfold seg_follows in Hb. lia.
Qed.

Lemma canonical_tail (a : segment) (l : list segment) :
  canonical (a :: l) -> canonical l.
Proof.
  intros ((_ & Hch) & Hpos & (_ & Hl)). inversion Hpos; subst.
  repeat split; assumption.
Qed.

(** The second list cannot carry the stage of its head past the end of the
    head of the first. *)
Lemma canonical_head_end (a b : segment) (A B : list segment) :
  canonical (a :: A) -> canonical (b :: B) ->
  same_timeline (a :: A) (b :: B) ->
  SleepSegment.start_dt a = SleepSegment.start_dt b ->
  SleepSegment.stage a = SleepSegment.stage b ->
  SleepSegment.end_dt b <= SleepSegment.end_dt a.
Proof.
  intros (HchA & HposA & HlA) (HchB & HposB & _) Hsame Hstart Hstage.
  destruct (Z.le_gt_cases (SleepSegment.end_dt b) (SleepSegment.end_dt a))
    as [Hle|Hgt]; [exact Hle|]. exfalso.
  inversion HposA as [|? ? Hpa HposA']; subst.
  unfold positive_length in Hpa.
  assert (Hb : stage_at (b :: B) (SleepSegment.end_dt a) (SleepSegment.stage b)).
  { exists b. split; [left; reflexivity|]. split; [|reflexivity].
    unfold contains. lia. }
  apply Hsame in Hb. destruct Hb as (o & Ho & Ht & Hst).
  unfold contains in Ht.
  destruct Ho as [<-|Ho]; [lia|].
  destruct A as [|a2 A']; [contradiction|].
  destruct HchA as [Ha [Ha2 _]]. destruct HlA as [Hm _].
  inversion Ha as [|? ? Haa2 Ha']; subst. unfold seg_follows in Haa2.
  destruct Ho as [<-|Ho].
  - apply Hm. split; [congruence | lia].
  - rewrite Forall_forall in Ha2. specialize (Ha2 o Ho).
    inversion HposA' as [|? ? Hpa2 _]; subst.
    unfold seg_follows, positive_length in *. lia.
Qed.

Lemma same_timeline_sym (l l' : list segment) :
  same_timeline l l' -> same_timeline l' l.
Proof. intros H t st. symmetry. apply H. Qed.

Lemma same_timeline_head (a b : segment) (A B : list segment) :
  canonical (a :: A) -> canonical (b :: B) ->
  same_timeline (a :: A) (b :: B) ->
  SleepSegment.start_dt b <= SleepSegment.start_dt a
  /\ (SleepSegment.start_dt a = SleepSegment.start_dt b ->
      SleepSegment.stage a = SleepSegment.stage b).
Proof.
  intros (HchA & HposA & _) (HchB & HposB & _) Hsame.
  inversion HposA as [|? ? Hpa _]; subst. unfold positive_length in Hpa.
  assert (Ha : stage_at (a :: A) (SleepSegment.start_dt a) (SleepSegment.stage a)).
  { exists a. split; [left; reflexivity|]. split; [|reflexivity].
    unfold contains. lia. }
  apply Hsame in Ha. destruct Ha as (o & Ho & Ht & Hst).
  split.
  - eapply chain_head_start; eauto.
  - intros Heq. inversion HposB as [|? ? Hpb _]; subst.
    unfold positive_length in Hpb.
    assert (o = b) by (eapply chain_head_contains; eauto; lia).
    subst o. symmetry. exact Hst.
Qed.

Lemma same_timeline_tail (a : segment) (A B : list segment) :
  canonical (a :: A) -> canonical (a :: B) ->
  same_timeline (a :: A) (a :: B) -> same_timeline A B.
Proof.
  assert (Hhalf : forall A B,
             canonical (a :: A) -> canonical (a :: B) ->
             same_timeline (a :: A) (a :: B) ->
             forall t st, stage_at A t st -> stage_at B t st).
  { clear A B. intros A B (HchA & _) (HchB & _) Hsame t st (o & Ho & Ht & Hst).
    assert (Hin : stage_at (a :: A) t st) by (exists o; simpl; auto).
    apply Hsame in Hin. destruct Hin as (o' & Ho' & Ht' & Hst').
    destruct Ho' as [<-|Ho']; [|exists o'; auto].
    exfalso. destruct HchA as [Ha _]. rewrite Forall_forall in Ha.
    specialize (Ha o Ho). unfold seg_follows, contains in *. lia. }
  intros HA HB Hsame t st. split.
  - apply (Hhalf A B); assumption.
  - apply (Hhalf B A); auto using same_timeline_sym.
Qed.

Lemma canonical_unique (A : list segment) :
  forall B, canonical A -> canonical B -> same_timeline A B -> A = B.
Proof.
  induction A as [|a A IH]; intros B HA HB Hsame.
  - destruct B as [|b B]; [reflexivity|]. exfalso.
    destruct HB as (_ & HposB & _). inversion HposB as [|? ? Hpb _]; subst.
    unfold positive_length in Hpb.
    assert (Hb : stage_at (b :: B) (SleepSegment.start_dt b) (SleepSegment.stage b)).
    { exists b. split; [left; reflexivity|]. split; [|reflexivity].
      unfold contains. lia. }
    apply Hsame in Hb. destruct Hb as (o & [] & _).
  - destruct B as [|b B].
    + exfalso. destruct HA as (_ & HposA & _).
      inversion HposA as [|? ? Hpa _]; subst. unfold positive_length in Hpa.
      assert (Ha : stage_at (a :: A) (SleepSegment.start_dt a) (SleepSegment.stage a)).
      { exists a. split; [left; reflexivity|]. split; [|reflexivity].
        unfold contains. lia. }
      apply Hsame in Ha. destruct Ha as (o & [] & _).
    + pose proof (same_timeline_sym _ _ Hsame) as Hsame'.
      destruct (same_timeline_head a b A B HA HB Hsame) as [H1 H2].
      destruct (same_timeline_head b a B A HB HA Hsame') as [H3 _].
      assert (Hstart : SleepSegment.start_dt a = SleepSegment.start_dt b) by lia.
      specialize (H2 Hstart).
      pose proof (canonical_head_end a b A B HA HB Hsame Hstart H2) as H4.
      pose proof (canonical_head_end b a B A HB HA Hsame'
                    (eq_sym Hstart) (eq_sym H2)) as H5.
      assert (a = b).
      { destruct a, b; simpl in *. f_equal; [exact Hstart | lia | exact H2]. }
      subst b. f_equal. apply IH.
      * eapply canonical_tail; eauto.
      * eapply canonical_tail; eauto.
      * eapply same_timeline_tail; eauto.
Qed.

(** ** Priorities tell the stages of kept segments apart *)

Lemma priority_injective (s s' : segment) :
  stage_ok s -> stage_ok s' ->
  SleepSession.kept s = true -> SleepSession.kept s' = true ->
  SleepSession.priority s = SleepSession.priority s' ->
  SleepSegment.stage s = SleepSegment.stage s'.
Proof.
  intros Hv Hv' Hk Hk'. apply kept_iff in Hk, Hk'.
  destruct Hk as [Hk _], Hk' as [Hk' _].
  unfold stage_ok, str_in, SLEEP_STAGES_values in Hv, Hv'.
  unfold SleepSession.priority.
  apply existsb_exists in Hv, Hv'.
  destruct Hv as (x & Hx & Ex), Hv' as (x' & Hx' & Ex').
  apply String.eqb_eq in Ex, Ex'. rewrite Ex, Ex' in *.
  simpl in Hx, Hx'.
  repeat match goal with H : _ \/ _ |- _ => destruct H as [H|H] end;
    subst; try contradiction; try reflexivity; try congruence;
    simpl; intros; discriminate.
Qed.

Lemma normal_form_timeline (l l' : list segment) :
  Forall valid l -> Forall valid l' ->
  (forall s, In s l -> In s l') ->
  (forall s, In s l' -> In s l) ->
  forall t st, stage_at (normal_form l) t st -> stage_at (normal_form l') t st.
Proof.
  intros Hv Hv' H1 H2 t st (o & Ho & Ht & Hst).
  destruct (normal_form_sound l o t Ho Ht) as [(s & Hs & Hk & Hts & Hso) Hmax].
  destruct (normal_form_complete l' s t (H1 s Hs) Hk Hts) as (o' & Ho' & Ht').
  destruct (normal_form_sound l' o' t Ho' Ht')
    as [(s2 & Hs2 & Hk2 & Hts2 & Hso2) Hmax'].
  exists o'. split; [exact Ho'|]. split; [exact Ht'|].
  rewrite <- Hst, <- Hso, <- Hso2. symmetry.
  rewrite Forall_forall in Hv, Hv'.
  apply priority_injective; auto using valid_stage_ok.
  pose proof (Hmax' s (H1 s Hs) Hk Hts) as P1.
  pose proof (Hmax s2 (H2 s2 Hs2) Hk2 Hts2) as P2.
  rewrite (priority_stage o s) in P2 by congruence.
  rewrite (priority_stage o' s2) in P1 by congruence.
  lia.
Qed.

(** ** Counting and summing over the segments of a session *)

Lemma count_fold {A : Type} (l : list A) (n : Z) :
  fold_left (fun acc (_ : A) => acc + 1) l n = n + Z.of_nat (List.length l).
Proof.
  revert n. induction l as [|x l IH]; intros n; cbn [fold_left List.length].
  - lia.
  - rewrite IH. lia.
Qed.

Lemma sum_durations_nonneg (l : list segment) :
  Forall (fun s => SleepSegment.start_dt s <= SleepSegment.end_dt s) l ->
  0 <= SleepSession.sum_durations l.
Proof.
  induction 1 as [|x l Hx _ IH]; [unfold SleepSession.sum_durations; simpl; lia|].
  rewrite sum_durations_cons. unfold SleepSegment.duration. lia.
Qed.

Lemma long_awake_bound (l : list segment) :
  Forall (fun s => SleepSegment.start_dt s <= SleepSegment.end_dt s) l ->
  minutes 2
  * Z.of_nat (List.length
                (filter (fun s => String.eqb (SleepSegment.stage s) "Awake"
                                  && (minutes 2 <=? SleepSegment.duration s)) l))
  <= SleepSession.sum_durations
       (filter (fun s => String.eqb (SleepSegment.stage s) "Awake") l).
Proof.
  induction 1 as [|x l Hx _ IH]; [unfold SleepSession.sum_durations; simpl; lia|].
  cbn [filter].
  destruct (String.eqb (SleepSegment.stage x) "Awake"); cbn [andb]; [|exact IH].
  rewrite sum_durations_cons.
  destruct (Z.leb_spec (minutes 2) (SleepSegment.duration x)).
  - cbn [List.length]. lia.
  - unfold SleepSegment.duration in *. lia.
Qed.

Lemma sum_durations_touching (l : list segment) :
  forall n0,
    chain seg_follows (n0 :: l) -> Forall positive_length (n0 :: l) ->
    (SleepSession.sum_durations (n0 :: l)
     = SleepSegment.end_dt (last l n0) - SleepSegment.start_dt n0
     <-> linked touches (n0 :: l)).
Proof.
  induction l as [|y l IH]; intros n0 Hch Hpos.
  - rewrite sum_durations_cons. unfold SleepSession.sum_durations,
      SleepSegment.duration. simpl. split; [auto | intros _; lia].
  - rewrite sum_durations_cons.
    destruct Hch as [Hn0 Hch]. inversion Hn0 as [|? ? Hny _]; subst.
    inversion Hpos as [|? ? _ Hpos']; subst.
    pose proof (sum_durations_chain l y Hch Hpos') as Hle.
    specialize (IH y Hch Hpos'). rewrite last_cons_default.
    unfold seg_follows in Hny. unfold SleepSegment.duration.
    cbn [linked]. unfold touches at 1. split.
    + intros H. split; [lia|]. apply IH. lia.
    + intros [H1 H2]. apply IH in H2. lia.
Qed.

(** ** The bounds of a session are those of its kept segments *)

Lemma session_hull (g : list segment) (sess : session) :
  Forall valid g -> SleepSession.from_segments g = Ok sess ->
  (forall s, In s g -> SleepSession.kept s = true ->
             SleepSession.start_dt sess <= SleepSegment.start_dt s
             /\ SleepSegment.end_dt s <= SleepSession.end_dt sess)
  /\ (exists s, In s g /\ SleepSession.kept s = true
                /\ SleepSegment.start_dt s = SleepSession.start_dt sess)
  /\ (exists s, In s g /\ SleepSession.kept s = true
                /\ SleepSegment.end_dt s = SleepSession.end_dt sess).
Proof.
  intros Hv H.
  pose proof (from_segments_inv g sess Hv H) as (Hch & Hpos & _ & Hb & n0 & rest & Hl & Hs & He).
  rewrite from_segments_eq in H by exact Hv.
  destruct (normal_form g) as [|m0 mrest] eqn:E; [discriminate|].
  inversion H; subst sess; clear H. simpl in *. inversion Hl; subst n0 rest.
  rewrite Forall_forall in Hb, Hpos.
  assert (Hlow : forall s, In s g -> SleepSession.kept s = true ->
             SleepSegment.start_dt m0 <= SleepSegment.start_dt s
             /\ SleepSegment.end_dt s <= SleepSegment.end_dt (last mrest m0)).
  { intros s Hs' Hk. pose proof (proj1 (kept_iff s) Hk) as [_ Hps].
    destruct (normal_form_complete g s (SleepSegment.start_dt s) Hs' Hk)
      as (o & Ho & Hto); [unfold contains; lia|].
    destruct (normal_form_complete g s (SleepSegment.end_dt s - 1) Hs' Hk)
      as (o' & Ho' & Hto'); [unfold contains; lia|].
    rewrite E in Ho, Ho'. specialize (Hb o Ho) as Hbo. specialize (Hb o' Ho') as Hbo'.
    unfold contains in *. lia. }
  split; [exact Hlow|]. split.
  - assert (Hm0 : In m0 (normal_form g)) by (rewrite E; left; reflexivity).
    specialize (Hpos m0 (or_introl eq_refl)). unfold positive_length in Hpos.
    destruct (normal_form_sound g m0 (SleepSegment.start_dt m0) Hm0)
      as [(s & Hs' & Hk & Hts & _) _]; [unfold contains; lia|].
    exists s. repeat split; auto.
    destruct (Hlow s Hs' Hk). unfold contains in Hts. lia.
  - set (ml := last mrest m0) in *.
    assert (Hml : In ml (m0 :: mrest)) by apply last_in_cons.
    specialize (Hpos ml Hml). unfold positive_length in Hpos.
    assert (Hml' : In ml (normal_form g)) by (rewrite E; exact Hml).
    destruct (normal_form_sound g ml (SleepSegment.end_dt ml - 1) Hml')
      as [(s & Hs' & Hk & Hts & _) _]; [unfold contains; lia|].
    exists s. repeat split; auto.
    destruct (Hlow s Hs' Hk). unfold contains in Hts. lia.
Qed.

(** ** Sessions and the groups they come from *)

Lemma mapM_Forall2 {A B : Type} (f : A -> exc B) (l : list A) :
  forall ys, mapM f l = Ok ys -> Forall2 (fun x y => f x = Ok y) l ys.
Proof.
  induction l as [|x l IH]; intros ys H; simpl in H.
  - inversion H. constructor.
  - destruct (f x) as [y|] eqn:E; simpl in H; [|discriminate].
    destruct (mapM f l) as [ys'|]; simpl in H; [|discriminate].
    inversion H; subst. constructor; auto.
Qed.

Lemma linked_Forall2 {A B : Type} (P : A -> B -> Prop) (R : A -> A -> Prop)
      (R' : B -> B -> Prop) (xs : list A) :
  forall ys,
    Forall2 P xs ys -> linked R xs ->
    (forall x x' y y',
        In x xs -> In x' xs -> P x y -> P x' y' -> R x x' -> R' y y') ->
    linked R' ys.
Proof.
  induction xs as [|x xs IH]; intros ys HF Hl Himp; inversion HF; subst;
    [exact I|].
  destruct Hl as [Hx Hl]. cbn [linked]. split.
  - match goal with H : Forall2 P xs ?l' |- _ => inversion H; subst end;
      [exact I|].
    eapply (Himp x); eauto; simpl; auto.
  - apply IH; auto. intros. eapply Himp; eauto; simpl; auto.
Qed.

Lemma Forall2_In_l {A B : Type} (P : A -> B -> Prop) (xs : list A) (ys : list B)
      (x : A) :
  Forall2 P xs ys -> In x xs -> exists y, In y ys /\ P x y.
Proof.
  induction 1 as [|x0 y0 xs ys H0 _ IH]; [contradiction|].
  intros [<-|Hx]; [exists y0; simpl; auto|].
  destruct (IH Hx) as (y & Hy & HP). exists y. simpl; auto.
Qed.

Lemma Forall2_In_r {A B : Type} (P : A -> B -> Prop) (xs : list A) (ys : list B)
      (y : B) :
  Forall2 P xs ys -> In y ys -> exists x, In x xs /\ P x y.
Proof.
  induction 1 as [|x0 y0 xs ys H0 _ IH]; [contradiction|].
  intros [<-|Hy]; [exists x0; simpl; auto|].
  destruct (IH Hy) as (x & Hx & HP). exists x. simpl; auto.
Qed.

(** The sessions of the grouper, one for each group of the kept segments. *)
Lemma build_sleep_sessions_groups (segs : list segment) (gap : timedelta) :
  Forall valid segs ->
  exists l,
    build_sleep_sessions segs gap = Ok l
    /\ Forall2 (fun g sess => SleepSession.from_segments g = Ok sess)
         (gap_groups gap [] (filter SleepSession.kept segs)) l.
Proof.
  intros Hv. destruct (build_sleep_sessions_ok segs gap Hv) as (l & Hl & _).
  exists l. split; [exact Hl|].
  rewrite build_sleep_sessions_eq in Hl. apply mapM_Forall2, Hl.
Qed.

Lemma group_valid (gap : timedelta) (segs g : list segment) :
  Forall valid segs ->
  In g (gap_groups gap [] (filter SleepSession.kept segs)) ->
  Forall valid g /\ Forall (fun s => In s segs /\ SleepSession.kept s = true) g.
Proof.
  intros Hv Hg.
  pose proof (grouping_members gap segs _ (gap_groups_grouping gap _)) as Hm.
  rewrite Forall_forall in Hm. destruct (Hm g Hg) as [_ Hmem].
  split; [|exact Hmem].
  eapply Forall_impl; [|exact Hmem]. simpl. intros s [Hs _].
  rewrite Forall_forall in Hv. apply Hv, Hs.
Qed.

Lemma gap_groups_length (gap : timedelta) (segs : list segment) :
  forall current x,
    List.length (gap_groups gap (current ++ [x]) segs)
    = S (count_splits gap (x :: segs)).
Proof.
  induction segs as [|seg rest IH]; intros current x.
  - destruct current; reflexivity.
  - assert (Hstep : gap_groups gap (current ++ [x]) (seg :: rest)
              = if gap <? SleepSegment.start_dt seg - SleepSegment.end_dt x
                then (current ++ [x]) :: gap_groups gap [seg] rest
                else gap_groups gap ((current ++ [x]) ++ [seg]) rest).
    { cbn [gap_groups]. destruct (current ++ [x]) as [|c0 cs] eqn:E.
      - destruct current; discriminate.
      - replace (last cs c0) with x; [reflexivity|].
        rewrite <- (last_cons_default cs c0 x), <- E. symmetry. apply last_last. }
    rewrite Hstep. cbn [count_splits].
    destruct (gap <? SleepSegment.start_dt seg - SleepSegment.end_dt x).
    + cbn [List.length]. f_equal. exact (IH [] seg).
    + apply IH.
Qed.

Lemma from_segments_segments (g : list segment) (sess : session) :
  Forall valid g -> SleepSession.from_segments g = Ok sess ->
  SleepSession.segments sess = normal_form g.
Proof.
  intros Hv H. rewrite (from_segments_eq g Hv) in H.
  destruct (normal_form g) as [|n0 rest] eqn:E; [discriminate|].
  inversion H; subst. reflexivity.
Qed.

(** ** The normalizer cuts at the boundaries of its input *)

Lemma merged_from_bounds (rest : list segment) :
  forall prev o,
    In o (merged_from prev rest) ->
    (exists x, In x (prev :: rest)
               /\ SleepSegment.start_dt o = SleepSegment.start_dt x)
    /\ (exists y, In y (prev :: rest)
                  /\ SleepSegment.end_dt o = SleepSegment.end_dt y).
Proof.
  induction rest as [|seg r IH]; intros prev o; simpl.
  - intros [<-|[]]. split; exists prev; auto.
  - destruct (String.eqb (SleepSegment.stage seg) (SleepSegment.stage prev)
              && (SleepSegment.start_dt seg =? SleepSegment.end_dt prev)).
    + intros Ho. destruct (IH _ _ Ho) as [(x & Hx & Ex) (y & Hy & Ey)]. split.
      * destruct Hx as [<-|Hx]; [exists prev | exists x]; simpl in *; auto.
      * destruct Hy as [<-|Hy]; [exists seg | exists y]; simpl in *; auto.
    + intros [<-|Ho]; [split; exists prev; auto|].
      destruct (IH _ _ Ho) as [(x & Hx & Ex) (y & Hy & Ey)].
      split; [exists x | exists y]; auto.
Qed.

Lemma boundaries_of_inv (segs : list segment) (b : datetime) :
  In b (SleepSession.boundaries_of segs) ->
  exists s, In s segs
            /\ (b = SleepSegment.start_dt s \/ b = SleepSegment.end_dt s).
Proof.
  unfold SleepSession.boundaries_of. rewrite sorted_set_In, in_flat_map.
  intros (s & Hs & Hb). exists s. split; [exact Hs|].
  simpl in Hb. destruct Hb as [<-|[<-|[]]]; auto.
Qed.

(** * Further properties of parser.py *)

(** ** Records and their mappings *)

Lemma dt_lt_irrefl (d : pydatetime) : dt_lt d d = Ok false.
Proof. destruct d; simpl; rewrite Z.ltb_irrefl; reflexivity. Qed.

Lemma first_of_none (a b c : option pydatetime) :
  HealthRecord.first_of a b c = None <-> a = None /\ b = None /\ c = None.
Proof.
  destruct a, b, c; simpl; split; intros H; try discriminate; auto;
    destruct H as (? & ? & ?); discriminate.
Qed.

Lemma derive_time_window_ordered {lib : DatetimeLibrary} (attrs : pydict)
      (w : option pydatetime * option pydatetime) :
  HealthRecord._derive_time_window attrs = Ok w ->
  match w with
  | (None, None) => True
  | (Some sd, Some ed) => dt_lt ed sd = Ok false
  | _ => False
  end.
Proof.
  unfold HealthRecord._derive_time_window.
  destruct (to_datetime (arg_of (dict_find attrs "startDate"))) as [s|];
    simpl; [|discriminate].
  destruct (to_datetime (arg_of (dict_find attrs "creationDate"))) as [c|];
    simpl; [|discriminate].
  destruct (to_datetime (arg_of (dict_find attrs "endDate"))) as [e|];
    simpl; [|discriminate].
  destruct (HealthRecord.first_of s c e) as [sd|] eqn:Es;
    destruct (HealthRecord.first_of e s c) as [ed|] eqn:Ee.
  - destruct (dt_lt ed sd) as [[]|] eqn:El; simpl; intros H; inversion H.
    + apply dt_lt_irrefl.
    + exact El.
  - apply first_of_none in Ee. destruct Ee as (-> & -> & ->). discriminate.
  - apply first_of_none in Es. destruct Es as (-> & -> & ->). discriminate.
  - intros H. inversion H. exact I.
Qed.

(** ** What the reader yields *)

Lemma in_set_true (v : value) (allowed : list string) :
  in_set v allowed = Ok true -> exists s, In s allowed /\ v = VStr s.
Proof.
  destruct v as [s|items]; simpl; [|discriminate].
  intros H. inversion H as [He]. apply existsb_exists in He.
  destruct He as (x & Hx & Hs). apply String.eqb_eq in Hs. subst x.
  exists s. auto.
Qed.

Lemma is_any_of_types_true (r : HealthRecord.t) (ts : list string) :
  HealthRecord.is_any_of_types r (Some ts) = Ok true -> matches_types r ts.
Proof.
  unfold HealthRecord.is_any_of_types.
  destruct (in_set (HealthRecord.record_type r) ts) as [[]|] eqn:E; simpl;
    try discriminate.
  - intros _. destruct (in_set_true _ _ E) as (s & Hs & Hv).
    exists s. auto.
  - intros H. destruct (in_set_true _ _ H) as (s & Hs & Hv).
    exists s. auto.
Qed.

Lemma intersects_time_window_true (r : HealthRecord.t)
      (ws we : option pydatetime) :
  HealthRecord.intersects_time_window r ws we = Ok true ->
  (ws = None /\ we = None) \/ inside_window r ws we.
Proof.
  unfold HealthRecord.intersects_time_window, inside_window.
  destruct ws as [w1|], we as [w2|]; auto;
    destruct (HealthRecord.start_dt r) as [sd|],
             (HealthRecord.end_dt r) as [ed|]; try discriminate;
    intros H; right; exists sd, ed; repeat split; try reflexivity;
    try (intros w Hw; discriminate).
  - intros w Hw. inversion Hw; subst w.
    destruct (dt_lt ed w1) as [[]|]; simpl in H; try discriminate. reflexivity.
  - intros w Hw. inversion Hw; subst w.
    destruct (dt_lt ed w1) as [[]|]; simpl in H; try discriminate.
    destruct (dt_lt w2 sd) as [[]|]; simpl in H; try discriminate. reflexivity.
  - intros w Hw. inversion Hw; subst w.
    destruct (dt_lt ed w1) as [[]|]; simpl in H; try discriminate. reflexivity.
  - intros w Hw. inversion Hw; subst w. simpl in H.
    destruct (dt_lt w2 sd) as [[]|]; simpl in H; try discriminate. reflexivity.
Qed.

Lemma process_passes_filters {lib : DatetimeLibrary}
      (types_set : option (list string)) (start_dt end_dt : option pydatetime)
      (elem : element) (r : HealthRecord.t) :
  process types_set start_dt end_dt elem = Ok (Some r) ->
  HealthRecord.is_any_of_types r types_set = Ok true
  /\ HealthRecord.intersects_time_window r start_dt end_dt = Ok true.
Proof.
  unfold process, full_filter.
  destruct (type_prefilter types_set elem); [discriminate|].
  destruct (time_prefilter start_dt end_dt elem) as [[]|]; simpl;
    try discriminate.
  destruct (HealthRecord.from_element elem) as [record|]; simpl;
    [|discriminate].
  destruct (HealthRecord.is_any_of_types record types_set) as [[]|] eqn:Ea;
    simpl; try discriminate.
  destruct (HealthRecord.intersects_time_window record start_dt end_dt)
    as [[]|] eqn:Eb; simpl; try discriminate.
  intros H. inversion H; subst r. auto.
Qed.

Lemma generate_all {A B : Type} (f : A -> exc B) (body : A -> exc (option B))
      (l : list A) :
  (forall x, body x = (y <- f x ;; Ok (Some y))) ->
  forall ys, mapM f l = Ok ys -> generate body l = Generated ys None.
Proof.
  intros Hb. induction l as [|x l IH]; intros ys H; simpl in *.
  - inversion H. reflexivity.
  - rewrite Hb. destruct (f x) as [y|]; simpl in *; [|discriminate].
    destruct (mapM f l) as [ys'|]; simpl in H; [|discriminate].
    inversion H; subst ys. rewrite (IH ys' eq_refl). reflexivity.
Qed.

Lemma process_unfiltered {lib : DatetimeLibrary} (elem : element) :
  process None None None elem
  = (r <- HealthRecord.from_element elem ;; Ok (Some r)).
Proof.
  unfold process, full_filter, type_prefilter, time_prefilter. simpl.
  destruct (HealthRecord.from_element elem); reflexivity.
Qed.

(** ** Metadata entries *)

Lemma dict_of_items_app {V : Type} (l1 l2 : list (string * V)) :
  dict_of_items (l1 ++ l2)
  = fold_left (fun d kv => dict_set d (fst kv) (snd kv)) l2 (dict_of_items l1).
Proof. unfold dict_of_items. apply fold_left_app. Qed.

Lemma dict_find_fold_set {V : Type} (l : list (string * V)) (k : string) :
  forall d,
    dict_find (fold_left (fun d kv => dict_set d (fst kv) (snd kv)) l d) k
    = match dict_find (rev l) k with
      | Some v => Some v
      | None => dict_find d k
      end.
Proof.
  induction l as [|[k0 v0] l IH]; intros d; [reflexivity|].
  cbn [fold_left fst snd rev]. rewrite IH.
  assert (Happ : forall (l1 : list (string * V)),
             dict_find (l1 ++ [(k0, v0)]) k
             = match dict_find l1 k with
               | Some v => Some v
               | None => if String.eqb k0 k then Some v0 else None
               end).
  { induction l1 as [|[k1 v1] l1 IH1]; simpl; [reflexivity|].
    destruct (String.eqb k1 k); [reflexivity | apply IH1]. }
  rewrite Happ. destruct (dict_find (rev l) k); [reflexivity|].
  destruct (String.eqb_spec k0 k) as [->|Hne].
  - apply dict_find_set_same.
  - apply dict_find_set_other, Hne.
Qed.

Lemma dict_find_of_items {V : Type} (l : list (string * V)) (k : string) :
  dict_find (dict_of_items l) k = dict_find (rev l) k.
Proof.
  unfold dict_of_items. rewrite dict_find_fold_set.
  destruct (dict_find (rev l) k); reflexivity.
Qed.

Lemma dict_find_map_str (l : list (string * string)) (k : string) :
  dict_find (map str_item l) k = option_map VStr (dict_find l k).
Proof.
  induction l as [|[k0 v0] l IH]; simpl; [reflexivity|].
  destruct (String.eqb k0 k); [reflexivity | exact IH].
Qed.

(** ** White space around a date *)

Lemma lstrip_blank_prefix (p x : list ascii) :
  Forall (fun c => isspace c = true) p ->
  lstrip_chars (p ++ x) = lstrip_chars x.
Proof.
  induction 1 as [|c p Hc _ IH]; [reflexivity|]. simpl. rewrite Hc. exact IH.
Qed.

Lemma lstrip_app (x y : list ascii) :
  lstrip_chars x <> [] -> lstrip_chars (x ++ y) = lstrip_chars x ++ y.
Proof.
  induction x as [|c x IH]; simpl; [congruence|].
  destruct (isspace c); [exact IH | reflexivity].
Qed.

Lemma lstrip_empty (x : list ascii) :
  lstrip_chars x = [] -> Forall (fun c => isspace c = true) x.
Proof.
  induction x as [|c x IH]; simpl; [constructor|].
  destruct (isspace c) eqn:E; [|discriminate]. intros H. constructor; auto.
Qed.

Lemma strip_chars_prefix (p x : list ascii) :
  Forall (fun c => isspace c = true) p ->
  strip_chars (p ++ x) = strip_chars x.
Proof. intros H. unfold strip_chars. rewrite lstrip_blank_prefix; auto. Qed.

Lemma strip_chars_suffix (x q : list ascii) :
  Forall (fun c => isspace c = true) q ->
  strip_chars (x ++ q) = strip_chars x.
Proof.
  intros Hq. unfold strip_chars.
  destruct (lstrip_chars x) as [|c r] eqn:E.
  - apply lstrip_empty in E.
    rewrite (lstrip_blank_prefix x q E).
    rewrite <- (app_nil_r q), (lstrip_blank_prefix q [] Hq). reflexivity.
  - rewrite lstrip_app by congruence. rewrite E, rev_app_distr.
    rewrite lstrip_blank_prefix; [reflexivity|].
    apply Forall_rev, Hq.
Qed.

Lemma list_ascii_of_string_app (a b : string) :
  list_ascii_of_string (a ++ b)
  = (list_ascii_of_string a ++ list_ascii_of_string b)%list.
Proof. induction a as [|c a IH]; simpl; [reflexivity | rewrite IH; reflexivity]. Qed.

Lemma strip_padded (pre v post : string) :
  blank pre -> blank post -> strip (pre ++ v ++ post) = strip v.
Proof.
  intros Hpre Hpost. unfold strip.
  fold (strip_chars (list_ascii_of_string (pre ++ v ++ post))).
  fold (strip_chars (list_ascii_of_string v)).
  rewrite !list_ascii_of_string_app.
  rewrite strip_chars_prefix by exact Hpre.
  rewrite strip_chars_suffix by exact Hpost. reflexivity.
Qed.

Lemma strip_blank (s : string) : blank s -> strip s = ""%string.
Proof.
  intros H. unfold strip.
  rewrite <- (app_nil_r (list_ascii_of_string s)).
  rewrite (lstrip_blank_prefix _ [] H). reflexivity.
Qed.

(** ** The exceptions of the reader

    The exceptions the code raises by its own logic, on a document that was
    opened and parsed. *)

Lemma generate_raised {A B : Type} (body : A -> exc (option B)) (l : list A)
      (e : exn) :
  raised (generate body l) = Some e -> exists x, In x l /\ body x = Raise e.
Proof.
  induction l as [|x l IH]; simpl; [discriminate|].
  destruct (body x) as [[y|]|e'] eqn:E; simpl.
  - intros H. destruct (IH H) as (x' & Hx' & Hb). exists x'. auto.
  - intros H. destruct (IH H) as (x' & Hx' & Hb). exists x'. auto.
  - intros H. inversion H; subst. exists x. auto.
Qed.

Lemma dt_lt_raises (a b : pydatetime) (e : exn) :
  dt_lt a b = Raise e -> e = TypeError.
Proof. destruct a, b; simpl; congruence. Qed.









(** ** sleep.py: the segments of a document *)

Lemma Ok_inj {A : Type} (a b : A) : Ok a = Ok b -> a = b.
Proof. intros H. inversion H. reflexivity. Qed.

Lemma stage_of_enumerated (v : option value) (st : string) :
  stage_of v = Ok st -> str_in st SLEEP_STAGES_values = true.
Proof.
  assert (H : forall k,
             str_in (stages_get SLEEP_STAGES k "Unspecified") SLEEP_STAGES_values
             = true).
  { intros k. unfold SLEEP_STAGES. cbn [stages_get].
    repeat match goal with
           | |- context [if ?b then _ else _] => destruct b
           end; reflexivity. }
  destruct v as [[s|items]|]; unfold stage_of; intros E;
    [apply Ok_inj in E | discriminate | apply Ok_inj in E];
    rewrite <- E; apply H.
Qed.

Lemma dt_lt_instant (a b : pydatetime) :
  dt_lt a b = Ok true -> instant a < instant b.
Proof.
  destruct a, b; simpl; intros H; inversion H as [E]; apply Z.ltb_lt, E.
Qed.

Lemma segment_of_record_ok (rec : HealthRecord.t) (s : segment) :
  segment_of_record rec = Ok (Some s) ->
  valid s /\ positive_length s
  /\ exists sd ed,
      HealthRecord.start_dt rec = Some sd /\ HealthRecord.end_dt rec = Some ed
      /\ SleepSegment.start_dt s = instant sd
      /\ SleepSegment.end_dt s = instant ed
      /\ stage_of (dict_find (HealthRecord.attributes rec) "value")
         = Ok (SleepSegment.stage s).
Proof.
  unfold segment_of_record.
  destruct (HealthRecord.start_dt rec) as [sd|]; [|discriminate].
  destruct (HealthRecord.end_dt rec) as [ed|]; [|discriminate].
  destruct (dt_lt sd ed) as [[]|] eqn:El; cbn [bind]; try discriminate.
  apply dt_lt_instant in El.
  destruct (stage_of _) as [st|] eqn:Est; cbn [bind]; [|discriminate].
  rewrite (new_ok (instant sd) (instant ed) st)
    by (try lia; eapply stage_of_enumerated; eauto).
  cbn [bind]. intros H. inversion H; subst s. repeat split.
  - apply valid_iff. simpl. split; [lia | eapply stage_of_enumerated; eauto].
  - exact El.
  - exists sd, ed. auto.
Qed.

Lemma segment_of_record_raises (rec : HealthRecord.t) (e : exn) :
  segment_of_record rec = Raise e -> e = TypeError.
Proof.
  unfold segment_of_record.
  destruct (HealthRecord.start_dt rec) as [sd|]; [|discriminate].
  destruct (HealthRecord.end_dt rec) as [ed|]; [|discriminate].
  destruct (dt_lt sd ed) as [[]|x] eqn:El; cbn [bind]; try discriminate.
  - apply dt_lt_instant in El.
    destruct (stage_of _) as [st|x] eqn:Est; cbn [bind].
    + rewrite (new_ok (instant sd) (instant ed) st)
        by (try lia; eapply stage_of_enumerated; eauto).
      discriminate.
    + intros H. inversion H; subst.
      destruct (dict_find _ _) as [[|]|]; unfold stage_of in Est; congruence.
  - intros H. inversion H; subst. eapply dt_lt_raises, El.
Qed.

(** The segments of [sleep_document]: the record without length is left
    out, an unknown value reads as [Unspecified], and records of other types
    are not sleep segments. *)
Lemma sleep_document_segments :
  @iter_sleep_segments reference_library sleep_document ArgNone ArgNone
  = Generated
      [SleepSegment.Build (wall_of 2024 1 20 23 0 0) (wall_of 2024 1 21 1 0 0)
         "Core";
       SleepSegment.Build (wall_of 2024 1 21 1 0 0) (wall_of 2024 1 21 2 0 0)
         "Unspecified"]
      None.
Proof. vm_compute. reflexivity. Qed.

(** ** Attributes and children of one name *)

Lemma dict_find_rev_some {V : Type} (l : list (string * V)) (k : string) (v : V) :
  dict_find l k = Some v -> exists v', dict_find (rev l) k = Some v'.
Proof.
  induction l as [|[k0 v0] l IH]; simpl; [discriminate|].
  assert (Happ : forall (l1 : list (string * V)),
             dict_find (l1 ++ [(k0, v0)]) k
             = match dict_find l1 k with
               | Some x => Some x
               | None => if String.eqb k0 k then Some v0 else None
               end).
  { induction l1 as [|[k1 v1] l1 IH1]; simpl; [reflexivity|].
    destruct (String.eqb k1 k); [reflexivity | apply IH1]. }
  rewrite Happ. destruct (String.eqb k0 k).
  - intros _. destruct (dict_find (rev l) k); eauto.
  - intros H. destruct (IH H) as [v' ->]. eauto.
Qed.

(** ** Nested children *)

Lemma parse_attributes_loop (tag : string) (attrib : list (string * string))
      (children : list element) :
  HealthRecord._parse_attributes (Element tag attrib children)
  = parse_children (dict_of_items (map str_item attrib)) children.
Proof. reflexivity. Qed.

Lemma parse_children_groups (t : string) (cs : list element) :
  forall (acc result : pydict) (base : list pydict),
    parse_children acc cs = Ok result ->
    dict_find (metadata_items cs) t = None ->
    (dict_find acc t = None /\ base = []
     \/ dict_find acc t = Some (VList base)) ->
    exists items,
      Forall2 (fun c n => nested_dict c = Ok n) (children_named t cs) items
      /\ dict_find result t
         = match items with
           | [] => dict_find acc t
           | _ :: _ => Some (VList (base ++ items))
           end.
Proof.
  induction cs as [|c cs IH]; intros acc result base Hres Hmd Hacc.
  - simpl in Hres. inversion Hres; subst result. exists []. split; [constructor|].
    reflexivity.
  - cbn [parse_children] in Hres. unfold children_named. cbn [filter].
    fold (children_named t cs).
    unfold metadata_items in Hmd. cbn [flat_map] in Hmd.
    fold (metadata_items cs) in Hmd.
    destruct (String.eqb (Elem.tag c) "MetadataEntry") eqn:Em; cbn [negb andb].
    + destruct (Elem.get c "key") as [key|];
        [|eapply IH; eauto].
      destruct (Elem.get c "value") as [value|];
        [|eapply IH; eauto].
      destruct (String.eqb key "") eqn:Ek; cbn [negb] in *;
        [eapply IH; eauto|].
      cbn [app dict_find] in Hmd.
      destruct (String.eqb_spec key t) as [->|Hne]; [discriminate|].
      rewrite <- (dict_find_set_other acc key t (VStr value) Hne).
      eapply IH; [exact Hres | exact Hmd|].
      rewrite dict_find_set_other by exact Hne. exact Hacc.
    + assert (Hmd' : dict_find (metadata_items cs) t = None) by exact Hmd.
      clear Hmd.
      destruct (HealthRecord._parse_attributes c) as [nested|] eqn:En;
        cbn [bind] in Hres; [|discriminate].
      set (n' := dict_setdefault nested "_tag" (VStr (Elem.tag c))) in *.
      assert (Hn : nested_dict c = Ok n')
        by (unfold nested_dict; rewrite En; reflexivity).
      destruct (String.eqb_spec (Elem.tag c) t) as [Ht|Ht].
      * rewrite Ht in Hres.
        assert (Hstep : parse_children (dict_set acc t (VList (base ++ [n']))) cs
                        = Ok result).
        { destruct Hacc as [[Hnone ->]|Hsome].
          - rewrite Hnone in Hres. exact Hres.
          - rewrite Hsome in Hres. exact Hres. }
        destruct (IH _ _ (base ++ [n']) Hstep Hmd') as (items & HF & Hr).
        { right. apply dict_find_set_same. }
        exists (n' :: items). split; [constructor; assumption|].
        rewrite Hr, dict_find_set_same, <- app_assoc.
        destruct items; reflexivity.
      * assert (Hstep : forall v,
                   parse_children (dict_set acc (Elem.tag c) v) cs = Ok result ->
                   exists items,
                     Forall2 (fun c n => nested_dict c = Ok n)
                             (children_named t cs) items
                     /\ dict_find result t
                        = match items with
                          | [] => dict_find acc t
                          | _ :: _ => Some (VList (base ++ items))
                          end).
        { intros v Hv.
          rewrite <- (dict_find_set_other acc (Elem.tag c) t v Ht).
          eapply IH; [exact Hv | exact Hmd'|].
          rewrite dict_find_set_other by exact Ht. exact Hacc. }
        destruct (dict_find acc (Elem.tag c)) as [[s|items0]|];
          [discriminate | eapply Hstep; exact Hres | eapply Hstep; exact Hres].
Qed.

(** ** The order of the records *)

Lemma subsequence_nil {A : Type} (l : list A) : subsequence [] l.
Proof. induction l as [|z l IH]; simpl; auto. Qed.

Lemma generate_subsequence {A B : Type} (body : A -> exc (option B))
      (l : list A) :
  exists xs,
    subsequence xs l
    /\ Forall2 (fun x y => body x = Ok (Some y)) xs (yielded (generate body l)).
Proof.
  induction l as [|x l (xs & Hs & HF)]; simpl.
  - exists []. split; [reflexivity | constructor].
  - destruct (body x) as [[y|]|e] eqn:E; simpl.
    + exists (x :: xs). split; [right; auto | constructor; assumption].
    + exists xs. split; [left; exact Hs | exact HF].
    + exists []. split; [left; apply subsequence_nil | constructor].
Qed.

(** ** The pre-filters only remove *)

Lemma process_full_filter {lib : DatetimeLibrary}
      (types_set : option (list string)) (start_dt end_dt : option pydatetime)
      (elem : element) (r : HealthRecord.t) :
  process types_set start_dt end_dt elem = Ok (Some r) ->
  full_filter types_set start_dt end_dt elem = Ok (Some r).
Proof.
  unfold process.
  destruct (type_prefilter types_set elem); [discriminate|].
  destruct (time_prefilter start_dt end_dt elem) as [[]|]; cbn [bind];
    try discriminate.
  intros H. exact H.
Qed.

Lemma generate_fewer {A B : Type} (f g : A -> exc (option B)) (l : list A) :
  (forall x y, f x = Ok (Some y) -> g x = Ok (Some y)) ->
  raised (generate g l) = None ->
  subsequence (yielded (generate f l)) (yielded (generate g l)).
Proof.
  intros Hfg. induction l as [|x l IH]; simpl; [reflexivity|].
  destruct (g x) as [[y|]|e] eqn:Eg; simpl.
  - intros Hr. specialize (IH Hr).
    destruct (f x) as [[y'|]|e'] eqn:Ef; simpl.
    + right. apply Hfg in Ef. rewrite Eg in Ef. inversion Ef. auto.
    + left. exact IH.
    + left. apply subsequence_nil.
  - intros Hr. specialize (IH Hr).
    destruct (f x) as [[y'|]|e'] eqn:Ef; simpl.
    + apply Hfg in Ef. rewrite Eg in Ef. discriminate.
    + exact IH.
    + apply subsequence_nil.
  - discriminate.
Qed.

(** * Further results *)

(** X1.  [_normalize] is idempotent: on constructed segments it returns a
    list, and normalizing that list returns it unchanged. *)
Theorem normalize_twice (segs : list segment) :
  Forall valid segs ->
  exists out,
    SleepSession._normalize segs = Ok out
    /\ SleepSession._normalize out = Ok out.
Proof.
  intros Hv. exists (normal_form segs).
  split; [apply normalize_eq, Hv|].
  rewrite normalize_eq by (apply normal_form_valid, Hv). f_equal.
  destruct (normal_form_canonical segs) as (Hch & _ & Hl).
  apply normal_form_fixpoint; auto using normal_form_kept.
Qed.

Lemma normalize_twice_witness :
  exists out,
    SleepSession._normalize night_example = Ok out
    /\ SleepSession._normalize out = Ok out.
Proof. exact (normalize_twice night_example night_example_valid). Defined.

(** X2.  The result of [_normalize] depends on the set of the input segments
    only: two lists of constructed segments with the same members, in
    whatever order and however often repeated, normalize to the same list. *)
Theorem normalize_depends_on_members (l l' : list segment) :
  Forall valid l -> Forall valid l' ->
  (forall s, In s l <-> In s l') ->
  SleepSession._normalize l = SleepSession._normalize l'.
Proof.
  intros Hv Hv' Hmem.
  rewrite !normalize_eq by assumption. f_equal.
  apply canonical_unique; auto using normal_form_canonical.
  intros t st. split; apply normal_form_timeline; auto; intros s; apply Hmem.
Qed.

Lemma normalize_depends_on_members_witness :
  SleepSession._normalize night_example
  = SleepSession._normalize (rev night_example ++ night_example).
Proof.
  apply normalize_depends_on_members.
  - exact night_example_valid.
  - repeat constructor.
  - intros s. unfold night_example. simpl. tauto.
Defined.

(** X3.  In every session built from constructed segments each counted
    awakening is an Awake segment of at least two minutes: the count is not
    negative, two minutes times the count is at most the awake duration, and
    the awake duration is at most the duration of the session. *)
Theorem awakenings_bounded (segs : list segment) (sess : session) :
  Forall valid segs ->
  SleepSession.from_segments segs = Ok sess ->
  0 <= SleepSession.awakenings sess
  /\ minutes 2 * SleepSession.awakenings sess <= SleepSession.awake_duration sess
  /\ SleepSession.awake_duration sess <= SleepSession.duration sess.
Proof.
  intros Hv H. pose proof (from_segments_inv segs sess Hv H) as Hinv.
  pose proof (session_invariant_durations sess Hinv) as Hd.
  destruct Hinv as (_ & Hpos & _).
  assert (Hnn : Forall (fun s => SleepSegment.start_dt s <= SleepSegment.end_dt s)
                  (SleepSession.segments sess)).
  { eapply Forall_impl; [|exact Hpos]. unfold positive_length. intros; lia. }
  unfold SleepSession.awakenings. rewrite count_fold, Z.add_0_l.
  pose proof (long_awake_bound _ Hnn) as Hb.
  assert (Ha : 0 <= SleepSession.asleep_duration sess).
  { apply sum_durations_nonneg. rewrite Forall_forall in *.
    intros s Hs. apply filter_In in Hs. apply Hnn, Hs. }
  split; [lia|]. split; [exact Hb|lia].
Qed.

Lemma awakenings_bounded_witness :
  0 <= SleepSession.awakenings
         (SleepSession.Build (hours 0) (hours 2)
            [SleepSegment.Build (hours 0) (minutes 30) "Core";
             SleepSegment.Build (minutes 30) (minutes 90) "Awake";
             SleepSegment.Build (minutes 90) (hours 2) "Core"])
  /\ minutes 2
     * SleepSession.awakenings
         (SleepSession.Build (hours 0) (hours 2)
            [SleepSegment.Build (hours 0) (minutes 30) "Core";
             SleepSegment.Build (minutes 30) (minutes 90) "Awake";
             SleepSegment.Build (minutes 90) (hours 2) "Core"])
     <= SleepSession.awake_duration
          (SleepSession.Build (hours 0) (hours 2)
             [SleepSegment.Build (hours 0) (minutes 30) "Core";
              SleepSegment.Build (minutes 30) (minutes 90) "Awake";
              SleepSegment.Build (minutes 90) (hours 2) "Core"])
  /\ SleepSession.awake_duration
       (SleepSession.Build (hours 0) (hours 2)
          [SleepSegment.Build (hours 0) (minutes 30) "Core";
           SleepSegment.Build (minutes 30) (minutes 90) "Awake";
           SleepSegment.Build (minutes 90) (hours 2) "Core"])
     <= SleepSession.duration
          (SleepSession.Build (hours 0) (hours 2)
             [SleepSegment.Build (hours 0) (minutes 30) "Core";
              SleepSegment.Build (minutes 30) (minutes 90) "Awake";
              SleepSegment.Build (minutes 90) (hours 2) "Core"]).
Proof.
  apply (awakenings_bounded
           [SleepSegment.Build (hours 0) (hours 2) "Core";
            SleepSegment.Build (minutes 30) (minutes 90) "Awake"]).
  - repeat constructor.
  - vm_compute. reflexivity.
Defined.

(** X4.  In a session built from constructed segments the asleep and awake
    durations add up to the duration of the session exactly when every
    segment starts at the instant the one before it ends. *)
Theorem durations_exact_iff_contiguous (segs : list segment) (sess : session) :
  Forall valid segs ->
  SleepSession.from_segments segs = Ok sess ->
  (SleepSession.asleep_duration sess + SleepSession.awake_duration sess
   = SleepSession.duration sess
   <-> linked touches (SleepSession.segments sess)).
Proof.
  intros Hv H.
  pose proof (from_segments_inv segs sess Hv H)
    as (Hch & Hpos & _ & _ & n0 & rest & Hl & Hs & He).
  unfold SleepSession.asleep_duration, SleepSession.awake_duration,
    SleepSession.duration.
  rewrite sum_durations_split, Hs, He, Hl.
  rewrite Hl in Hch, Hpos. apply sum_durations_touching; assumption.
Qed.

Lemma durations_exact_iff_contiguous_witness :
  SleepSession.asleep_duration
    (SleepSession.Build (hours 0) (hours 3)
       [SleepSegment.Build (hours 0) (hours 1) "Core";
        SleepSegment.Build (hours 2) (hours 3) "REM"])
  + SleepSession.awake_duration
      (SleepSession.Build (hours 0) (hours 3)
         [SleepSegment.Build (hours 0) (hours 1) "Core";
          SleepSegment.Build (hours 2) (hours 3) "REM"])
  = SleepSession.duration
      (SleepSession.Build (hours 0) (hours 3)
         [SleepSegment.Build (hours 0) (hours 1) "Core";
          SleepSegment.Build (hours 2) (hours 3) "REM"])
  <-> linked touches
        (SleepSession.segments
           (SleepSession.Build (hours 0) (hours 3)
              [SleepSegment.Build (hours 0) (hours 1) "Core";
               SleepSegment.Build (hours 2) (hours 3) "REM"])).
Proof.
  apply (durations_exact_iff_contiguous
           [SleepSegment.Build (hours 0) (hours 1) "Core";
            SleepSegment.Build (hours 2) (hours 3) "REM"]).
  - repeat constructor.
  - vm_compute. reflexivity.
Defined.

(** X5.  A session built from constructed segments starts at the earliest
    start and ends at the latest end of the segments that pass the filter
    (not [InBed], positive duration). *)
Theorem session_spans_kept_segments (segs : list segment) (sess : session) :
  Forall valid segs ->
  SleepSession.from_segments segs = Ok sess ->
  (forall s, In s segs -> SleepSession.kept s = true ->
             SleepSession.start_dt sess <= SleepSegment.start_dt s
             /\ SleepSegment.end_dt s <= SleepSession.end_dt sess)
  /\ (exists s, In s segs /\ SleepSession.kept s = true
                /\ SleepSegment.start_dt s = SleepSession.start_dt sess)
  /\ (exists s, In s segs /\ SleepSession.kept s = true
                /\ SleepSegment.end_dt s = SleepSession.end_dt sess).
Proof. apply session_hull. Qed.

Lemma session_spans_kept_segments_witness :
  (forall s, In s night_example -> SleepSession.kept s = true ->
             SleepSession.start_dt
               (SleepSession.Build (hours 0) (hours 7)
                  [SleepSegment.Build (hours 0) (minutes 30) "Core";
                   SleepSegment.Build (minutes 30) (minutes 90) "Awake";
                   SleepSegment.Build (minutes 90) (hours 2) "Core";
                   SleepSegment.Build (hours 6) (hours 7) "REM"])
             <= SleepSegment.start_dt s
             /\ SleepSegment.end_dt s
                <= SleepSession.end_dt
                     (SleepSession.Build (hours 0) (hours 7)
                        [SleepSegment.Build (hours 0) (minutes 30) "Core";
                         SleepSegment.Build (minutes 30) (minutes 90) "Awake";
                         SleepSegment.Build (minutes 90) (hours 2) "Core";
                         SleepSegment.Build (hours 6) (hours 7) "REM"]))
  /\ (exists s, In s night_example /\ SleepSession.kept s = true
                /\ SleepSegment.start_dt s
                   = SleepSession.start_dt
                       (SleepSession.Build (hours 0) (hours 7)
                          [SleepSegment.Build (hours 0) (minutes 30) "Core";
                           SleepSegment.Build (minutes 30) (minutes 90) "Awake";
                           SleepSegment.Build (minutes 90) (hours 2) "Core";
                           SleepSegment.Build (hours 6) (hours 7) "REM"]))
  /\ (exists s, In s night_example /\ SleepSession.kept s = true
                /\ SleepSegment.end_dt s
                   = SleepSession.end_dt
                       (SleepSession.Build (hours 0) (hours 7)
                          [SleepSegment.Build (hours 0) (minutes 30) "Core";
                           SleepSegment.Build (minutes 30) (minutes 90) "Awake";
                           SleepSegment.Build (minutes 90) (hours 2) "Core";
                           SleepSegment.Build (hours 6) (hours 7) "REM"])).
Proof.
  apply (session_spans_kept_segments night_example).
  - exact night_example_valid.
  - vm_compute. reflexivity.
Defined.

(** X6.  When the segments come ordered by start and with ascending ends (no
    segment ends before an earlier one), each session returned by
    [build_sleep_sessions] starts more than [gap] after the session before
    it ends. *)
Theorem sessions_separated (segs : list segment) (gap : timedelta)
        (l : list session) :
  Forall valid segs -> time_ordered segs -> ends_ascending segs ->
  build_sleep_sessions segs gap = Ok l ->
  linked (separated gap) l.
Proof.
  intros Hv Hto Hea H.
  destruct (build_sleep_sessions_groups segs gap Hv) as (l' & Hl' & HF).
  rewrite H in Hl'. inversion Hl'; subst l'. clear Hl'.
  pose proof (gap_groups_grouping gap (filter SleepSession.kept segs))
    as (Hcat & _ & _ & Hsplit).
  apply (chain_filter _ SleepSession.kept) in Hto.
  apply (chain_filter _ SleepSession.kept) in Hea.
  unfold time_ordered, ends_ascending in *. rewrite <- Hcat in Hto, Hea.
  eapply linked_Forall2; [exact HF|exact Hsplit|].
  intros g h a b Hg Hh Ha Hb (g' & x & y & h' & -> & -> & Hgap).
  destruct (group_valid gap segs _ Hv Hg) as [Hvg _].
  destruct (group_valid gap segs _ Hv Hh) as [Hvh _].
  destruct (session_hull _ _ Hvg Ha) as (_ & _ & se & Hse & _ & Ee).
  destruct (session_hull _ _ Hvh Hb) as (_ & (ss & Hss & _ & Es) & _).
  pose proof (last_end_is_latest _ se x
                (chain_concat_member _ _ _ Hea Hg) Hse) as Hle.
  rewrite last_last in Hle.
  pose proof (chain_concat_member _ _ _ Hto Hh) as [Hy _].
  assert (Hs : SleepSegment.start_dt y <= SleepSegment.start_dt ss).
  { destruct Hss as [<-|Hss]; [lia|].
    rewrite Forall_forall in Hy. apply Hy, Hss. }
  unfold separated. lia.
Qed.

Lemma sessions_separated_witness :
  linked (separated (hours 2))
    [SleepSession.Build (hours 0) (hours 2)
       [SleepSegment.Build (hours 0) (hours 1) "Core";
        SleepSegment.Build (hours 1) (hours 2) "REM"];
     SleepSession.Build (hours 5) (hours 6)
       [SleepSegment.Build (hours 5) (hours 6) "Deep"]].
Proof.
  apply (sessions_separated
           [SleepSegment.Build (hours 0) (hours 1) "Core";
            SleepSegment.Build (hours 1) (hours 2) "REM";
            SleepSegment.Build (hours 5) (hours 6) "Deep"]).
  - repeat constructor.
  - unfold time_ordered; simpl; repeat constructor; vm_compute; discriminate.
  - unfold ends_ascending; simpl; repeat constructor; vm_compute; discriminate.
  - vm_compute. reflexivity.
Defined.

(** X7.  On constructed segments [build_sleep_sessions] returns no session
    when nothing passes its filter, and otherwise one session more than
    there are kept segments that start more than [gap] after the end of the
    kept segment before them. *)
Theorem session_count (segs : list segment) (gap : timedelta) :
  Forall valid segs ->
  exists l,
    build_sleep_sessions segs gap = Ok l
    /\ List.length l
       = match filter SleepSession.kept segs with
         | [] => O
         | _ :: _ => S (count_splits gap (filter SleepSession.kept segs))
         end.
Proof.
  intros Hv. destruct (build_sleep_sessions_ok segs gap Hv) as (l & Hl & _ & Hn).
  exists l. split; [exact Hl|]. rewrite Hn.
  destruct (filter SleepSession.kept segs) as [|x r]; [reflexivity|].
  exact (gap_groups_length gap r [] x).
Qed.

Lemma session_count_witness :
  exists l,
    build_sleep_sessions night_example (hours 2) = Ok l
    /\ List.length l
       = match filter SleepSession.kept night_example with
         | [] => O
         | _ :: _ =>
             S (count_splits (hours 2) (filter SleepSession.kept night_example))
         end.
Proof. apply (session_count night_example (hours 2)), night_example_valid. Defined.

(** X8.  The grouper loses and invents no sleep: every instant of an input
    segment that passes the filter lies in a segment of one of the returned
    sessions, and every instant of a segment of a returned session lies in
    a kept input segment of the same stage. *)
Theorem grouper_keeps_timeline (segs : list segment) (gap : timedelta)
        (l : list session) :
  Forall valid segs ->
  build_sleep_sessions segs gap = Ok l ->
  (forall s t,
      In s segs -> SleepSession.kept s = true -> contains s t ->
      exists sess o,
        In sess l /\ In o (SleepSession.segments sess) /\ contains o t)
  /\ (forall sess o t,
         In sess l -> In o (SleepSession.segments sess) -> contains o t ->
         exists s,
           In s segs /\ SleepSession.kept s = true /\ contains s t
           /\ SleepSegment.stage s = SleepSegment.stage o).
Proof.
  intros Hv H.
  destruct (build_sleep_sessions_groups segs gap Hv) as (l' & Hl' & HF).
  rewrite H in Hl'. inversion Hl'; subst l'. clear Hl'.
  pose proof (gap_groups_grouping gap (filter SleepSession.kept segs))
    as (Hcat & _).
  split.
  - intros s t Hs Hk Ht.
    assert (Hin : In s (filter SleepSession.kept segs))
      by (apply filter_In; auto).
    rewrite <- Hcat in Hin. apply in_concat in Hin as (g & Hg & Hsg).
    destruct (Forall2_In_l _ _ _ _ HF Hg) as (sess & Hsess & Hfrom).
    destruct (group_valid gap segs _ Hv Hg) as [Hvg _].
    destruct (normal_form_complete g s t Hsg Hk Ht) as (o & Ho & Hot).
    exists sess, o. rewrite (from_segments_segments g sess Hvg Hfrom). auto.
  - intros sess o t Hsess Ho Ht.
    destruct (Forall2_In_r _ _ _ _ HF Hsess) as (g & Hg & Hfrom).
    destruct (group_valid gap segs _ Hv Hg) as [Hvg Hmem].
    rewrite (from_segments_segments g sess Hvg Hfrom) in Ho.
    destruct (normal_form_sound g o t Ho Ht) as ((s & Hs & Hk & Hst & Hstage) & _).
    rewrite Forall_forall in Hmem. destruct (Hmem s Hs) as [Hin _].
    exists s. auto.
Qed.

Lemma grouper_keeps_timeline_witness :
  (forall s t,
      In s night_example -> SleepSession.kept s = true -> contains s t ->
      exists sess o,
        In sess
           [SleepSession.Build (hours 0) (hours 2)
              [SleepSegment.Build (hours 0) (minutes 30) "Core";
               SleepSegment.Build (minutes 30) (minutes 90) "Awake";
               SleepSegment.Build (minutes 90) (hours 2) "Core"];
            SleepSession.Build (hours 6) (hours 7)
              [SleepSegment.Build (hours 6) (hours 7) "REM"]]
        /\ In o (SleepSession.segments sess) /\ contains o t)
  /\ (forall sess o t,
         In sess
            [SleepSession.Build (hours 0) (hours 2)
               [SleepSegment.Build (hours 0) (minutes 30) "Core";
                SleepSegment.Build (minutes 30) (minutes 90) "Awake";
                SleepSegment.Build (minutes 90) (hours 2) "Core"];
             SleepSession.Build (hours 6) (hours 7)
               [SleepSegment.Build (hours 6) (hours 7) "REM"]] ->
         In o (SleepSession.segments sess) -> contains o t ->
         exists s,
           In s night_example /\ SleepSession.kept s = true /\ contains s t
           /\ SleepSegment.stage s = SleepSegment.stage o).
Proof.
  apply (grouper_keeps_timeline night_example (hours 2)).
  - exact night_example_valid.
  - vm_compute. reflexivity.
Defined.

(** X9.  [from_dict] is a projection: whenever [from_dict] builds a record
    [r] from a mapping, rebuilding from [r.to_dict()] gives [r] again, with
    the same tag, type, time window and attributes. *)
Theorem from_dict_idempotent {lib : DatetimeLibrary} (attrs : pydict)
        (r : HealthRecord.t) :
  HealthRecord.from_dict attrs = Ok r ->
  HealthRecord.from_dict (HealthRecord.to_dict r) = Ok r.
Proof.
  intros H. unfold HealthRecord.from_dict in H.
  set (tag := get_or (dict_find attrs "_tag")
                (get_or (dict_find attrs "tag") (VStr "Record"))) in *.
  set (a1 := dict_set attrs "_tag" tag) in *.
  set (rt := get_or (dict_find a1 "_type")
               (HealthRecord._determine_record_type tag a1)) in *.
  set (a2 := dict_set a1 "_type" rt) in *.
  destruct (HealthRecord._derive_time_window a2) as [w|e] eqn:Ew;
    simpl in H; [|discriminate].
  inversion H; subst r; clear H.
  assert (Htt : truthy tag = true)
    by (unfold tag; repeat apply truthy_get_or; reflexivity).
  assert (Hrt : truthy rt = true)
    by (unfold rt; apply truthy_get_or, truthy_determine_record_type, Htt).
  assert (Hf1 : dict_find a2 "_tag" = Some tag).
  { unfold a2. rewrite dict_find_set_other by discriminate.
    apply dict_find_set_same. }
  assert (Hf2 : dict_find a2 "_type" = Some rt)
    by apply dict_find_set_same.
  unfold HealthRecord.from_dict, HealthRecord.to_dict. simpl.
  rewrite Hf1, (get_or_truthy tag _ Htt).
  rewrite (dict_set_unchanged a2 "_tag" tag Hf1).
  rewrite Hf2, (get_or_truthy rt _ Hrt).
  rewrite (dict_set_unchanged a2 "_type" rt Hf2).
  rewrite Ew. reflexivity.
Qed.

Lemma from_dict_idempotent_witness :
  @HealthRecord.from_dict reference_library
    (HealthRecord.to_dict
       (HealthRecord.Build (VStr "Record") (VStr "X")
          (Some (Aware (wall_of 2024 1 20 8 0 0) 0))
          (Some (Aware (wall_of 2024 1 20 8 0 0) 0))
          [("type", VStr "X"); ("startDate", VStr "2024-01-20 08:00:00");
           ("_tag", VStr "Record"); ("_type", VStr "X")]%string))
  = Ok (HealthRecord.Build (VStr "Record") (VStr "X")
          (Some (Aware (wall_of 2024 1 20 8 0 0) 0))
          (Some (Aware (wall_of 2024 1 20 8 0 0) 0))
          [("type", VStr "X"); ("startDate", VStr "2024-01-20 08:00:00");
           ("_tag", VStr "Record"); ("_type", VStr "X")]%string).
Proof.
  apply (@from_dict_idempotent reference_library
           [("type", VStr "X"); ("startDate", VStr "2024-01-20 08:00:00")]%string).
  vm_compute. reflexivity.
Defined.

(** X10.  The mapping of a record built by [from_dict] holds the record's
    tag under [_tag] and its type under [_type], neither of them empty, and
    agrees with the mapping passed in on every other key. *)
Theorem from_dict_preserves_attributes {lib : DatetimeLibrary} (attrs : pydict)
        (r : HealthRecord.t) :
  HealthRecord.from_dict attrs = Ok r ->
  dict_find (HealthRecord.to_dict r) "_tag" = Some (HealthRecord.tag r)
  /\ dict_find (HealthRecord.to_dict r) "_type" = Some (HealthRecord.record_type r)
  /\ truthy (HealthRecord.tag r) = true
  /\ truthy (HealthRecord.record_type r) = true
  /\ (forall k,
         k <> "_tag"%string -> k <> "_type"%string ->
         dict_find (HealthRecord.to_dict r) k = dict_find attrs k).
Proof.
  intros H. unfold HealthRecord.from_dict in H.
  set (tag := get_or (dict_find attrs "_tag")
                (get_or (dict_find attrs "tag") (VStr "Record"))) in *.
  set (a1 := dict_set attrs "_tag" tag) in *.
  set (rt := get_or (dict_find a1 "_type")
               (HealthRecord._determine_record_type tag a1)) in *.
  set (a2 := dict_set a1 "_type" rt) in *.
  destruct (HealthRecord._derive_time_window a2) as [w|e] eqn:Ew;
    simpl in H; [|discriminate].
  inversion H; subst r; clear H. unfold HealthRecord.to_dict. simpl.
  assert (Htt : truthy tag = true)
    by (unfold tag; repeat apply truthy_get_or; reflexivity).
  repeat split.
  - unfold a2. rewrite dict_find_set_other by discriminate.
    apply dict_find_set_same.
  - apply dict_find_set_same.
  - exact Htt.
  - unfold rt. apply truthy_get_or, truthy_determine_record_type, Htt.
  - intros k H1 H2. unfold a2, a1.
    rewrite !dict_find_set_other by congruence. reflexivity.
Qed.

Lemma from_dict_preserves_attributes_witness :
  dict_find
    (HealthRecord.to_dict
       (HealthRecord.Build (VStr "Workout") (VStr "Running") None None
          [("tag", VStr "Workout"); ("workoutActivityType", VStr "Running");
           ("_tag", VStr "Workout"); ("_type", VStr "Running")]%string))
    "_tag"
  = Some (HealthRecord.tag
            (HealthRecord.Build (VStr "Workout") (VStr "Running") None None
               [("tag", VStr "Workout"); ("workoutActivityType", VStr "Running");
                ("_tag", VStr "Workout"); ("_type", VStr "Running")]%string))
  /\ dict_find
       (HealthRecord.to_dict
          (HealthRecord.Build (VStr "Workout") (VStr "Running") None None
             [("tag", VStr "Workout"); ("workoutActivityType", VStr "Running");
              ("_tag", VStr "Workout"); ("_type", VStr "Running")]%string))
       "_type"
     = Some (HealthRecord.record_type
               (HealthRecord.Build (VStr "Workout") (VStr "Running") None None
                  [("tag", VStr "Workout"); ("workoutActivityType", VStr "Running");
                   ("_tag", VStr "Workout"); ("_type", VStr "Running")]%string))
  /\ truthy
       (HealthRecord.tag
          (HealthRecord.Build (VStr "Workout") (VStr "Running") None None
             [("tag", VStr "Workout"); ("workoutActivityType", VStr "Running");
              ("_tag", VStr "Workout"); ("_type", VStr "Running")]%string))
     = true
  /\ truthy
       (HealthRecord.record_type
          (HealthRecord.Build (VStr "Workout") (VStr "Running") None None
             [("tag", VStr "Workout"); ("workoutActivityType", VStr "Running");
              ("_tag", VStr "Workout"); ("_type", VStr "Running")]%string))
     = true
  /\ (forall k,
         k <> "_tag"%string -> k <> "_type"%string ->
         dict_find
           (HealthRecord.to_dict
              (HealthRecord.Build (VStr "Workout") (VStr "Running") None None
                 [("tag", VStr "Workout"); ("workoutActivityType", VStr "Running");
                  ("_tag", VStr "Workout"); ("_type", VStr "Running")]%string))
           k
         = dict_find
             [("tag", VStr "Workout"); ("workoutActivityType", VStr "Running")]%string
             k).
Proof.
  apply (@from_dict_preserves_attributes reference_library
           [("tag", VStr "Workout");
            ("workoutActivityType", VStr "Running")]%string).
  vm_compute. reflexivity.
Defined.

(** X11.  Whichever constructor builds it, a record has either no start and
    no end, or both, and then its end is not before its start: an end date
    that precedes the start date is replaced by the start. *)
Theorem record_window_ordered {lib : DatetimeLibrary} (r : HealthRecord.t) :
  (exists elem, HealthRecord.from_element elem = Ok r)
  \/ (exists attrs, HealthRecord.from_dict attrs = Ok r) ->
  window_ordered r.
Proof.
  intros [[elem H]|[attrs H]].
  - unfold HealthRecord.from_element in H.
    destruct (HealthRecord._parse_attributes elem) as [a0|]; simpl in H;
      [|discriminate].
    match type of H with
    | context [HealthRecord._derive_time_window ?a] =>
        destruct (HealthRecord._derive_time_window a) as [[s e]|] eqn:Ew;
        simpl in H; [|discriminate]
    end.
    inversion H; subst r. apply derive_time_window_ordered in Ew.
    unfold window_ordered. simpl. exact Ew.
  - unfold HealthRecord.from_dict in H.
    match type of H with
    | context [HealthRecord._derive_time_window ?a] =>
        destruct (HealthRecord._derive_time_window a) as [[s e]|] eqn:Ew;
        simpl in H; [|discriminate]
    end.
    inversion H; subst r. apply derive_time_window_ordered in Ew.
    unfold window_ordered. simpl. exact Ew.
Qed.

Lemma record_window_ordered_witness :
  window_ordered
    (HealthRecord.Build (VStr "Record") (VStr "X")
       (Some (Aware (wall_of 2024 1 2 0 0 0) 0))
       (Some (Aware (wall_of 2024 1 2 0 0 0) 0))
       [("type", VStr "X"); ("startDate", VStr "2024-01-02 00:00:00 +0000");
        ("endDate", VStr "2024-01-01 00:00:00 +0000");
        ("_tag", VStr "Record"); ("_type", VStr "X")]%string).
Proof.
  apply (@record_window_ordered reference_library).
  left. exists (Element "Record"
                  [("type", "X"); ("startDate", "2024-01-02 00:00:00 +0000");
                   ("endDate", "2024-01-01 00:00:00 +0000")]%string []).
  vm_compute. reflexivity.
Defined.

(** X12.  Every record the reader yields was built by [from_element] from an
    element it processed, and passed both full filters: when a non-empty
    collection of types is given, the type or the tag of the record is one
    of them, and when [to_datetime] reads the start or the end given as a
    datetime, the record has a start and an end, does not end before the
    window opens and does not start after it closes.  A bound that
    [to_datetime] cannot read counts as absent. *)
Theorem reader_yields_matching_records {lib : DatetimeLibrary} (root : element)
        (types : option (list string)) (start end_ : pyarg)
        (r : HealthRecord.t) :
  In r (yielded (iter_health_records root types start end_)) ->
  exists ws we elem,
    to_datetime start = Ok ws /\ to_datetime end_ = Ok we
    /\ window start end_ = Ok (ws, we)
    /\ In elem (top_level_events root)
    /\ HealthRecord.from_element elem = Ok r
    /\ (forall t ts, types = Some (t :: ts) -> matches_types r (t :: ts))
    /\ (ws <> None \/ we <> None -> inside_window r ws we).
Proof.
  unfold iter_health_records. intros Hr.
  destruct (window start end_) as [[ws we]|e] eqn:Ew; [|contradiction].
  apply generate_yielded in Hr. destruct Hr as (elem & Helem & Hp).
  exists ws, we, elem.
  assert (Hb : to_datetime start = Ok ws /\ to_datetime end_ = Ok we).
  { unfold window in Ew.
    destruct (to_datetime start) as [s|]; cbn [bind] in Ew; [|discriminate].
    destruct (to_datetime end_) as [e|]; cbn [bind] in Ew; [|discriminate].
    match type of Ew with
    | (reversed <- ?m ;; _) = _ => destruct m as [[]|]
    end; cbn [bind] in Ew; try discriminate.
    inversion Ew; subst. auto. }
  split; [apply Hb|]. split; [apply Hb|].
  split; [reflexivity|]. split; [exact Helem|].
  split; [eapply process_yields; exact Hp|].
  apply process_passes_filters in Hp. destruct Hp as [Ht Hw]. split.
  - intros t ts ->. apply is_any_of_types_true. exact Ht.
  - intros Hgiven. apply intersects_time_window_true in Hw.
    destruct Hw as [[-> ->]|Hw]; [|exact Hw].
    destruct Hgiven as [H|H]; contradiction.
Qed.

Lemma reader_yields_matching_records_witness :
  exists ws we elem,
    @to_datetime reference_library (ArgStr "2024-01-20 00:00:00 +0000") = Ok ws
    /\ @to_datetime reference_library (ArgStr "tomorrow") = Ok we
    /\ @window reference_library (ArgStr "2024-01-20 00:00:00 +0000")
         (ArgStr "tomorrow") = Ok (ws, we)
    /\ In elem (top_level_events sample_document)
    /\ @HealthRecord.from_element reference_library elem = Ok sample_step_record
    /\ (forall t ts,
           Some ["HKQuantityTypeIdentifierStepCount"%string] = Some (t :: ts) ->
           matches_types sample_step_record (t :: ts))
    /\ (ws <> None \/ we <> None -> inside_window sample_step_record ws we).
Proof.
  apply (@reader_yields_matching_records reference_library sample_document
           (Some ["HKQuantityTypeIdentifierStepCount"%string])
           (ArgStr "2024-01-20 00:00:00 +0000") (ArgStr "tomorrow")).
  vm_compute. left. reflexivity.
Defined.



(** X14.  Without a type filter ([None] or an empty collection) and without
    a window, on a document in which the root's tag is not used below the
    root, the reader yields the record of every child of the root, in
    document order, provided each can be built; [parse_health_data] returns
    their mappings. *)
Theorem reader_unfiltered_reads_every_child {lib : DatetimeLibrary}
        (root : element) (types : option (list string))
        (rs : list HealthRecord.t) :
  Forall (tag_unused (Elem.tag root)) (Elem.children root) ->
  types = None \/ types = Some [] ->
  mapM HealthRecord.from_element (Elem.children root) = Ok rs ->
  iter_health_records root types ArgNone ArgNone = Generated rs None
  /\ parse_health_data root types ArgNone ArgNone
     = Ok (map HealthRecord.to_dict rs).
Proof.
  intros Hflat Ht Hrs.
  assert (Hi : iter_health_records root types ArgNone ArgNone
               = Generated rs None).
  { unfold iter_health_records. simpl.
    replace (types_set_of types) with (@None (list string))
      by (destruct Ht as [->| ->]; reflexivity).
    rewrite (top_level_events_flat root Hflat).
    apply (generate_all HealthRecord.from_element);
      [apply process_unfiltered | exact Hrs]. }
  split; [exact Hi|]. unfold parse_health_data. rewrite Hi. reflexivity.
Qed.

Lemma reader_unfiltered_reads_every_child_witness :
  @iter_health_records reference_library overridden_type_document (Some [])
    ArgNone ArgNone
  = Generated [overridden_type_record] None
  /\ @parse_health_data reference_library overridden_type_document (Some [])
       ArgNone ArgNone
     = Ok (map HealthRecord.to_dict [overridden_type_record]).
Proof.
  apply (@reader_unfiltered_reads_every_child reference_library).
  - repeat constructor; simpl; discriminate.
  - right. reflexivity.
  - vm_compute. reflexivity.
Defined.

(** X15.  On an element whose children are all metadata entries,
    [_parse_attributes] raises nothing and returns the dictionary of the XML
    attributes followed by the entries that have a non-empty key and a
    value: under every key it holds the value of the last such entry with
    that key and, when there is none, the XML attribute. *)
Theorem metadata_entries_override_attributes (tag : string)
        (attrib : list (string * string)) (children : list element) :
  Forall (fun c => Elem.tag c = "MetadataEntry"%string) children ->
  HealthRecord._parse_attributes (Element tag attrib children)
  = Ok (dict_of_items (map str_item (attrib ++ metadata_items children)))
  /\ (forall k,
         dict_find
           (dict_of_items (map str_item (attrib ++ metadata_items children))) k
         = option_map VStr
             (match dict_find (rev (metadata_items children)) k with
              | Some v => Some v
              | None => dict_find (rev attrib) k
              end)).
Proof.
  intros Hmd. split.
  - rewrite map_app, dict_of_items_app. cbn [HealthRecord._parse_attributes].
    change (map (fun kv : string * string => (fst kv, VStr (snd kv))) attrib)
      with (map str_item attrib).
    generalize (dict_of_items (map str_item attrib)).
    induction Hmd as [|c cs Hc _ IH]; intros acc; [reflexivity|].
    unfold metadata_items. cbn [flat_map]. fold (metadata_items cs).
    rewrite Hc. cbn [String.eqb Ascii.eqb Bool.eqb].
    destruct (Elem.get c "key") as [key|]; [|apply IH].
    destruct (Elem.get c "value") as [value|]; [|apply IH].
    destruct (String.eqb key ""); cbn [negb app map fold_left]; apply IH.
  - intros k. rewrite dict_find_of_items, <- map_rev, dict_find_map_str.
    rewrite rev_app_distr. f_equal.
    generalize (rev (metadata_items children)) as l.
    induction l as [|[k0 v0] l IH]; simpl; [reflexivity|].
    destruct (String.eqb k0 k); [reflexivity | exact IH].
Qed.

Lemma metadata_entries_override_attributes_witness :
  HealthRecord._parse_attributes
    (Element "Record" [("type", "X")]%string
       [Element "MetadataEntry" [("key", "type"); ("value", "Y")]%string []])
  = Ok (dict_of_items
          (map str_item
             ([("type", "X")]%string
              ++ metadata_items
                   [Element "MetadataEntry"
                      [("key", "type"); ("value", "Y")]%string []])))
  /\ (forall k,
         dict_find
           (dict_of_items
              (map str_item
                 ([("type", "X")]%string
                  ++ metadata_items
                       [Element "MetadataEntry"
                          [("key", "type"); ("value", "Y")]%string []]))) k
         = option_map VStr
             (match
                 dict_find
                   (rev (metadata_items
                           [Element "MetadataEntry"
                              [("key", "type"); ("value", "Y")]%string []])) k
               with
               | Some v => Some v
               | None => dict_find (rev [("type", "X")]%string) k
               end)).
Proof.
  apply metadata_entries_override_attributes.
  repeat constructor.
Defined.

(** X16.  [to_datetime] ignores white space around the text: padding a text
    with white space on either side does not change the result, and a text
    of white space alone gives [None]. *)
Theorem to_datetime_ignores_padding {lib : DatetimeLibrary}
        (pre v post : string) :
  blank pre -> blank post ->
  to_datetime (ArgStr (pre ++ v ++ post)) = to_datetime (ArgStr v)
  /\ to_datetime (ArgStr pre) = Ok None.
Proof.
  intros Hpre Hpost. split.
  - unfold to_datetime. rewrite (strip_padded pre v post Hpre Hpost).
    reflexivity.
  - unfold to_datetime. rewrite (strip_blank pre Hpre). reflexivity.
Qed.

Lemma to_datetime_ignores_padding_witness :
  @to_datetime reference_library
    (ArgStr ("  " ++ "2024-01-20 08:00:00 -0700" ++ " "))
  = @to_datetime reference_library (ArgStr "2024-01-20 08:00:00 -0700")
  /\ @to_datetime reference_library (ArgStr "  ") = Ok None.
Proof.
  apply (@to_datetime_ignores_padding reference_library).
  - repeat constructor.
  - repeat constructor.
Defined.

(** X17.  Given a datetime object, [to_datetime] returns it when it has a
    zone and otherwise the same wall-clock reading in UTC, that is with the
    offset zero.  Given a text that, stripped, does not end in [Z] or [z],
    it returns [None] or an aware datetime and raises nothing, provided the
    library signals unparseable text with [ValueError] and its [%z] format
    yields aware datetimes. *)
Theorem to_datetime_results_are_aware {lib : DatetimeLibrary} :
  (forall w off,
      to_datetime (ArgDatetime (Aware w off)) = Ok (Some (Aware w off)))
  /\ (forall w, to_datetime (ArgDatetime (Naive w)) = Ok (Some (Aware w 0)))
  /\ (raises_only_ValueError lib ->
      (forall s d, strptime s "%Y-%m-%d %H:%M:%S %z" = Ok d -> is_aware d = true) ->
      forall v,
        ends_with_zulu (strip v) = false ->
        exists r,
          to_datetime (ArgStr v) = Ok r
          /\ forall d, r = Some d -> is_aware d = true).
Proof.
  split; [reflexivity|]. split; [reflexivity|].
  intros Hlib Hz v Hv.
  destruct (to_datetime_total Hlib (ArgStr v)) as [r Hr].
  exists r. split; [exact Hr|]. intros d ->.
  eapply to_datetime_aware_unless_zulu; eauto.
Qed.

Lemma to_datetime_results_are_aware_witness :
  exists r,
    @to_datetime reference_library (ArgStr "2024-01-20 08:00:00") = Ok r
    /\ forall d, r = Some d -> is_aware d = true.
Proof.
  apply (proj2 (proj2 (@to_datetime_results_are_aware reference_library))).
  - exact reference_library_errors.
  - intros s d. simpl. unfold ref_strptime.
    rewrite String.eqb_refl.
    repeat match goal with
           | |- context [if ?b then _ else _] => destruct b
           | |- context [match ?x with _ => _ end] => destruct x
           end; intros H; inversion H; reflexivity.
  - vm_compute. reflexivity.
Defined.



(** X19.  Every segment [iter_sleep_segments] yields passes the checks of
    the [SleepSegment] constructor, ends after it starts, and holds the
    start and the end of a record of the reader; its stage is what
    [SLEEP_STAGES] gives for the record's [value].  The constructor never
    ends the generator: an exception is a [TypeError] or comes from the
    reader. *)
Theorem sleep_segments_are_constructed {lib : DatetimeLibrary} (root : element)
        (start end_ : pyarg) :
  (forall s,
      In s (yielded (iter_sleep_segments root start end_)) ->
      valid s /\ positive_length s
      /\ exists r sd ed,
          In r (yielded (iter_health_records root (Some [SLEEP_TYPE]) start end_))
          /\ HealthRecord.start_dt r = Some sd /\ HealthRecord.end_dt r = Some ed
          /\ SleepSegment.start_dt s = instant sd
          /\ SleepSegment.end_dt s = instant ed
          /\ stage_of (dict_find (HealthRecord.attributes r) "value")
             = Ok (SleepSegment.stage s))
  /\ (forall e,
         raised (iter_sleep_segments root start end_) = Some e ->
         e = TypeError
         \/ raised (iter_health_records root (Some [SLEEP_TYPE]) start end_)
            = Some e).
Proof.
  unfold iter_sleep_segments. cbn [yielded raised]. split.
  - intros s Hs. apply generate_yielded in Hs. destruct Hs as (r & Hr & Hb).
    destruct (segment_of_record_ok r s Hb) as (Hv & Hp & sd & ed & H).
    split; [exact Hv|]. split; [exact Hp|]. exists r, sd, ed. tauto.
  - intros e.
    destruct (raised (generate segment_of_record _)) as [x|] eqn:Eg.
    + intros H. inversion H; subst. left.
      apply generate_raised in Eg. destruct Eg as (r & _ & Hr).
      eapply segment_of_record_raises, Hr.
    + intros H. right. exact H.
Qed.

(** X20.  An element that has an XML attribute with the name of one of its
    child elements cannot be read: when the first child is not a metadata
    entry and the element has an attribute named as the child's tag,
    [_parse_attributes] raises [AttributeError], and so does
    [from_element]. *)
Theorem child_named_as_attribute_raises {lib : DatetimeLibrary} (tag : string)
        (attrib : list (string * string)) (c : element) (rest : list element)
        (v : string) (nested : pydict) :
  Elem.tag c <> "MetadataEntry"%string ->
  Elem.get (Element tag attrib (c :: rest)) (Elem.tag c) = Some v ->
  HealthRecord._parse_attributes c = Ok nested ->
  HealthRecord._parse_attributes (Element tag attrib (c :: rest))
  = Raise AttributeError
  /\ HealthRecord.from_element (Element tag attrib (c :: rest))
     = Raise AttributeError.
Proof.
  intros Hmd Hget Hnested.
  assert (Hp : HealthRecord._parse_attributes (Element tag attrib (c :: rest))
               = Raise AttributeError).
  { cbn [HealthRecord._parse_attributes].
    apply String.eqb_neq in Hmd. rewrite Hmd, Hnested. cbn [bind].
    change (map (fun kv : string * string => (fst kv, VStr (snd kv))) attrib)
      with (map str_item attrib).
    rewrite dict_find_of_items, <- map_rev, dict_find_map_str.
    unfold Elem.get in Hget. simpl in Hget.
    destruct (dict_find_rev_some _ _ _ Hget) as [v' ->]. reflexivity. }
  split; [exact Hp|]. unfold HealthRecord.from_element. rewrite Hp. reflexivity.
Qed.

Lemma child_named_as_attribute_raises_witness :
  HealthRecord._parse_attributes
    (Element "Record" [("device", "watch")]%string [Element "device" [] []])
  = Raise AttributeError
  /\ @HealthRecord.from_element reference_library
       (Element "Record" [("device", "watch")]%string [Element "device" [] []])
     = Raise AttributeError.
Proof.
  apply (@child_named_as_attribute_raises reference_library "Record"
           [("device", "watch")]%string (Element "device" [] []) []
           "watch" []).
  - discriminate.
  - reflexivity.
  - reflexivity.
Defined.

(** X21.  [from_segments] raises [ValueError] exactly when no segment passes
    its filter: on constructed segments it fails if every one is [InBed] or
    without length, and otherwise returns a session. *)
Theorem from_segments_fails_iff_nothing_kept (segs : list segment) :
  Forall valid segs ->
  (filter SleepSession.kept segs = [] ->
   SleepSession.from_segments segs = Raise ValueError)
  /\ (filter SleepSession.kept segs <> [] ->
      exists sess, SleepSession.from_segments segs = Ok sess).
Proof.
  intros Hv. split; intros H.
  - rewrite (from_segments_eq segs Hv), (normal_form_empty segs H). reflexivity.
  - apply from_segments_ok; assumption.
Qed.

Lemma from_segments_fails_iff_nothing_kept_witness :
  SleepSession.from_segments
    [SleepSegment.Build (hours 0) (hours 8) "InBed";
     SleepSegment.Build (hours 1) (hours 1) "Core"] = Raise ValueError.
Proof.
  apply (proj1 (from_segments_fails_iff_nothing_kept
                  [SleepSegment.Build (hours 0) (hours 8) "InBed";
                   SleepSegment.Build (hours 1) (hours 1) "Core"]
                  ltac:(repeat constructor))).
  reflexivity.
Defined.

(** X22.  Segments that do not pass the filter leave no trace in the
    sessions: wherever [InBed] segments and segments without length stand
    in the input, [build_sleep_sessions] returns what it returns without
    them, so that such a segment never bridges a gap. *)
Theorem grouper_ignores_dropped_segments (before dropped after : list segment)
        (gap : timedelta) :
  Forall (fun s => SleepSession.kept s = false) dropped ->
  build_sleep_sessions (before ++ dropped ++ after) gap
  = build_sleep_sessions (before ++ after) gap.
Proof.
  intros H. rewrite !build_sleep_sessions_eq, !filter_app.
  rewrite (filter_none _ _ H). reflexivity.
Qed.

Lemma grouper_ignores_dropped_segments_witness :
  build_sleep_sessions
    ([SleepSegment.Build (hours 0) (hours 1) "Core"]
     ++ [SleepSegment.Build (hours 1) (hours 5) "InBed"]
     ++ [SleepSegment.Build (hours 5) (hours 6) "REM"]) (hours 2)
  = build_sleep_sessions
      ([SleepSegment.Build (hours 0) (hours 1) "Core"]
       ++ [SleepSegment.Build (hours 5) (hours 6) "REM"]) (hours 2).
Proof.
  apply (grouper_ignores_dropped_segments
           [SleepSegment.Build (hours 0) (hours 1) "Core"]
           [SleepSegment.Build (hours 1) (hours 5) "InBed"]
           [SleepSegment.Build (hours 5) (hours 6) "REM"]).
  repeat constructor.
Defined.

(** X23.  Nested children are grouped by tag.  When [_parse_attributes]
    returns for an element and [t] is neither the name of one of its XML
    attributes nor the key of one of its metadata entries, the result has
    no key [t] if no child is named [t], and otherwise holds under [t] the
    list of the dictionaries of the children named [t], in document order,
    each with its tag under [_tag]. *)
Theorem nested_children_are_grouped (tag : string)
        (attrib : list (string * string)) (children : list element)
        (result : pydict) (t : string) :
  HealthRecord._parse_attributes (Element tag attrib children) = Ok result ->
  dict_find attrib t = None ->
  dict_find (metadata_items children) t = None ->
  exists items,
    Forall2 (fun c n => nested_dict c = Ok n) (children_named t children) items
    /\ dict_find result t
       = match items with
         | [] => None
         | _ :: _ => Some (VList items)
         end.
Proof.
  intros Hres Hattr Hmd. rewrite parse_attributes_loop in Hres.
  assert (Hacc : dict_find (dict_of_items (map str_item attrib)) t = None).
  { rewrite dict_find_of_items, <- map_rev, dict_find_map_str.
    destruct (dict_find (rev attrib) t) as [v|] eqn:E; [|reflexivity].
    rewrite <- (rev_involutive attrib) in Hattr.
    destruct (dict_find_rev_some _ _ _ E) as [v' Hv']. congruence. }
  destruct (parse_children_groups t children _ result [] Hres Hmd)
    as (items & HF & Hr); [left; auto|].
  exists items. split; [exact HF|].
  rewrite Hr, Hacc. reflexivity.
Qed.

Lemma nested_children_are_grouped_witness :
  exists items,
    Forall2 (fun c n => nested_dict c = Ok n)
      (children_named "Bar"
         [Element "Foo" [("key", "Bar"); ("value", "1")]%string [];
          Element "MetadataEntry" [("key", "k"); ("value", "v")]%string [];
          Element "Bar" [] [];
          Element "Bar" [("id", "2")]%string []])
      items
    /\ dict_find
         [("Foo",
           VList [[("key", VStr "Bar"); ("value", VStr "1");
                   ("_tag", VStr "Foo")]]);
          ("k", VStr "v");
          ("Bar",
           VList [[("_tag", VStr "Bar")];
                  [("id", VStr "2"); ("_tag", VStr "Bar")]])]%string
         "Bar"
       = match items with
         | [] => None
         | _ :: _ => Some (VList items)
         end.
Proof.
  apply (nested_children_are_grouped "Workout" []
           [Element "Foo" [("key", "Bar"); ("value", "1")]%string [];
            Element "MetadataEntry" [("key", "k"); ("value", "v")]%string [];
            Element "Bar" [] [];
            Element "Bar" [("id", "2")]%string []]).
  - vm_compute. reflexivity.
  - reflexivity.
  - reflexivity.
Defined.

(** X24.  [from_element] adds two keys to what [_parse_attributes] returns
    and changes nothing else: the record's tag, which is the element's, is
    stored under [_tag] and its type under [_type], replacing attributes of
    these names, and every other key keeps its value; the type of an
    element with a non-empty tag is not empty. *)
Theorem from_element_adds_tag_and_type {lib : DatetimeLibrary} (elem : element)
        (parsed : pydict) (r : HealthRecord.t) :
  HealthRecord._parse_attributes elem = Ok parsed ->
  HealthRecord.from_element elem = Ok r ->
  HealthRecord.tag r = VStr (Elem.tag elem)
  /\ dict_find (HealthRecord.to_dict r) "_tag" = Some (VStr (Elem.tag elem))
  /\ dict_find (HealthRecord.to_dict r) "_type" = Some (HealthRecord.record_type r)
  /\ (Elem.tag elem <> ""%string -> truthy (HealthRecord.record_type r) = true)
  /\ (forall k,
         k <> "_tag"%string -> k <> "_type"%string ->
         dict_find (HealthRecord.to_dict r) k = dict_find parsed k).
Proof.
  intros Hp H. unfold HealthRecord.from_element in H. rewrite Hp in H.
  cbn [bind] in H.
  set (tag := VStr (Elem.tag elem)) in *.
  set (a1 := dict_set parsed "_tag" tag) in *.
  set (rt := HealthRecord._determine_record_type tag a1) in *.
  set (a2 := dict_set a1 "_type" rt) in *.
  destruct (HealthRecord._derive_time_window a2) as [w|e] eqn:Ew;
    cbn [bind] in H; [|discriminate].
  inversion H; subst r; clear H. unfold HealthRecord.to_dict. simpl.
  repeat split.
  - unfold a2. rewrite dict_find_set_other by discriminate.
    apply dict_find_set_same.
  - apply dict_find_set_same.
  - intros Hne. apply truthy_determine_record_type. unfold tag. simpl.
    destruct (String.eqb_spec (Elem.tag elem) ""%string);
      [contradiction | reflexivity].
  - intros k H1 H2. unfold a2, a1.
    rewrite !dict_find_set_other by congruence. reflexivity.
Qed.

Lemma from_element_adds_tag_and_type_witness :
  HealthRecord.tag overridden_type_record
  = VStr (Elem.tag (Element "Record" [("type", "X")]%string
                      [Element "MetadataEntry"
                         [("key", "type"); ("value", "Y")]%string []]))
  /\ dict_find (HealthRecord.to_dict overridden_type_record) "_tag"
     = Some (VStr (Elem.tag (Element "Record" [("type", "X")]%string
                               [Element "MetadataEntry"
                                  [("key", "type"); ("value", "Y")]%string []])))
  /\ dict_find (HealthRecord.to_dict overridden_type_record) "_type"
     = Some (HealthRecord.record_type overridden_type_record)
  /\ (Elem.tag (Element "Record" [("type", "X")]%string
                  [Element "MetadataEntry"
                     [("key", "type"); ("value", "Y")]%string []])
      <> ""%string ->
      truthy (HealthRecord.record_type overridden_type_record) = true)
  /\ (forall k,
         k <> "_tag"%string -> k <> "_type"%string ->
         dict_find (HealthRecord.to_dict overridden_type_record) k
         = dict_find [("type", VStr "Y")]%string k).
Proof.
  apply (@from_element_adds_tag_and_type reference_library
           (Element "Record" [("type", "X")]%string
              [Element "MetadataEntry"
                 [("key", "type"); ("value", "Y")]%string []])).
  - reflexivity.
  - reflexivity.
Defined.

(** X25.  The normalizer cuts only where its input does: on constructed
    segments, every segment [_normalize] returns starts at the start or the
    end of an input segment that passes the filter, and ends at the start
    or the end of one. *)
Theorem normalize_cuts_at_input_boundaries (segs out : list segment)
        (o : segment) :
  Forall valid segs ->
  SleepSession._normalize segs = Ok out ->
  In o out ->
  boundary_of segs (SleepSegment.start_dt o)
  /\ boundary_of segs (SleepSegment.end_dt o).
Proof.
  intros Hv Hn Ho. rewrite (normalize_eq segs Hv) in Hn.
  inversion Hn; subst out; clear Hn.
  unfold normal_form in Ho.
  set (ks := sorted_by_key (filter SleepSession.kept segs)) in *.
  set (bs := SleepSession.boundaries_of ks) in *.
  assert (Hres : forall x,
             In x (resolved ks (combine bs (tl bs))) ->
             boundary_of segs (SleepSegment.start_dt x)
             /\ boundary_of segs (SleepSegment.end_dt x)).
  { intros x Hx. destruct (resolved_In _ _ _ Hx) as (_ & _ & Hp & _).
    apply combine_tl_In in Hp. destruct Hp as [Ha Hb].
    assert (Hb' : In (SleepSegment.end_dt x) bs)
      by (destruct bs; [contradiction | right; exact Hb]).
    split.
    - destruct (boundaries_of_inv _ _ Ha) as (s & Hs & Hsb).
      apply kept_sorted_In in Hs. exists s. tauto.
    - destruct (boundaries_of_inv _ _ Hb') as (s & Hs & Hsb).
      apply kept_sorted_In in Hs. exists s. tauto. }
  destruct (resolved ks (combine bs (tl bs))) as [|r0 rest]; [contradiction|].
  destruct (merged_from_bounds _ _ _ Ho) as [(x & Hx & Ex) (y & Hy & Ey)].
  rewrite Ex, Ey. split; [apply (Hres x Hx) | apply (Hres y Hy)].
Qed.

Lemma normalize_cuts_at_input_boundaries_witness :
  boundary_of night_example
    (SleepSegment.start_dt (SleepSegment.Build (minutes 90) (hours 2) "Core"))
  /\ boundary_of night_example
       (SleepSegment.end_dt (SleepSegment.Build (minutes 90) (hours 2) "Core")).
Proof.
  apply (normalize_cuts_at_input_boundaries night_example
           [SleepSegment.Build (hours 0) (minutes 30) "Core";
            SleepSegment.Build (minutes 30) (minutes 90) "Awake";
            SleepSegment.Build (minutes 90) (hours 2) "Core";
            SleepSegment.Build (hours 6) (hours 7) "REM"]).
  - exact night_example_valid.
  - vm_compute. reflexivity.
  - right. right. left. reflexivity.
Defined.

(** X26.  The reader keeps the order of the document and yields no element
    twice: the records it yields are, in order, the records [from_element]
    builds from a subsequence of the elements it processes. *)
Theorem reader_keeps_document_order {lib : DatetimeLibrary} (root : element)
        (types : option (list string)) (start end_ : pyarg) :
  exists elems,
    subsequence elems (top_level_events root)
    /\ Forall2 (fun elem r => HealthRecord.from_element elem = Ok r) elems
         (yielded (iter_health_records root types start end_)).
Proof.
  unfold iter_health_records.
  destruct (window start end_) as [[ws we]|e].
  - destruct (generate_subsequence (process (types_set_of types) ws we)
                (top_level_events root)) as (xs & Hs & HF).
    exists xs. split; [exact Hs|].
    eapply Forall2_impl; [|exact HF].
    intros elem r. apply process_yields.
  - exists []. split; [apply subsequence_nil | constructor].
Qed.

(** X27.  The pre-filters only remove records.  On a document in which the
    root's tag is not used below the root, if constructing every child and
    applying the full filters runs to completion, then what the reader
    yields is, in order, part of what the full filters keep. *)
Theorem prefilters_only_remove {lib : DatetimeLibrary} (root : element)
        (types : option (list string)) (start end_ : pyarg) :
  Forall (tag_unused (Elem.tag root)) (Elem.children root) ->
  raised (full_filter_records root types start end_) = None ->
  subsequence (yielded (iter_health_records root types start end_))
              (yielded (full_filter_records root types start end_)).
Proof.
  intros Hflat. unfold iter_health_records, full_filter_records.
  rewrite (top_level_events_flat root Hflat).
  destruct (window start end_) as [[ws we]|e]; [|discriminate].
  apply generate_fewer. intros x y. apply process_full_filter.
Qed.

Lemma prefilters_only_remove_witness :
  subsequence
    (yielded (@iter_health_records reference_library overridden_type_document
                (Some ["Y"%string]) ArgNone ArgNone))
    (yielded (@full_filter_records reference_library overridden_type_document
                (Some ["Y"%string]) ArgNone ArgNone)).
Proof.
  apply (@prefilters_only_remove reference_library).
  - repeat constructor; simpl; discriminate.
  - reflexivity.
Defined.
